(** * NotifyFlow: the notification scheduling and response engine

    A shallow embedding of the backend of NotifyFlow:
    - [backend/models/Notification.js], [backend/models/Routine.js]
      (the documents and the model methods),
    - [backend/utils/notificationScheduler.js] (class NotificationScheduler),
    - [backend/routes/notifications.js] (POST /:id/response,
      POST /:id/snooze, POST /clear-snoozed),
    - [backend/routes/routines.js] (PATCH /:id/toggle, DELETE /:id,
      POST /:id/schedule, DELETE and PUT /:id/notifications),
    - [backend/models/UserMetric.js] (updateForResponse),
    - the socket handler [notification-response] of the server file.

    Conventions.
    - A JavaScript [Date] is its [getTime()] value: milliseconds since the
      epoch, a [Z].  Every [new Date()] / [Date.now()] evaluated while one
      handler runs reads the same instant, passed as [now].  Hours, minutes
      and weekday are taken in UTC.
    - An [ObjectId] is an opaque key compared by equality, a [Z].
    - A MongoDB collection is the list of its documents in natural order;
      [findOne] is [find], [deleteMany] is [filter], [updateMany] is [map].
    - [doc.save()] validates the document, loaded paths as well as
      modified ones, and throws when a validator fails; it writes the paths
      of the schema only.  [updateMany] and [updateOne] write without
      validating, and drop every path the schema does not declare.
      [status] is the one validated path the engine also writes with
      [updateMany] ('cancelled'), so a stored status can lie outside the
      enum and is checked on every save.  [userResponse.action] is written
      through [save()] only: a stored value has passed its validator, and
      the model checks it when the code changes it.  The other validated
      paths of a notification (type, sound, volume, the required strings)
      are written once, from a routine whose schema carries the same
      constraints, and stored routines pass the validators of their schema.
    - A query filter reaches MongoDB as it is written, also on a path the
      schema does not declare.
    - [console.log] calls are dropped.  Fields the engine never reads
      (category, priority, notificationSettings, the [updatedAt] of a
      notification) are omitted.
    - Status and action values are the strings the code compares. *)

From Stdlib Require Import ZArith List String Ascii Bool Lia QArith.
Import ListNotations.
Local Open Scope string_scope.
Local Open Scope Z_scope.

Definition ObjectId := Z.
Definition Date := Z.

(** [x || d] on a string: the empty string is falsy. *)
Definition str_or (x d : string) : string :=
  if String.eqb x "" then d else x.

(** [x || d] on a number: zero is falsy. *)
Definition Q_or (x d : Q) : Q :=
  if Qeq_bool x 0 then d else x.

(** [l.includes(s)] and the [$in] operator on strings. *)
Definition includes (l : list string) (s : string) : bool :=
  existsb (String.eqb s) l.

(** JavaScript [a < b] and [a > b] where [a] may be [undefined]:
    [undefined] converts to NaN and both comparisons are false. *)
Definition js_lt (a : option Z) (b : Z) : bool :=
  match a with Some x => x <? b | None => false end.

Definition js_gt (a : option Z) (b : Z) : bool :=
  match a with Some x => x >? b | None => false end.

(** [x || 0] on an optional number. *)
Definition num_or_0 (a : option Z) : Z :=
  match a with Some x => x | None => 0 end.

(** ** Documents *)

Module UserResponse.
Record t := mk {
  action : string;
  responseTime : option Z;
  timestamp : Date
}.
End UserResponse.

(** [processing] is not declared by the schema.  A stored document may
    carry the field, and MongoDB evaluates the filter of the response route
    on it; mongoose never writes it and does not define it on the documents
    it loads. *)
Module Notification.
Record t := mk {
  _id : ObjectId;
  user : ObjectId;
  routine : ObjectId;
  title : string;
  message : string;
  type : string;
  sound : string;
  volume : Q;
  status : string;
  userResponse : option UserResponse.t;
  deliveryAttempts : Z;
  scheduledFor : Date;
  deliveredAt : option Date;
  completedAt : option Date;
  snoozedUntil : option Date;
  originalSchedule : string;
  adaptiveAdjustment : Z;
  processing : option bool;
  createdAt : Date
}.

Definition set_status (v : string) (n : t) : t :=
  mk (_id n) (user n) (routine n) (title n) (message n) (type n) (sound n)
     (volume n) v (userResponse n) (deliveryAttempts n) (scheduledFor n)
     (deliveredAt n) (completedAt n) (snoozedUntil n) (originalSchedule n)
     (adaptiveAdjustment n) (processing n) (createdAt n).

Definition set_userResponse (v : option UserResponse.t) (n : t) : t :=
  mk (_id n) (user n) (routine n) (title n) (message n) (type n) (sound n)
     (volume n) (status n) v (deliveryAttempts n) (scheduledFor n)
     (deliveredAt n) (completedAt n) (snoozedUntil n) (originalSchedule n)
     (adaptiveAdjustment n) (processing n) (createdAt n).

Definition set_deliveryAttempts (v : Z) (n : t) : t :=
  mk (_id n) (user n) (routine n) (title n) (message n) (type n) (sound n)
     (volume n) (status n) (userResponse n) v (scheduledFor n)
     (deliveredAt n) (completedAt n) (snoozedUntil n) (originalSchedule n)
     (adaptiveAdjustment n) (processing n) (createdAt n).

Definition set_deliveredAt (v : option Date) (n : t) : t :=
  mk (_id n) (user n) (routine n) (title n) (message n) (type n) (sound n)
     (volume n) (status n) (userResponse n) (deliveryAttempts n)
     (scheduledFor n) v (completedAt n) (snoozedUntil n)
     (originalSchedule n) (adaptiveAdjustment n) (processing n)
     (createdAt n).

Definition set_completedAt (v : option Date) (n : t) : t :=
  mk (_id n) (user n) (routine n) (title n) (message n) (type n) (sound n)
     (volume n) (status n) (userResponse n) (deliveryAttempts n)
     (scheduledFor n) (deliveredAt n) v (snoozedUntil n)
     (originalSchedule n) (adaptiveAdjustment n) (processing n)
     (createdAt n).

Definition set_snoozedUntil (v : option Date) (n : t) : t :=
  mk (_id n) (user n) (routine n) (title n) (message n) (type n) (sound n)
     (volume n) (status n) (userResponse n) (deliveryAttempts n)
     (scheduledFor n) (deliveredAt n) (completedAt n) v
     (originalSchedule n) (adaptiveAdjustment n) (processing n)
     (createdAt n).

(** The [enum] lists of the schema. *)
Definition statusEnum : list string :=
  ["pending"; "delivered"; "completed"; "dismissed"; "snoozed"].

Definition actionEnum : list string :=
  ["completed"; "snoozed"; "dismissed"; "ignored"].

(** The validators [doc.save()] runs: the enum of [status] on the value
    the document holds, loaded or assigned, and the enum of
    [userResponse.action] on a value the code assigned since the document
    was loaded ([loaded]). *)
Definition status_valid (doc : t) : bool :=
  includes statusEnum (status doc).

Definition action_valid (loaded doc : t) : bool :=
  match userResponse doc with
  | None => true
  | Some ur =>
      match userResponse loaded with
      | Some ur0 =>
          String.eqb (UserResponse.action ur) (UserResponse.action ur0)
      | None => false
      end
      || includes actionEnum (UserResponse.action ur)
  end.

Definition validate (loaded doc : t) : bool :=
  status_valid doc && action_valid loaded doc.

Definition replace (doc : t) (coll : list t) : list t :=
  map (fun d => if _id d =? _id doc then doc else d) coll.

(** [None] is a rejected save (a ValidationError is thrown). *)
Definition save (loaded doc : t) (coll : list t) : option (list t) :=
  if validate loaded doc then Some (replace doc coll) else None.

(** Saving a document built with [new Notification(...)]. *)
Definition insert (doc : t) (coll : list t) : option (list t) :=
  if includes statusEnum (status doc) then Some (coll ++ [doc])%list else None.

Definition findById (id : ObjectId) (coll : list t) : option t :=
  find (fun d => _id d =? id) coll.

(** A document as mongoose hands it to a route: the paths of the schema
    read from the store, and the plain JavaScript property [processing]
    that the response route reads and assigns on the object.  Loading
    leaves the property undefined, whatever the stored document carries,
    and [save()] does not write it. *)
Record Loaded := mkLoaded {
  doc : t;
  processingProperty : option bool
}.

Definition hydrate (n : t) : Loaded := mkLoaded n None.

Definition with_doc (f : t -> t) (d : Loaded) : Loaded :=
  mkLoaded (f (doc d)) (processingProperty d).

Definition assign_processing (v : bool) (d : Loaded) : Loaded :=
  mkLoaded (doc d) (Some v).

(** [markAsDelivered] (model method). *)
Definition markAsDelivered (now : Date) (n : t) (coll : list t)
  : option (list t) :=
  let n1 := set_status "delivered" n in
  let n2 := set_deliveredAt (Some now) n1 in
  let n3 := set_deliveryAttempts (deliveryAttempts n2 + 1) n2 in
  save n n3 coll.

(** [handleUserResponse(action, responseTime)] (model method). *)
Definition handleUserResponse (action : string) (responseTime : option Z)
    (now : Date) (n : t) : t :=
  let n1 :=
    set_status (if String.eqb action "snoozed" then "snoozed" else action) n in
  let n2 :=
    set_userResponse (Some (UserResponse.mk action responseTime now)) n1 in
  if String.eqb action "completed" then set_completedAt (Some now) n2
  else if String.eqb action "snoozed"
       then set_snoozedUntil (Some (now + 5 * 60 * 1000)) n2
       else n2.
End Notification.

Module ScheduleEntry.
Record t := mk {
  time : string;
  days : list Z
}.
End ScheduleEntry.

Module AdaptiveTiming.
Record t := mk {
  enabled : bool;
  adjustment : Z;
  lastAdjustment : option Date
}.

(** Whether an assignment of [adjustment] and [lastAdjustment] changed a
    value: mongoose marks a path modified only then. *)
Definition changed (old new : t) : bool :=
  negb (adjustment new =? adjustment old)
  || match lastAdjustment old, lastAdjustment new with
     | Some a, Some b => negb (a =? b)
     | None, None => false
     | _, _ => true
     end.
End AdaptiveTiming.

Module Routine.
Record t := mk {
  _id : ObjectId;
  user : ObjectId;
  title : string;
  description : string;
  schedule : list ScheduleEntry.t;
  sound : string;
  volume : Q;
  isActive : bool;
  adaptiveTiming : AdaptiveTiming.t;
  updatedAt : Date
}.

Definition set_adaptiveTiming (v : AdaptiveTiming.t) (r : t) : t :=
  mk (_id r) (user r) (title r) (description r) (schedule r) (sound r)
     (volume r) (isActive r) v (updatedAt r).

Definition set_isActive (v : bool) (r : t) : t :=
  mk (_id r) (user r) (title r) (description r) (schedule r) (sound r)
     (volume r) v (adaptiveTiming r) (updatedAt r).

Definition set_updatedAt (v : Date) (r : t) : t :=
  mk (_id r) (user r) (title r) (description r) (schedule r) (sound r)
     (volume r) (isActive r) (adaptiveTiming r) v.

Definition replace (doc : t) (coll : list t) : list t :=
  map (fun d => if _id d =? _id doc then doc else d) coll.

(** No validator of the routine schema constrains what the engine
    writes ([adjustment] has no [min]/[max]), so [save] always stores. *)
Definition save (doc : t) (coll : list t) : list t := replace doc coll.

(** The schema has [timestamps: true]: [save()] sets [updatedAt] when a
    path of the document was modified. *)
Definition touch (modified : bool) (now : Date) (r : t) : t :=
  if modified then set_updatedAt now r else r.

Definition findById (id : ObjectId) (coll : list t) : option t :=
  find (fun d => _id d =? id) coll.
End Routine.

(** ** The transport and the state of the server *)

(** The fields of the object pushed with the [notification] event. *)
Module Payload.
Record t := mk {
  id : ObjectId;
  title : string;
  message : string;
  sound : string;
  volume : Q;
  routineId : ObjectId;
  timestamp : Date;
  type : string
}.
End Payload.

Inductive EventData : Type :=
| NotificationData (p : Payload.t)
| BroadcastData (p : Payload.t) (userId : ObjectId) (broadcast : bool)
| UpdatedData (notificationId : ObjectId) (status action : string)
    (snoozedUntil completedAt : option Date) (timestamp : Date)
| ErrorData (message : string).

(** [io.to(room).emit], [io.emit] and [socket.emit]. *)
Inductive Target : Type :=
| ToRoom (room : ObjectId)
| ToAll
| ToSocket (userId : ObjectId).

Record Emission := mkEmission {
  target : Target;
  event : string;
  data : EventData
}.

(** On connection every socket joins the room named after its
    authenticated user ([socket.join(socket.userId)]); [io.emit] reaches
    every connected socket. *)
Definition receives (u : ObjectId) (e : Emission) : bool :=
  match target e with
  | ToRoom r => r =? u
  | ToAll => true
  | ToSocket s => s =? u
  end.

(** The socket.io server held in [this.io]: whether each of the two emit
    calls of the dispatcher throws. *)
Module Io.
Record t := mk {
  to_emit_throws : bool;
  emit_throws : bool
}.
End Io.

(** One call of [UserMetric.updateForResponse]. *)
Record MetricEvent := mkMetricEvent {
  metric_user : ObjectId;
  metric_action : string;
  metric_responseTime : option Z
}.

Record World := mkWorld {
  notifications : list Notification.t;
  routines : list Routine.t;
  emitted : list Emission;
  metrics : list MetricEvent;
  nextId : ObjectId
}.

Definition set_notifications (v : list Notification.t) (w : World) : World :=
  mkWorld v (routines w) (emitted w) (metrics w) (nextId w).

Definition set_routines (v : list Routine.t) (w : World) : World :=
  mkWorld (notifications w) v (emitted w) (metrics w) (nextId w).

Definition emit (e : Emission) (w : World) : World :=
  mkWorld (notifications w) (routines w) (emitted w ++ [e])%list (metrics w)
          (nextId w).

Definition record_metric (m : MetricEvent) (w : World) : World :=
  mkWorld (notifications w) (routines w) (emitted w) (metrics w ++ [m])%list
          (nextId w).

Definition bump_nextId (w : World) : World :=
  mkWorld (notifications w) (routines w) (emitted w) (metrics w) (nextId w + 1).

(** Whether an [await]ed call returned or threw. *)
Inductive Completion : Type := Returned | Threw.

(** ** Clock fields *)

Definition getHours (d : Date) : Z := (d / 3600000) mod 24.
Definition getMinutes (d : Date) : Z := (d / 60000) mod 60.
(** 1 January 1970 was a Thursday (day 4). *)
Definition getDay (d : Date) : Z := (d / 86400000 + 4) mod 7.

Definition digit (d : Z) : string :=
  String (ascii_of_nat (48 + Z.to_nat d)) "".

(** [n.toString()] for [0 <= n < 100]. *)
Definition toString (n : Z) : string :=
  if n <? 10 then digit n else (digit (n / 10) ++ digit (n mod 10))%string.

(** [s.padStart(2, '0')]. *)
Definition padStart2 (s : string) : string :=
  if (String.length s <? 2)%nat then ("0" ++ s)%string else s.

(** ** class NotificationScheduler *)

Module NotificationScheduler.

(** The rule table of [updateAdaptiveTiming] (its [switch]). *)
Definition adjust (action : string) (responseTime : option Z)
    (adjustment : Z) : Z :=
  if String.eqb action "completed" then
    if js_lt responseTime 30 then Z.max (-10) (adjustment - 1)
    else if js_gt responseTime 120 then Z.min 10 (adjustment + 2)
    else adjustment
  else if String.eqb action "dismissed" then Z.min 15 (adjustment + 5)
  else if String.eqb action "snoozed" then Z.min 10 (adjustment + 3)
  else adjustment.

(** [updateAdaptiveTiming(routineId, userResponse)].
    [adjustment || 0] is the identity on an integer. *)
Definition updateAdaptiveTiming (routineId : ObjectId)
    (userResponse : UserResponse.t) (now : Date) (w : World) : World :=
  match Routine.findById routineId (routines w) with
  | None => w
  | Some routine =>
      if negb (AdaptiveTiming.enabled (Routine.adaptiveTiming routine))
      then w
      else
        let adjustment :=
          adjust (UserResponse.action userResponse)
                 (UserResponse.responseTime userResponse)
                 (AdaptiveTiming.adjustment (Routine.adaptiveTiming routine)) in
        let timing :=
          AdaptiveTiming.mk
            (AdaptiveTiming.enabled (Routine.adaptiveTiming routine))
            adjustment (Some now) in
        let routine' :=
          Routine.touch
            (AdaptiveTiming.changed (Routine.adaptiveTiming routine) timing)
            now (Routine.set_adaptiveTiming timing routine) in
        set_routines (Routine.save routine' (routines w)) w
  end.

Definition payloadOf (notification : Notification.t) (routine : Routine.t)
    (now : Date) : Payload.t :=
  Payload.mk (Notification._id notification)
             (Routine.title routine)
             (str_or (Routine.description routine)
                     ("Time for " ++ Routine.title routine)%string)
             (str_or (Routine.sound routine) "chime")
             (Q_or (Routine.volume routine) (7 # 10))
             (Routine._id routine)
             now
             "alarm".

(** The [catch] block of [sendRealTimeNotification]: [notification] is
    the in-memory document, [loaded] the one read from the store.  The
    status it assigns is not in the enum of the schema. *)
Definition sendRealTimeNotification_catch (loaded notification : Notification.t)
    (w : World) : World * Completion :=
  let n1 := Notification.set_status "failed" notification in
  let n2 :=
    Notification.set_deliveryAttempts
      (Notification.deliveryAttempts n1 + 1) n1 in
  match Notification.save loaded n2 (notifications w) with
  | Some coll => (set_notifications coll w, Returned)
  | None => (w, Threw)
  end.

(** [sendRealTimeNotification(notification, routine)].  [routine] is
    [None] when the populated reference is [null]: reading
    [routine.title] then throws. *)
Definition sendRealTimeNotification (io : option Io.t)
    (notification : Notification.t) (routine : option Routine.t)
    (now : Date) (w : World) : World * Completion :=
  match io with
  | None => (w, Returned)
  | Some io =>
      match routine with
      | None => sendRealTimeNotification_catch notification notification w
      | Some routine =>
          let notificationData := payloadOf notification routine now in
          if Io.to_emit_throws io
          then sendRealTimeNotification_catch notification notification w
          else
            let w1 :=
              emit (mkEmission (ToRoom (Routine.user routine)) "notification"
                      (NotificationData notificationData)) w in
            if Io.emit_throws io
            then sendRealTimeNotification_catch notification notification w1
            else
              let w2 :=
                emit (mkEmission ToAll "notification-broadcast"
                        (BroadcastData notificationData (Routine.user routine)
                           true)) w1 in
              let n1 := Notification.set_status "delivered" notification in
              let n2 := Notification.set_deliveredAt (Some now) n1 in
              match Notification.save notification n2 (notifications w2) with
              | Some coll => (set_notifications coll w2, Returned)
              | None => sendRealTimeNotification_catch notification n2 w2
              end
      end
  end.

(** The duplicate query of [createAndSendNotification]. *)
Definition isRecentFor (routine : Routine.t) (fiveMinutesAgo : Date)
    (n : Notification.t) : bool :=
  (Notification.user n =? Routine.user routine)
  && (Notification.routine n =? Routine._id routine)
  && (Notification.scheduledFor n >=? fiveMinutesAgo)
  && includes ["pending"; "delivered"; "snoozed"] (Notification.status n).

(** [createAndSendNotification(routine, scheduledTime)].  The routine is
    populated with its owner, so [routine.user._id] is the owner's id. *)
Definition createAndSendNotification (io : option Io.t) (routine : Routine.t)
    (scheduledTime : Date) (now : Date) (w : World) : World :=
  let fiveMinutesAgo := now - 5 * 60 * 1000 in
  match find (isRecentFor routine fiveMinutesAgo) (notifications w) with
  | Some existingNotification => w
  | None =>
      let timing := Routine.adaptiveTiming routine in
      let adaptiveAdjustment :=
        if AdaptiveTiming.enabled timing
           && negb (AdaptiveTiming.adjustment timing =? 0)
        then AdaptiveTiming.adjustment timing
        else 0 in
      let adjustedTime :=
        if negb (adaptiveAdjustment =? 0)
        then scheduledTime + adaptiveAdjustment * 60 * 1000
        else scheduledTime in
      let notification :=
        Notification.mk
          (nextId w) (Routine.user routine) (Routine._id routine)
          (Routine.title routine)
          (str_or (Routine.description routine)
                  ("Time for " ++ Routine.title routine)%string)
          "alarm"
          (str_or (Routine.sound routine) "chime")
          (Q_or (Routine.volume routine) (7 # 10))
          "pending" None 0 adjustedTime None None None
          (toString (getHours scheduledTime) ++ ":"
             ++ padStart2 (toString (getMinutes scheduledTime)))%string
          adaptiveAdjustment None now in
      match Notification.insert notification (notifications w) with
      | None => w
      | Some coll =>
          let w1 := bump_nextId (set_notifications coll w) in
          fst (sendRealTimeNotification io notification (Some routine) now w1)
      end
  end.

(** The filter of [Routine.find] in [checkScheduledRoutines]: an active
    routine with one entry holding both the time and the day
    ([$elemMatch]), or with the time in some entry and the day in some
    entry. *)
Definition hasDay (currentDay : Z) (e : ScheduleEntry.t) : bool :=
  existsb (Z.eqb currentDay) (ScheduleEntry.days e).

Definition hasTime (currentTime : string) (e : ScheduleEntry.t) : bool :=
  String.eqb (ScheduleEntry.time e) currentTime.

Definition isDue (currentTime : string) (currentDay : Z) (r : Routine.t)
  : bool :=
  Routine.isActive r
  && (existsb (fun e => hasTime currentTime e && hasDay currentDay e)
              (Routine.schedule r)
      || (existsb (hasTime currentTime) (Routine.schedule r)
          && existsb (hasDay currentDay) (Routine.schedule r))).

Definition currentTimeOf (now : Date) : string :=
  (padStart2 (toString (getHours now)) ++ ":"
     ++ padStart2 (toString (getMinutes now)))%string.

(** [checkScheduledRoutines()]. *)
Definition checkScheduledRoutines (io : option Io.t) (now : Date) (w : World)
  : World :=
  let currentTime := currentTimeOf now in
  let currentDay := getDay now in
  let activeRoutines := filter (isDue currentTime currentDay) (routines w) in
  fold_left (fun w routine => createAndSendNotification io routine now now w)
            activeRoutines w.

Definition isSnoozedDue (now : Date) (n : Notification.t) : bool :=
  String.eqb (Notification.status n) "snoozed"
  && match Notification.snoozedUntil n with
     | Some t => t <=? now
     | None => false
     end.

(** The [for] loop of [checkSnoozedNotifications]: an exception leaves
    the loop (it is caught outside it). *)
Fixpoint resend (io : option Io.t) (now : Date)
    (snoozedNotifications : list Notification.t) (w : World) : World :=
  match snoozedNotifications with
  | [] => w
  | notification :: rest =>
      let routine :=
        Routine.findById (Notification.routine notification) (routines w) in
      match sendRealTimeNotification io notification routine now w with
      | (w', Returned) => resend io now rest w'
      | (w', Threw) => w'
      end
  end.

(** [checkSnoozedNotifications()]. *)
Definition checkSnoozedNotifications (io : option Io.t) (now : Date)
    (w : World) : World :=
  resend io now (filter (isSnoozedDue now) (notifications w)) w.

(** [cleanupOldNotifications()]. *)
Definition cleanupOldNotifications (now : Date) (w : World) : World :=
  let thirtyDaysAgo := now - 30 * 86400000 in
  set_notifications
    (filter (fun n =>
               negb ((Notification.createdAt n <? thirtyDaysAgo)
                     && includes ["completed"; "dismissed"; "failed"]
                                 (Notification.status n)))
            (notifications w)) w.

Definition isOpenFor (routineId : ObjectId) (n : Notification.t) : bool :=
  (Notification.routine n =? routineId)
  && includes ["pending"; "snoozed"] (Notification.status n).

(** [scheduleRoutineNotifications(routine)]. *)
Definition scheduleRoutineNotifications (routine : Routine.t) (w : World)
  : World :=
  if negb (Routine.isActive routine) then w
  else
    set_notifications
      (filter (fun n => negb (isOpenFor (Routine._id routine) n))
              (notifications w)) w.

(** [cancelRoutineNotifications(routineId)], run at [now].  The update
    also names [cancelledAt: new Date()]; the schema declares no such path
    and [updateMany] stores the status alone. *)
Definition cancelRoutineNotifications (routineId : ObjectId) (now : Date)
    (w : World) : World :=
  set_notifications
    (map (fun n =>
            if isOpenFor routineId n
            then Notification.set_status "cancelled" n
            else n)
         (notifications w)) w.

End NotificationScheduler.

(** ** The scheduler instance and the cron registry

    [start()] hands three callbacks to [cron.schedule] and drops the task
    objects it gets back; the tasks live in the registry of the cron
    module, outside the scheduler object.  The start-up self test is a
    [setTimeout] timer, kept as data. *)







Module Lifecycle.










End Lifecycle.

(** ** Routes *)

Module Routes.

Definition validActions : list string := ["completed"; "snoozed"; "dismissed"].

(** The filter [$or: [{processing: {$exists: false}}, {processing:
    false}]], evaluated by MongoDB on the stored document. *)
Definition notLocked (n : Notification.t) : bool :=
  match Notification.processing n with
  | None => true
  | Some b => negb b
  end.

(** [existingNotification.processing] in a condition: the property of
    the loaded document. *)
Definition isLocked (d : Notification.Loaded) : bool :=
  match Notification.processingProperty d with
  | Some true => true
  | _ => false
  end.

Definition ownedBy (id userId : ObjectId) (n : Notification.t) : bool :=
  (Notification._id n =? id) && (Notification.user n =? userId).

(** The [catch] block of the response route, entered with the store as
    [w]: a transaction still open has been aborted.  The [updateOne] of
    the block sets [processing] only, a path the schema does not declare,
    and stores nothing. *)
Definition response_catch (w : World) : Z * World := (500, w).

(** The transition applied by the route to the loaded document. *)
Definition applyAction (action : string) (responseTime : option Z)
    (snoozeMinutes : Z) (now : Date) (d : Notification.Loaded)
  : Notification.Loaded :=
  let d1 := Notification.with_doc (Notification.set_status action) d in
  let d2 :=
    Notification.with_doc
      (Notification.set_userResponse
         (Some (UserResponse.mk action (Some (num_or_0 responseTime)) now)))
      d1 in
  let d3 :=
    if String.eqb action "completed"
    then Notification.with_doc (Notification.set_completedAt (Some now)) d2
    else if String.eqb action "dismissed" then d2
    else if String.eqb action "snoozed"
    then Notification.with_doc
           (Notification.set_snoozedUntil
              (Some (now + snoozeMinutes * 60 * 1000))) d2
    else d2 in
  Notification.assign_processing false d3.

(** POST /:id/response, called by the authenticated user [userId] with
    body [{action, responseTime, snoozeMinutes}]; [io] is
    [req.app.get('io')].  The result is the HTTP status code. *)
Definition response (io : option Io.t) (id userId : ObjectId)
    (action : string) (responseTime : option Z) (snoozeMinutes : option Z)
    (now : Date) (w : World) : Z * World :=
  let snoozeMinutes :=
    match snoozeMinutes with Some m => m | None => 5 end in
  match find (fun n => ownedBy id userId n && notLocked n) (notifications w)
  with
  | None =>
      match
        option_map Notification.hydrate
                   (find (ownedBy id userId) (notifications w))
      with
      | Some existingNotification =>
          if isLocked existingNotification then (409, w) else (404, w)
      | None => (404, w)
      end
  | Some stored =>
      let notification := Notification.hydrate stored in
      if negb (includes validActions action) then (400, w)
      else
        let populated :=
          Routine.findById (Notification.routine stored) (routines w) in
        let locked := Notification.assign_processing true notification in
        match
          Notification.save stored (Notification.doc locked) (notifications w)
        with
        | None => response_catch w
        | Some coll1 =>
            let answered :=
              applyAction action responseTime snoozeMinutes now locked in
            let n2 := Notification.doc answered in
            match Notification.save stored n2 coll1 with
            | None => response_catch w
            | Some coll2 =>
                let w2 := set_notifications coll2 w in
                let w3 :=
                  record_metric
                    (mkMetricEvent userId action
                       (Some (num_or_0 responseTime))) w2 in
                let w4 :=
                  match populated with
                  | Some routine =>
                      if AdaptiveTiming.enabled (Routine.adaptiveTiming routine)
                      then
                        match Notification.userResponse n2 with
                        | Some ur =>
                            NotificationScheduler.updateAdaptiveTiming
                              (Routine._id routine) ur now w3
                        | None => w3
                        end
                      else w3
                  | None => w3
                  end in
                match io with
                | None => (200, w4)
                | Some io =>
                    if Io.to_emit_throws io then response_catch w4
                    else
                      (200,
                       emit (mkEmission (ToRoom userId) "notification-updated"
                               (UpdatedData (Notification._id n2)
                                  (Notification.status n2) action
                                  (Notification.snoozedUntil n2)
                                  (Notification.completedAt n2) now)) w4)
                end
            end
        end
  end.

(** PATCH /:id/toggle, called by the authenticated user [userId]. *)
Definition toggle (id userId : ObjectId) (now : Date) (w : World)
  : Z * World :=
  match find (fun r => (Routine._id r =? id) && (Routine.user r =? userId))
             (routines w) with
  | None => (404, w)
  | Some routine =>
      let routine' :=
        Routine.set_updatedAt now
          (Routine.set_isActive (negb (Routine.isActive routine)) routine) in
      let w1 := set_routines (Routine.save routine' (routines w)) w in
      (200, NotificationScheduler.scheduleRoutineNotifications routine' w1)
  end.

End Routes.

(** ** The socket handler [notification-response] *)

Module Socket.

(** [socket.on('notification-response', data)] for the socket
    authenticated as [userId]; [data] is
    [{notificationId, action, responseTime, snoozeMinutes}]. *)
Definition notificationResponse (userId notificationId : ObjectId)
    (action : string) (responseTime : option Z) (snoozeMinutes : option Z)
    (now : Date) (w : World) : World :=
  match Notification.findById notificationId (notifications w) with
  | None =>
      emit (mkEmission (ToSocket userId) "error"
              (ErrorData "Notification not found")) w
  | Some notification =>
      if negb (Notification.user notification =? userId)
      then emit (mkEmission (ToSocket userId) "error"
                   (ErrorData "Unauthorized")) w
      else
        let snoozeGiven :=
          match snoozeMinutes with
          | Some m => negb (m =? 0)
          | None => false
          end in
        let n1 :=
          if String.eqb action "snoozed" && snoozeGiven
          then
            Notification.set_userResponse
              (Some (UserResponse.mk "snoozed" responseTime now))
              (Notification.set_snoozedUntil
                 (Some (now + num_or_0 snoozeMinutes * 60 * 1000))
                 (Notification.set_status "snoozed" notification))
          else
            let n :=
              Notification.set_userResponse
                (Some (UserResponse.mk action responseTime now))
                (Notification.set_status action notification) in
            if String.eqb action "completed"
            then Notification.set_completedAt (Some now) n
            else n in
        match Notification.save notification n1 (notifications w) with
        | None =>
            emit (mkEmission (ToSocket userId) "error"
                    (ErrorData "Failed to process notification response")) w
        | Some coll =>
            let w1 := set_notifications coll w in
            let w2 :=
              record_metric (mkMetricEvent userId action responseTime) w1 in
            let w3 :=
              match Notification.userResponse n1 with
              | Some ur =>
                  NotificationScheduler.updateAdaptiveTiming
                    (Notification.routine n1) ur now w2
              | None => w2
              end in
            emit (mkEmission (ToRoom userId) "notification-updated"
                    (UpdatedData (Notification._id n1)
                       (Notification.status n1) action
                       (Notification.snoozedUntil n1)
                       (Notification.completedAt n1) now)) w3
        end
  end.

End Socket.

(** ** Sequences of adaptive-timing updates *)

Record TimingEvent := mkTimingEvent {
  ev_routine : ObjectId;
  ev_response : UserResponse.t;
  ev_now : Date
}.

Definition applyTimingEvents (evs : list TimingEvent) (w : World) : World :=
  fold_left
    (fun w ev =>
       NotificationScheduler.updateAdaptiveTiming
         (ev_routine ev) (ev_response ev) (ev_now ev) w)
    evs w.

Definition offsetInBounds (r : Routine.t) : Prop :=
  -15 <= AdaptiveTiming.adjustment (Routine.adaptiveTiming r) <= 15.

(** ** Vocabulary of the statements *)

(** The default of the destructuring [snoozeMinutes = 5]. *)
Definition snoozeOrDefault (snoozeMinutes : option Z) : Z :=
  match snoozeMinutes with Some m => m | None => 5 end.

(** The document the response route stores for the stored document
    [n]. *)
Definition answeredDoc (action : string) (responseTime snoozeMinutes : option Z)
    (now : Date) (n : Notification.t) : Notification.t :=
  Notification.doc
    (Routes.applyAction action responseTime (snoozeOrDefault snoozeMinutes) now
       (Notification.assign_processing true (Notification.hydrate n))).

(** Every id in the notification collection was handed out by the
    counter: new ids are fresh. *)
Definition idsIssued (w : World) : Prop :=
  Forall (fun n => Notification._id n < nextId w) (notifications w).

(** How many stored notifications originate from routine [r]. *)
Definition countFor (r : Routine.t) (w : World) : nat :=
  List.length
    (filter (fun n => Notification.routine n =? Routine._id r)
            (notifications w)).

(** The adjustment [createAndSendNotification] applies to the fire time. *)
Definition appliedAdjustment (r : Routine.t) : Z :=
  if AdaptiveTiming.enabled (Routine.adaptiveTiming r)
     && negb (AdaptiveTiming.adjustment (Routine.adaptiveTiming r) =? 0)
  then AdaptiveTiming.adjustment (Routine.adaptiveTiming r)
  else 0.

(** Some, respectively no, stored notification answers the duplicate
    query of [createAndSendNotification] for routine [r] with bound [b]. *)
Definition hasRecent (r : Routine.t) (b : Date) (w : World) : Prop :=
  exists n, In n (notifications w)
            /\ NotificationScheduler.isRecentFor r b n = true.

Definition noneRecent (r : Routine.t) (b : Date) (w : World) : Prop :=
  forall n, In n (notifications w) ->
            NotificationScheduler.isRecentFor r b n = false.

(** ** The rule table as the specification words it

    Kept apart from the code's [NotificationScheduler.adjust], to be
    compared with it. *)

Module Stated.

Definition clamp (lo hi x : Z) : Z := Z.max lo (Z.min hi x).

Definition delta (action : string) (responseTimeSeconds : Z) : Z :=
  if String.eqb action "completed" then
    if responseTimeSeconds <? 30 then -1
    else if responseTimeSeconds >? 120 then 2
    else 0
  else if String.eqb action "dismissed" then 5
  else if String.eqb action "snoozed" then 3
  else 0.

Definition offsetAfter (action : string) (responseTimeSeconds : Z)
    (offset : Z) : Z :=
  clamp (-15) 15 (offset + delta action responseTimeSeconds).

Definition terminal (status : string) : bool :=
  includes ["completed"; "dismissed"; "cancelled"; "failed"] status.

End Stated.

(** ** Sample documents *)

Module Sample.

(** Monday 5 January 1970, 09:00:00 UTC. *)
Definition monday0900 : Date := 378000000.

Definition routineWith (isActive : bool) (adjustment : Z) : Routine.t :=
  Routine.mk 10 1 "Stretch" "Stand up and stretch"
             [ScheduleEntry.mk "09:00" [1]] "bell" (1 # 2) isActive
             (AdaptiveTiming.mk true adjustment None) 0.

Definition notificationWith (id : ObjectId) (status : string)
    (snoozedUntil : option Date) : Notification.t :=
  Notification.mk id 1 10 "Stretch" "Stand up and stretch" "alarm" "bell"
                  (1 # 2) status None 0 monday0900 None None snoozedUntil
                  "9:00" 0 None monday0900.

(** [n] as it is stored when a writer outside the models has set the
    field [processing] on it. *)
Definition withProcessing (v : bool) (n : Notification.t) : Notification.t :=
  Notification.mk (Notification._id n) (Notification.user n)
    (Notification.routine n) (Notification.title n) (Notification.message n)
    (Notification.type n) (Notification.sound n) (Notification.volume n)
    (Notification.status n) (Notification.userResponse n)
    (Notification.deliveryAttempts n) (Notification.scheduledFor n)
    (Notification.deliveredAt n) (Notification.completedAt n)
    (Notification.snoozedUntil n) (Notification.originalSchedule n)
    (Notification.adaptiveAdjustment n) (Some v) (Notification.createdAt n).

Definition worldWith (ns : list Notification.t) (rs : list Routine.t)
  : World :=
  mkWorld ns rs [] [] 1000.

Definition ioOk : option Io.t := Some (Io.mk false false).

End Sample.

(** ** Further routes of [routes/notifications.js] *)

Module NotificationRoutes.

(** POST /:id/snooze (legacy endpoint), body [{minutes}]. *)
Definition snooze (id userId : ObjectId) (minutes : option Z) (now : Date)
    (w : World) : Z * World :=
  let minutes := match minutes with Some m => m | None => 5 end in
  match find (Routes.ownedBy id userId) (notifications w) with
  | None => (404, w)
  | Some notification =>
      let n1 := Notification.set_status "snoozed" notification in
      let n2 :=
        Notification.set_snoozedUntil (Some (now + minutes * 60 * 1000)) n1 in
      let n3 :=
        Notification.set_userResponse
          (Some (UserResponse.mk "snoozed" None now)) n2 in
      match Notification.save notification n3 (notifications w) with
      | Some coll => (200, set_notifications coll w)
      | None => (500, w)
      end
  end.

(** POST /clear-snoozed; the result carries [clearedCount]. *)
Definition clearSnoozed (userId : ObjectId) (w : World) : Z * World :=
  let isMine (n : Notification.t) :=
    (Notification.user n =? userId)
    && String.eqb (Notification.status n) "snoozed" in
  (Z.of_nat (List.length (filter isMine (notifications w))),
   set_notifications (filter (fun n => negb (isMine n)) (notifications w)) w).

End NotificationRoutes.

(** ** Further routes of [routes/routines.js] *)

(** [findOneAndDelete] removes the first matching document. *)
Fixpoint removeFirst {A : Type} (p : A -> bool) (l : list A) : list A :=
  match l with
  | [] => []
  | x :: rest => if p x then rest else x :: removeFirst p rest
  end.

Module RoutineRoutes.

Definition isRoutineOf (id userId : ObjectId) (r : Routine.t) : bool :=
  (Routine._id r =? id) && (Routine.user r =? userId).

(** The filter [{routine, user, status: {$in: ['pending','snoozed']}}]. *)
Definition isOpenOf (id userId : ObjectId) (n : Notification.t) : bool :=
  (Notification.routine n =? id)
  && (Notification.user n =? userId)
  && includes ["pending"; "snoozed"] (Notification.status n).

(** DELETE /:id. *)
Definition deleteRoutine (id userId : ObjectId) (w : World) : Z * World :=
  match find (isRoutineOf id userId) (routines w) with
  | None => (404, w)
  | Some routine =>
      let w1 :=
        set_routines (removeFirst (isRoutineOf id userId) (routines w)) w in
      (200,
       set_notifications
         (filter (fun n => negb (Notification.routine n =? id))
                 (notifications w1)) w1)
  end.

(** POST /:id/schedule. *)
Definition schedule (id userId : ObjectId) (w : World) : Z * World :=
  match find (isRoutineOf id userId) (routines w) with
  | None => (404, w)
  | Some routine =>
      (200, NotificationScheduler.scheduleRoutineNotifications routine w)
  end.

(** DELETE /:id/notifications; the second component of the answer is
    [cancelledCount]. *)
Definition cancelNotifications (id userId : ObjectId) (w : World)
    : Z * Z * World :=
  match find (isRoutineOf id userId) (routines w) with
  | None => (404, 0, w)
  | Some routine =>
      (200,
       Z.of_nat (List.length (filter (isOpenOf id userId) (notifications w))),
       set_notifications
         (filter (fun n => negb (isOpenOf id userId n)) (notifications w)) w)
  end.

(** PUT /:id/notifications. *)
Definition updateNotifications (id userId : ObjectId) (w : World)
    : Z * Z * World :=
  match find (isRoutineOf id userId) (routines w) with
  | None => (404, 0, w)
  | Some routine =>
      let deletedCount :=
        Z.of_nat (List.length (filter (isOpenOf id userId) (notifications w))) in
      let w1 :=
        set_notifications
          (filter (fun n => negb (isOpenOf id userId n)) (notifications w)) w in
      if Routine.isActive routine
      then (200, deletedCount,
            NotificationScheduler.scheduleRoutineNotifications routine w1)
      else (200, deletedCount, w1)
  end.

End RoutineRoutes.

(** ** The validator of [scheduleSchema.time]

    The regular expression [^([0-1]?[0-9]|2[0-3]):[0-5][0-9]$]. *)

Module ScheduleTime.

Definition charIn (lo hi : nat) (c : ascii) : bool :=
  ((lo <=? nat_of_ascii c) && (nat_of_ascii c <=? hi))%nat.

(** '0' is 48, '9' is 57, ':' is 58. *)
Definition validator (time : string) : bool :=
  match time with
  | String h (String c (String m1 (String m2 EmptyString))) =>
      charIn 48 57 h && charIn 58 58 c && charIn 48 53 m1 && charIn 48 57 m2
  | String h1 (String h2 (String c (String m1 (String m2 EmptyString)))) =>
      ((charIn 48 49 h1 && charIn 48 57 h2)
       || (charIn 50 50 h1 && charIn 48 51 h2))
      && charIn 58 58 c && charIn 48 53 m1 && charIn 48 57 m2
  | _ => false
  end.

End ScheduleTime.

(** ** [models/UserMetric.js]

    The daily counters written by [updateForResponse].  The derived
    fields (rates and scores) are computed by the [pre('save')] hook only
    and are omitted. *)

Module UserMetric.

Record t := mk {
  user : ObjectId;
  date : Date;
  notificationsSent : Z;
  notificationsCompleted : Z;
  notificationsDismissed : Z;
  notificationsSnoozed : Z;
  totalNotifications : Z;
  totalResponseTime : Z;
  responseCount : Z;
  productiveHours : Q
}.

(** [c.toUpperCase()] on one character: 'a'..'z' are 97..122. *)
Definition toUpperCase (c : ascii) : ascii :=
  if ((97 <=? nat_of_ascii c) && (nat_of_ascii c <=? 122))%nat
  then ascii_of_nat (nat_of_ascii c - 32)
  else c.

(** [action.charAt(0).toUpperCase() + action.slice(1)]. *)
Definition capitalize (action : string) : string :=
  match action with
  | EmptyString => EmptyString
  | String c rest => String (toUpperCase c) rest
  end.

(** The midnight before [now]: [today.setHours(0, 0, 0, 0)]. *)
Definition startOfDay (now : Date) : Date := now - now mod 86400000.

Definition bump (field name : string) (v : Z) : Z :=
  if String.eqb field name then v + 1 else v.

(** The [$inc] document of [updateForResponse] applied to [d]; an
    increment of a path the schema does not declare is dropped. *)
Definition applyInc (action : string) (responseTime : option Z) (d : t) : t :=
  let field := ("notifications" ++ capitalize action)%string in
  let counted :=
    match responseTime with
    | Some v => negb (v =? 0)
    | None => false
    end in
  mk (user d) (date d)
     (bump field "notificationsSent" (notificationsSent d))
     (bump field "notificationsCompleted" (notificationsCompleted d))
     (bump field "notificationsDismissed" (notificationsDismissed d))
     (bump field "notificationsSnoozed" (notificationsSnoozed d))
     (totalNotifications d + 1)
     (if counted then totalResponseTime d + num_or_0 responseTime
      else totalResponseTime d)
     (if counted then responseCount d + 1 else responseCount d)
     (if String.eqb action "completed"
      then Qplus (productiveHours d) (1 # 2)
      else productiveHours d).

Definition isFor (userId : ObjectId) (today : Date) (d : t) : bool :=
  (user d =? userId) && (date d =? today).

(** [findOneAndUpdate] changes the first matching document. *)
Fixpoint updateFirst (p : t -> bool) (f : t -> t) (coll : list t) : list t :=
  match coll with
  | [] => []
  | d :: rest => if p d then f d :: rest else d :: updateFirst p f rest
  end.

(** [updateForResponse(userId, action, responseTime)], an upsert. *)
Definition updateForResponse (userId : ObjectId) (action : string)
    (responseTime : option Z) (now : Date) (coll : list t) : list t :=
  let today := startOfDay now in
  match find (isFor userId today) coll with
  | Some _ =>
      updateFirst (isFor userId today) (applyInc action responseTime) coll
  | None =>
      (coll ++ [applyInc action responseTime
                  (mk userId today 0 0 0 0 0 0 0 0%Q)])%list
  end.

End UserMetric.

(** ** Vocabulary of the further properties *)

(** The clock string for hour [h] and minute [m] passes the validator and
    has five characters. *)
Definition clockStringOk (h m : nat) : bool :=
  let s :=
    (padStart2 (toString (Z.of_nat h)) ++ ":"
       ++ padStart2 (toString (Z.of_nat m)))%string in
  ScheduleTime.validator s && (String.length s =? 5)%nat.

(** A time written H:MM, with a one-digit hour: a digit, a colon, a digit
    from 0 to 5 and a digit ('0' is character 48, '5' is 53, '9' is 57). *)
Definition oneDigitHour (time : string) : Prop :=
  exists h m1 m2 : ascii,
    (48 <= nat_of_ascii h <= 57)%nat
    /\ (48 <= nat_of_ascii m1 <= 53)%nat
    /\ (48 <= nat_of_ascii m2 <= 57)%nat
    /\ time = String h (String ":" (String m1 (String m2 ""))).

(** The event "one more dismissal for routine [rid]". *)
Definition isDismissalFor (rid : ObjectId) (ev : TimingEvent) : Prop :=
  ev_routine ev = rid /\ UserResponse.action (ev_response ev) = "dismissed".

(** What a successful dispatch stores for [n], and what it emits for it
    when its routine is looked up in [rs]. *)
Definition deliveredDoc (now : Date) (n : Notification.t) : Notification.t :=
  Notification.set_deliveredAt (Some now)
    (Notification.set_status "delivered" n).

Definition resendEmissions (now : Date) (rs : list Routine.t)
    (n : Notification.t) : list Emission :=
  match Routine.findById (Notification.routine n) rs with
  | Some r =>
      [ mkEmission (ToRoom (Routine.user r)) "notification"
          (NotificationData (NotificationScheduler.payloadOf n r now));
        mkEmission ToAll "notification-broadcast"
          (BroadcastData (NotificationScheduler.payloadOf n r now)
                         (Routine.user r) true) ]
  | None => []
  end.

(** Every snoozed notification that is due at [now] has its routine. *)
Definition dueHaveRoutines (now : Date) (w : World) : Prop :=
  forall n, In n (notifications w) ->
            NotificationScheduler.isSnoozedDue now n = true ->
            exists r,
              Routine.findById (Notification.routine n) (routines w) = Some r.

(** One call of [updateForResponse] and a sequence of calls. *)
Record MetricCall := mkMetricCall {
  call_user : ObjectId;
  call_action : string;
  call_responseTime : option Z;
  call_now : Date
}.

Definition applyMetricCalls (calls : list MetricCall)
    (coll : list UserMetric.t) : list UserMetric.t :=
  fold_left
    (fun c m =>
       UserMetric.updateForResponse (call_user m) (call_action m)
         (call_responseTime m) (call_now m) c)
    calls coll.

(** The counters of a daily document add up. *)
Definition metricBalanced (d : UserMetric.t) : Prop :=
  UserMetric.totalNotifications d
  = UserMetric.notificationsCompleted d + UserMetric.notificationsDismissed d
    + UserMetric.notificationsSnoozed d
  /\ 0 <= UserMetric.responseCount d <= UserMetric.totalNotifications d
  /\ UserMetric.date d mod 86400000 = 0.

Definition metricKey (d : UserMetric.t) : ObjectId * Date :=
  (UserMetric.user d, UserMetric.date d).

Fixpoint sumTotals (coll : list UserMetric.t) : Z :=
  match coll with
  | [] => 0
  | d :: rest => UserMetric.totalNotifications d + sumTotals rest
  end.

(** * Properties *)

(** ** Collections *)

Section RoutineStore.

Lemma routine_findById_id (id : ObjectId) (coll : list Routine.t)
    (r : Routine.t) :
  Routine.findById id coll = Some r -> Routine._id r = id.
Proof.
  unfold Routine.findById. intros H.
  apply find_some in H. destruct H as [_ H]. lia.
Qed.

Lemma routine_findById_replace_same (d : Routine.t) (coll : list Routine.t)
    (r : Routine.t) :
  Routine.findById (Routine._id d) coll = Some r ->
  Routine.findById (Routine._id d) (Routine.replace d coll) = Some d.
Proof.
  unfold Routine.findById, Routine.replace.
  induction coll as [|a coll IH]; simpl; [discriminate|].
  destruct (Routine._id a =? Routine._id d) eqn:E.
  - intros _. simpl. now rewrite Z.eqb_refl.
  - intros H. simpl. rewrite E. auto.
Qed.

Lemma routine_findById_replace_other (id : ObjectId) (d : Routine.t)
    (coll : list Routine.t) :
  Routine._id d <> id ->
  Routine.findById id (Routine.replace d coll) = Routine.findById id coll.
Proof.
  unfold Routine.findById, Routine.replace. intros Hd.
  induction coll as [|a coll IH]; simpl; [reflexivity|].
  destruct (Routine._id a =? Routine._id d) eqn:E.
  - apply Z.eqb_eq in E.
    simpl.
    destruct (Routine._id d =? id) eqn:E1; [apply Z.eqb_eq in E1; lia|].
    destruct (Routine._id a =? id) eqn:E2; [apply Z.eqb_eq in E2; lia|].
    exact IH.
  - simpl. destruct (Routine._id a =? id); [reflexivity|exact IH].
Qed.

End RoutineStore.

(** ** The adaptive-timing updater *)

Section AdaptiveTimingUpdater.

Import NotificationScheduler.

Lemma touch_adaptiveTiming (b : bool) (now : Date) (r : Routine.t) :
  Routine.adaptiveTiming (Routine.touch b now r) = Routine.adaptiveTiming r.
Proof. destruct b; reflexivity. Qed.

Lemma touch_id (b : bool) (now : Date) (r : Routine.t) :
  Routine._id (Routine.touch b now r) = Routine._id r.
Proof. destruct b; reflexivity. Qed.

(** What one update stores, when the routine exists and adapts. *)
Lemma updateAdaptiveTiming_stored (rid : ObjectId) (ur : UserResponse.t)
    (now : Date) (w : World) (r : Routine.t) :
  Routine.findById rid (routines w) = Some r ->
  AdaptiveTiming.enabled (Routine.adaptiveTiming r) = true ->
  exists r',
    Routine.findById rid (routines (updateAdaptiveTiming rid ur now w))
    = Some r'
    /\ Routine.adaptiveTiming r'
       = AdaptiveTiming.mk true
           (adjust (UserResponse.action ur) (UserResponse.responseTime ur)
              (AdaptiveTiming.adjustment (Routine.adaptiveTiming r)))
           (Some now).
Proof.
  intros Hf He. unfold updateAdaptiveTiming. rewrite Hf, He. simpl.
  unfold Routine.save.
  pose proof (routine_findById_id _ _ _ Hf) as Hid.
  set (r' := Routine.touch _ now _).
  assert (Hid' : Routine._id r' = rid)
    by (subst r'; rewrite touch_id; destruct r; exact Hid).
  exists r'. split.
  - rewrite <- Hid' at 1.
    apply routine_findById_replace_same with (r := r).
    now rewrite Hid'.
  - subst r'. rewrite touch_adaptiveTiming. destruct r; reflexivity.
Qed.

Lemma updateAdaptiveTiming_other (rid rid' : ObjectId) (ur : UserResponse.t)
    (now : Date) (w : World) :
  rid' <> rid ->
  Routine.findById rid (routines (updateAdaptiveTiming rid' ur now w))
  = Routine.findById rid (routines w).
Proof.
  intros Hne. unfold updateAdaptiveTiming.
  destruct (Routine.findById rid' (routines w)) as [r'|] eqn:Hf;
    [|reflexivity].
  destruct (AdaptiveTiming.enabled (Routine.adaptiveTiming r'));
    [|reflexivity].
  simpl. unfold Routine.save.
  apply routine_findById_replace_other.
  pose proof (routine_findById_id _ _ _ Hf) as Hid.
  rewrite touch_id. destruct r'; simpl in *; lia.
Qed.

Lemma adjust_in_bounds (action : string) (rt : option Z) (a : Z) :
  -15 <= a <= 15 -> -15 <= adjust action rt a <= 15.
Proof.
  intros Ha. unfold adjust.
  destruct (String.eqb action "completed").
  - destruct (js_lt rt 30); [lia|].
    destruct (js_gt rt 120); lia.
  - destruct (String.eqb action "dismissed"); [lia|].
    destruct (String.eqb action "snoozed"); lia.
Qed.

(** One update keeps the stored offset of every routine in bounds. *)
Lemma updateAdaptiveTiming_keeps_bounds (rid rid' : ObjectId)
    (ur : UserResponse.t) (now : Date) (w : World) (r : Routine.t) :
  Routine.findById rid (routines w) = Some r ->
  offsetInBounds r ->
  exists r',
    Routine.findById rid (routines (updateAdaptiveTiming rid' ur now w))
    = Some r'
    /\ offsetInBounds r'.
Proof.
  intros Hf Hb.
  destruct (Z.eq_dec rid' rid) as [->|Hne].
  - destruct (AdaptiveTiming.enabled (Routine.adaptiveTiming r)) eqn:He.
    + destruct (updateAdaptiveTiming_stored rid ur now w r Hf He)
        as [r' [Hf' Ht']].
      exists r'. split; [exact Hf'|].
      unfold offsetInBounds in *. rewrite Ht'. simpl.
      apply adjust_in_bounds. exact Hb.
    + exists r. split; [|exact Hb].
      unfold updateAdaptiveTiming. rewrite Hf, He. exact Hf.
  - exists r. split; [|exact Hb].
    rewrite updateAdaptiveTiming_other by exact Hne. exact Hf.
Qed.

End AdaptiveTimingUpdater.

(** C2, as stated: the claimed table does not describe the code.  From an
    offset of 9 a snooze stores 10 where the claim gives 12, and from -15
    a completion after 15 seconds stores -10 where the claim gives -15. *)
Lemma adaptive_rule_counterexample :
  let stored (a : Z) (action : string) (rt : Z) :=
    option_map
      (fun r => AdaptiveTiming.adjustment (Routine.adaptiveTiming r))
      (Routine.findById 10
         (routines
            (NotificationScheduler.updateAdaptiveTiming 10
               (UserResponse.mk action (Some rt) 5000) 5000
               (Sample.worldWith [] [Sample.routineWith true a])))) in
  stored 9 "snoozed" 12 = Some 10
  /\ Stated.offsetAfter "snoozed" 12 9 = 12
  /\ stored (-15) "completed" 15 = Some (-10)
  /\ Stated.offsetAfter "completed" 15 (-15) = -15.
Proof.
  repeat split; vm_compute; reflexivity.
Qed.

(** C2, amended: for a stored routine with adaptive timing enabled, one
    update stores [lastAdjustment = now] and the offset given by the
    code's own table: a completion under 30 s lowers it by 1 but not
    below -10; a completion over 120 s raises it by 2, capped at 10; a
    dismissal raises it by 5, capped at 15; a snooze raises it by 3,
    capped at 10; a completion within 30..120 s leaves it as it was. *)
Theorem updateAdaptiveTiming_rule_table (rid : ObjectId) (action : string)
    (rt : Z) (stamp now : Date) (w : World) (r : Routine.t) :
  Routine.findById rid (routines w) = Some r ->
  AdaptiveTiming.enabled (Routine.adaptiveTiming r) = true ->
  exists r',
    Routine.findById rid
      (routines
         (NotificationScheduler.updateAdaptiveTiming rid
            (UserResponse.mk action (Some rt) stamp) now w)) = Some r'
    /\ AdaptiveTiming.lastAdjustment (Routine.adaptiveTiming r') = Some now
    /\ let a := AdaptiveTiming.adjustment (Routine.adaptiveTiming r) in
       let a' := AdaptiveTiming.adjustment (Routine.adaptiveTiming r') in
       (action = "completed" -> rt < 30 -> a' = Z.max (-10) (a - 1))
       /\ (action = "completed" -> rt > 120 -> a' = Z.min 10 (a + 2))
       /\ (action = "completed" -> 30 <= rt <= 120 -> a' = a)
       /\ (action = "dismissed" -> a' = Z.min 15 (a + 5))
       /\ (action = "snoozed" -> a' = Z.min 10 (a + 3)).
Proof.
  intros Hf He.
  destruct (updateAdaptiveTiming_stored rid
              (UserResponse.mk action (Some rt) stamp) now w r Hf He)
    as [r' [Hf' Ht']].
  exists r'. split; [exact Hf'|].
  rewrite Ht'. clear Hf' Ht' r'.
  - destruct r as [i u t d s so v ia [en adj la] up]. simpl in *.
    split; [reflexivity|].
    unfold NotificationScheduler.adjust, js_lt, js_gt.
    repeat split; intros ->; simpl.
    + intros H. apply Z.ltb_lt in H. now rewrite H.
    + intros H.
      assert (H1 : (rt <? 30) = false) by (apply Z.ltb_ge; lia).
      assert (H2 : (rt >? 120) = true) by (apply Z.gtb_lt; lia).
      now rewrite H1, H2.
    + intros H.
      assert (H1 : (rt <? 30) = false) by (apply Z.ltb_ge; lia).
      assert (H2 : (rt >? 120) = false)
        by (rewrite Z.gtb_ltb; apply Z.ltb_ge; lia).
      now rewrite H1, H2.
    + reflexivity.
    + reflexivity.
Qed.

Lemma updateAdaptiveTiming_rule_table_witness :
  exists r',
    Routine.findById 10
      (routines
         (NotificationScheduler.updateAdaptiveTiming 10
            (UserResponse.mk "snoozed" (Some 12) 5000) 5000
            (Sample.worldWith [] [Sample.routineWith true 9]))) = Some r'
    /\ AdaptiveTiming.adjustment (Routine.adaptiveTiming r') = 10.
Proof.
  destruct (updateAdaptiveTiming_rule_table 10 "snoozed" 12 5000 5000
              (Sample.worldWith [] [Sample.routineWith true 9])
              (Sample.routineWith true 9) eq_refl eq_refl)
    as [r' [Hf [_ [_ [_ [_ [_ Hs]]]]]]].
  exists r'. split; [exact Hf|]. exact (Hs eq_refl).
Defined.

(** C3: along any sequence of adaptive-timing updates (any routines, any
    actions, any response times), a stored routine whose offset starts
    within [-15, +15] still has its offset within [-15, +15] after the
    sequence; every prefix of a sequence is a sequence, so this holds after
    every single update. *)
Theorem adaptive_offset_stays_in_bounds (evs : list TimingEvent) (w : World)
    (rid : ObjectId) (r : Routine.t) :
  Routine.findById rid (routines w) = Some r ->
  offsetInBounds r ->
  exists r',
    Routine.findById rid (routines (applyTimingEvents evs w)) = Some r'
    /\ offsetInBounds r'.
Proof.
  unfold applyTimingEvents.
  revert w r. induction evs as [|ev evs IH]; intros w r Hf Hb; simpl.
  - exists r. split; assumption.
  - destruct (updateAdaptiveTiming_keeps_bounds
                rid (ev_routine ev) (ev_response ev) (ev_now ev) w r Hf Hb)
      as [r1 [Hf1 Hb1]].
    exact (IH _ r1 Hf1 Hb1).
Qed.

Lemma adaptive_offset_stays_in_bounds_witness :
  exists r',
    Routine.findById 10
      (routines
         (applyTimingEvents
            [ mkTimingEvent 10 (UserResponse.mk "dismissed" (Some 200) 1) 1;
              mkTimingEvent 10 (UserResponse.mk "dismissed" (Some 200) 2) 2;
              mkTimingEvent 10 (UserResponse.mk "dismissed" (Some 200) 3) 3;
              mkTimingEvent 10 (UserResponse.mk "dismissed" (Some 200) 4) 4 ]
            (Sample.worldWith [] [Sample.routineWith true 0]))) = Some r'
    /\ offsetInBounds r'.
Proof.
  apply (adaptive_offset_stays_in_bounds _ _ 10 (Sample.routineWith true 0)).
  - reflexivity.
  - unfold offsetInBounds. simpl. lia.
Defined.

(** ** The notification store *)

Section NotificationStore.

Lemma notification_replace_In (d n : Notification.t)
    (coll : list Notification.t) :
  In n coll -> Notification._id n = Notification._id d ->
  In d (Notification.replace d coll).
Proof.
  unfold Notification.replace. intros Hin Hid.
  apply in_map_iff. exists n. split; [|exact Hin].
  rewrite Hid, Z.eqb_refl. reflexivity.
Qed.

Lemma notification_findById_replace (d n : Notification.t)
    (coll : list Notification.t) :
  In n coll -> Notification._id n = Notification._id d ->
  Notification.findById (Notification._id d) (Notification.replace d coll)
  = Some d.
Proof.
  unfold Notification.findById, Notification.replace.
  induction coll as [|a coll IH]; simpl; [contradiction|].
  intros Hin Hid.
  destruct (Notification._id a =? Notification._id d) eqn:E.
  - simpl. now rewrite Z.eqb_refl.
  - simpl. rewrite E. destruct Hin as [->|Hin].
    + rewrite Hid, Z.eqb_refl in E. discriminate.
    + auto.
Qed.

Lemma notification_findById_map (f : Notification.t -> Notification.t)
    (id : ObjectId) (coll : list Notification.t) :
  (forall d, Notification._id (f d) = Notification._id d) ->
  Notification.findById id (map f coll)
  = option_map f (Notification.findById id coll).
Proof.
  unfold Notification.findById. intros Hf.
  induction coll as [|a coll IH]; simpl; [reflexivity|].
  rewrite Hf. destruct (Notification._id a =? id); [reflexivity|exact IH].
Qed.

Lemma validActions_status (action : string) :
  includes Routes.validActions action = true ->
  includes Notification.statusEnum action = true.
Proof.
  unfold includes, Routes.validActions, Notification.statusEnum. simpl.
  destruct (String.eqb action "completed");
    [intros _; now rewrite !orb_true_r|].
  destruct (String.eqb action "snoozed"); [intros _; now rewrite !orb_true_r|].
  destruct (String.eqb action "dismissed");
    [intros _; now rewrite !orb_true_r|].
  discriminate.
Qed.

Lemma validActions_action (action : string) :
  includes Routes.validActions action = true ->
  includes Notification.actionEnum action = true.
Proof.
  unfold includes, Routes.validActions, Notification.actionEnum. simpl.
  destruct (String.eqb action "completed"); [reflexivity|].
  destruct (String.eqb action "snoozed"); [reflexivity|].
  destruct (String.eqb action "dismissed"); [reflexivity|].
  discriminate.
Qed.

(** A document saved as it was loaded passes the validators exactly when
    its status is in the enum. *)
Lemma validate_loaded (n : Notification.t) :
  Notification.validate n n = Notification.status_valid n.
Proof.
  unfold Notification.validate, Notification.action_valid.
  destruct (Notification.userResponse n) as [ur|];
    [rewrite String.eqb_refl|]; apply andb_true_r.
Qed.

Lemma applyAction_status (action : string) (rt : option Z) (sm : Z)
    (now : Date) (d : Notification.Loaded) :
  Notification.status (Notification.doc (Routes.applyAction action rt sm now d))
  = action.
Proof.
  unfold Routes.applyAction.
  destruct (String.eqb action "completed"); [reflexivity|].
  destruct (String.eqb action "dismissed"); [reflexivity|].
  destruct (String.eqb action "snoozed"); reflexivity.
Qed.

Lemma applyAction_userResponse (action : string) (rt : option Z) (sm : Z)
    (now : Date) (d : Notification.Loaded) :
  Notification.userResponse
    (Notification.doc (Routes.applyAction action rt sm now d))
  = Some (UserResponse.mk action (Some (num_or_0 rt)) now).
Proof.
  unfold Routes.applyAction.
  destruct (String.eqb action "completed"); [reflexivity|].
  destruct (String.eqb action "dismissed"); [reflexivity|].
  destruct (String.eqb action "snoozed"); reflexivity.
Qed.

Lemma applyAction_id (action : string) (rt : option Z) (sm : Z)
    (now : Date) (d : Notification.Loaded) :
  Notification._id (Notification.doc (Routes.applyAction action rt sm now d))
  = Notification._id (Notification.doc d).
Proof.
  unfold Routes.applyAction.
  destruct (String.eqb action "completed"); [reflexivity|].
  destruct (String.eqb action "dismissed"); [reflexivity|].
  destruct (String.eqb action "snoozed"); reflexivity.
Qed.

(** The route never assigns the stored field [processing]. *)
Lemma applyAction_processing (action : string) (rt : option Z) (sm : Z)
    (now : Date) (d : Notification.Loaded) :
  Notification.processing
    (Notification.doc (Routes.applyAction action rt sm now d))
  = Notification.processing (Notification.doc d).
Proof.
  unfold Routes.applyAction.
  destruct (String.eqb action "completed"); [reflexivity|].
  destruct (String.eqb action "dismissed"); [reflexivity|].
  destruct (String.eqb action "snoozed"); reflexivity.
Qed.

Lemma validate_applyAction (action : string) (rt : option Z) (sm : Z)
    (now : Date) (loaded : Notification.t) (d : Notification.Loaded) :
  includes Routes.validActions action = true ->
  Notification.validate loaded
    (Notification.doc (Routes.applyAction action rt sm now d)) = true.
Proof.
  intros Hv.
  unfold Notification.validate, Notification.status_valid,
    Notification.action_valid.
  rewrite applyAction_status, applyAction_userResponse.
  cbn [UserResponse.action].
  rewrite (validActions_status _ Hv), (validActions_action _ Hv).
  now rewrite !orb_true_r.
Qed.

(** Saving twice under one id stores the second document. *)
Lemma notification_replace_twice (d1 d2 : Notification.t)
    (coll : list Notification.t) :
  Notification._id d1 = Notification._id d2 ->
  Notification.replace d2 (Notification.replace d1 coll)
  = Notification.replace d2 coll.
Proof.
  intros Hid. unfold Notification.replace. rewrite map_map.
  apply map_ext. intros a. rewrite Hid.
  destruct (Notification._id a =? Notification._id d2) eqn:E;
    [|now rewrite E].
  now rewrite Hid, Z.eqb_refl.
Qed.

(** The statuses the schema admits, and two it does not. *)
Lemma statusEnum_admits (s : string) :
  In s ["pending"; "delivered"; "snoozed"; "completed"; "dismissed"] ->
  includes Notification.statusEnum s = true.
Proof.
  intros [<- | [<- | [<- | [<- | [<- | []]]]]]; reflexivity.
Qed.

Lemma statusEnum_rejects (s : string) :
  In s ["cancelled"; "failed"] ->
  includes Notification.statusEnum s = false.
Proof.
  intros [<- | [<- | []]]; reflexivity.
Qed.

End NotificationStore.

(** ** POST /:id/response *)

Section ResponseRoute.

Import Routes.

Variables (io : option Io.t) (id userId : ObjectId) (action : string)
          (responseTime snoozeMinutes : option Z) (now : Date) (w : World).

Lemma updateAdaptiveTiming_notifications (rid : ObjectId)
    (ur : UserResponse.t) (t : Date) (w0 : World) :
  notifications (NotificationScheduler.updateAdaptiveTiming rid ur t w0)
  = notifications w0.
Proof.
  unfold NotificationScheduler.updateAdaptiveTiming.
  destruct (Routine.findById rid (routines w0)) as [r|]; [|reflexivity].
  destruct (negb _); reflexivity.
Qed.

Lemma answeredDoc_id (n : Notification.t) :
  Notification._id (answeredDoc action responseTime snoozeMinutes now n)
  = Notification._id n.
Proof.
  unfold answeredDoc. now rewrite applyAction_id.
Qed.

(** The store after an eligible, valid call on a document whose stored
    status passes the validator: the call is answered 200, or 500 when the
    final push throws, and in both cases the answered document is
    stored. *)
Lemma response_store (n : Notification.t) :
  find (fun n => ownedBy id userId n && notLocked n) (notifications w)
  = Some n ->
  includes validActions action = true ->
  Notification.status_valid n = true ->
  let r := response io id userId action responseTime snoozeMinutes now w in
  (fst r = 200
   \/ (fst r = 500 /\ exists i, io = Some i /\ Io.to_emit_throws i = true))
  /\ notifications (snd r)
     = Notification.replace
         (answeredDoc action responseTime snoozeMinutes now n)
         (notifications w).
Proof.
  intros Hf Hv Hst. cbv zeta.
  remember (response io id userId action responseTime snoozeMinutes now w)
    as r eqn:Hr.
  unfold response in Hr. rewrite Hf, Hv in Hr.
  simpl negb in Hr. cbv iota in Hr.
  change (Notification.doc
            (Notification.assign_processing true (Notification.hydrate n)))
    with n in Hr.
  unfold Notification.save in Hr. rewrite validate_loaded, Hst in Hr.
  fold (snoozeOrDefault snoozeMinutes) in Hr.
  fold (answeredDoc action responseTime snoozeMinutes now n) in Hr.
  assert (Hval : Notification.validate n
                   (answeredDoc action responseTime snoozeMinutes now n)
                 = true)
    by (unfold answeredDoc; now apply validate_applyAction).
  rewrite Hval in Hr.
  rewrite notification_replace_twice in Hr by (now rewrite answeredDoc_id).
  set (stored :=
         Notification.replace
           (answeredDoc action responseTime snoozeMinutes now n) _) in *.
  set (w3 := record_metric _ _) in Hr.
  set (w4 := match Routine.findById _ _ with Some _ => _ | None => _ end)
    in Hr.
  assert (H4 : notifications w4 = stored).
  { subst w4.
    destruct (Routine.findById _ _) as [r0|]; [|reflexivity].
    destruct (AdaptiveTiming.enabled _); [|reflexivity].
    destruct (Notification.userResponse _); [|reflexivity].
    now rewrite updateAdaptiveTiming_notifications. }
  destruct io as [i|]; [|subst r; split; [left; reflexivity|exact H4]].
  destruct (Io.to_emit_throws i) eqn:Ei; subst r.
  - split; [|exact H4]. right. split; [reflexivity|]. now exists i.
  - split; [left; reflexivity|]. exact H4.
Qed.

(** An eligible, valid call on a document whose stored status fails the
    validator: the first save throws, the call is answered 500 and
    nothing is written. *)
Lemma response_status_rejected (n : Notification.t) :
  find (fun n => ownedBy id userId n && notLocked n) (notifications w)
  = Some n ->
  includes validActions action = true ->
  Notification.status_valid n = false ->
  response io id userId action responseTime snoozeMinutes now w = (500, w).
Proof.
  intros Hf Hv Hst. unfold response. rewrite Hf, Hv.
  simpl negb. cbv iota.
  change (Notification.doc
            (Notification.assign_processing true (Notification.hydrate n)))
    with n.
  unfold Notification.save. now rewrite validate_loaded, Hst.
Qed.

Lemma eligible_found (n : Notification.t) :
  find (fun n => ownedBy id userId n && notLocked n) (notifications w)
  = Some n ->
  In n (notifications w) /\ Notification._id n = id
  /\ Notification.user n = userId.
Proof.
  intros Hf. apply find_some in Hf. destruct Hf as [Hin Hp].
  apply andb_true_iff in Hp. destruct Hp as [Ho _].
  unfold ownedBy in Ho. apply andb_true_iff in Ho. destruct Ho as [H1 H2].
  repeat split; [exact Hin|lia|lia].
Qed.

(** The document read back by id after an eligible, valid call. *)
Lemma response_read_back (n : Notification.t) :
  find (fun n => ownedBy id userId n && notLocked n) (notifications w)
  = Some n ->
  includes validActions action = true ->
  Notification.status_valid n = true ->
  Notification.findById id
    (notifications
       (snd (response io id userId action responseTime snoozeMinutes now w)))
  = Some (answeredDoc action responseTime snoozeMinutes now n).
Proof.
  intros Hf Hv Hst.
  destruct (eligible_found n Hf) as [Hin [Hid _]].
  rewrite (proj2 (response_store n Hf Hv Hst)).
  rewrite <- Hid, <- answeredDoc_id.
  apply notification_findById_replace with (n := n); [exact Hin|].
  now rewrite answeredDoc_id.
Qed.

(** A 200 answer comes only from the accepting path. *)
Lemma response_accepted_inv :
  fst (response io id userId action responseTime snoozeMinutes now w) = 200 ->
  exists n,
    find (fun n => ownedBy id userId n && notLocked n) (notifications w)
    = Some n
    /\ includes validActions action = true
    /\ Notification.status_valid n = true.
Proof.
  destruct (find (fun n => ownedBy id userId n && notLocked n)
                 (notifications w)) as [n|] eqn:Hf.
  - destruct (includes validActions action) eqn:Hv.
    + destruct (Notification.status_valid n) eqn:Hst.
      * intros _. exists n.
        split; [reflexivity|]. split; [reflexivity|exact Hst].
      * rewrite (response_status_rejected n Hf Hv Hst). discriminate.
    + unfold response. rewrite Hf, Hv. simpl. discriminate.
  - unfold response. rewrite Hf.
    destruct (find (ownedBy id userId) (notifications w)) as [e|];
      simpl; discriminate.
Qed.

(** No call is answered 409: the property read by the conflict test is
    undefined on every loaded document. *)
Lemma response_never_conflict :
  fst (response io id userId action responseTime snoozeMinutes now w) <> 409.
Proof.
  destruct (find (fun n => ownedBy id userId n && notLocked n)
                 (notifications w)) as [n|] eqn:Hf.
  - destruct (includes validActions action) eqn:Hv.
    + destruct (Notification.status_valid n) eqn:Hst.
      * destruct (proj1 (response_store n Hf Hv Hst)) as [Hc|[Hc _]];
          rewrite Hc; discriminate.
      * rewrite (response_status_rejected n Hf Hv Hst). discriminate.
    + unfold response. rewrite Hf, Hv. simpl. discriminate.
  - unfold response. rewrite Hf.
    destruct (find (ownedBy id userId) (notifications w)) as [e|];
      simpl; discriminate.
Qed.

End ResponseRoute.

(** C1, as stated: a response to a terminal notification is not rejected.
    A delivered notification is dismissed, then completed by a second
    call: the second call is answered 200, not 409, the stored status
    changes from dismissed to completed and the metrics sink is fed
    twice. *)
Lemma respond_on_terminal_counterexample :
  let w0 :=
    Sample.worldWith [Sample.notificationWith 100 "delivered" None]
                     [Sample.routineWith true 0] in
  let r1 := Routes.response None 100 1 "dismissed" (Some 200) None 5000 w0 in
  let r2 :=
    Routes.response None 100 1 "completed" (Some 5) None 6000 (snd r1) in
  (option_map Notification.status
     (Notification.findById 100 (notifications (snd r1))) = Some "dismissed")
  /\ (Stated.terminal "dismissed" = true)
  /\ (fst r2 = 200)
  /\ (fst r2 <> 409)
  /\ (option_map Notification.status
        (Notification.findById 100 (notifications (snd r2))) = Some "completed")
  /\ (notifications (snd r2) <> notifications (snd r1))
  /\ (List.length (metrics (snd r2)) = 2%nat).
Proof.
  vm_compute. repeat split; try reflexivity; discriminate.
Qed.

(** C1, amended: the response route never answers 409 and does not look
    at the current status.  For a notification of the caller that the
    route's query finds and an action among completed, snoozed, dismissed:
    when the stored status is one the schema admits (pending, delivered,
    snoozed, and also the terminal completed and dismissed) the call is
    answered 200 (when the update push does not throw) and the stored
    status becomes the action; when the stored status is cancelled or
    failed, which the schema does not admit, the save throws, the call is
    answered 500 and the state is unchanged. *)
Theorem response_ignores_current_status (io : option Io.t)
    (id userId : ObjectId) (action : string)
    (responseTime snoozeMinutes : option Z) (now : Date) (w : World) :
  let r :=
    Routes.response io id userId action responseTime snoozeMinutes now w in
  fst r <> 409
  /\ forall n : Notification.t,
       find (fun n => Routes.ownedBy id userId n && Routes.notLocked n)
            (notifications w) = Some n ->
       includes Routes.validActions action = true ->
       (In (Notification.status n)
           ["pending"; "delivered"; "snoozed"; "completed"; "dismissed"] ->
        (match io with
         | Some i => Io.to_emit_throws i = false
         | None => True
         end -> fst r = 200)
        /\ exists n',
             Notification.findById id (notifications (snd r)) = Some n'
             /\ Notification.status n' = action)
       /\ (In (Notification.status n) ["cancelled"; "failed"] ->
           r = (500, w)).
Proof.
  cbv zeta. split; [apply response_never_conflict|].
  intros n Hf Hv. split.
  - intros Hin. apply statusEnum_admits in Hin.
    pose proof (response_store io id userId action responseTime snoozeMinutes
                  now w n Hf Hv Hin) as Hs.
    cbv zeta in Hs. split.
    + intros Hio. destruct Hs as [[Hc|[_ [i [-> Hi]]]] _]; [exact Hc|].
      rewrite Hi in Hio. discriminate.
    + eexists. split.
      * apply response_read_back; eassumption.
      * unfold answeredDoc. apply applyAction_status.
  - intros Hin. apply statusEnum_rejects in Hin.
    now apply response_status_rejected with (n := n).
Qed.

Lemma response_ignores_current_status_witness :
  (exists n',
      Notification.findById 100
        (notifications
           (snd (Routes.response None 100 1 "dismissed" (Some 5) None 5000
                   (Sample.worldWith
                      [Sample.notificationWith 100 "completed" None]
                      [Sample.routineWith true 0])))) = Some n'
      /\ Notification.status n' = "dismissed")
  /\ Routes.response None 100 1 "dismissed" (Some 5) None 5000
       (Sample.worldWith [Sample.notificationWith 100 "cancelled" None]
                         [Sample.routineWith true 0])
     = (500,
        Sample.worldWith [Sample.notificationWith 100 "cancelled" None]
                         [Sample.routineWith true 0]).
Proof.
  split.
  - destruct (response_ignores_current_status None 100 1 "dismissed" (Some 5)
                None 5000
                (Sample.worldWith
                   [Sample.notificationWith 100 "completed" None]
                   [Sample.routineWith true 0]))
      as [_ H].
    destruct (H (Sample.notificationWith 100 "completed" None)
                eq_refl eq_refl) as [Hacc _].
    destruct Hacc as [_ Hex].
    + simpl. right; right; right; left; reflexivity.
    + exact Hex.
  - destruct (response_ignores_current_status None 100 1 "dismissed" (Some 5)
                None 5000
                (Sample.worldWith
                   [Sample.notificationWith 100 "cancelled" None]
                   [Sample.routineWith true 0]))
      as [_ H].
    destruct (H (Sample.notificationWith 100 "cancelled" None)
                eq_refl eq_refl) as [_ Hrej].
    apply Hrej. simpl. left; reflexivity.
Defined.

(** The socket handler does not look at the current status either: for
    a notification of the caller and one of the three actions, the stored
    status becomes the action. *)
Lemma notificationResponse_ignores_status (userId notificationId : ObjectId)
    (action : string) (responseTime snoozeMinutes : option Z) (now : Date)
    (w : World) (n : Notification.t) :
  Notification.findById notificationId (notifications w) = Some n ->
  Notification.user n = userId ->
  includes Routes.validActions action = true ->
  exists n',
    Notification.findById notificationId
      (notifications
         (Socket.notificationResponse userId notificationId action
            responseTime snoozeMinutes now w)) = Some n'
    /\ Notification.status n' = action.
Proof.
  intros Hf Hu Hv.
  pose proof (validActions_status _ Hv) as Hs.
  pose proof (validActions_action _ Hv) as Ha.
  unfold Socket.notificationResponse. rewrite Hf, Hu, Z.eqb_refl.
  cbn [negb].
  set (n1 := if String.eqb action "snoozed" && _ then _ else _).
  assert (H1 : Notification.status n1 = action
               /\ Notification._id n1 = Notification._id n
               /\ exists ur, Notification.userResponse n1 = Some ur
                             /\ UserResponse.action ur = action).
  { subst n1. destruct (String.eqb action "snoozed") eqn:E; cbn [andb].
    - apply String.eqb_eq in E. subst action.
      destruct (match snoozeMinutes with
                | Some m => negb (m =? 0)
                | None => false
                end).
      + repeat split. eexists. split; reflexivity.
      + cbn [String.eqb Ascii.eqb Bool.eqb].
        repeat split. eexists. split; reflexivity.
    - destruct (String.eqb action "completed");
        repeat split; eexists; split; reflexivity. }
  destruct H1 as [Hst [Hid [ur [Hur Hact]]]].
  assert (Hval : Notification.validate n n1 = true).
  { unfold Notification.validate, Notification.status_valid,
      Notification.action_valid.
    rewrite Hst, Hur, Hact, Hs, Ha. now rewrite !orb_true_r. }
  unfold Notification.save. rewrite Hval, Hur.
  exists n1. split; [|exact Hst].
  cbn [notifications emit].
  rewrite updateAdaptiveTiming_notifications.
  cbn [notifications record_metric set_notifications].
  unfold Notification.findById in Hf. apply find_some in Hf.
  destruct Hf as [Hin Hidn]. apply Z.eqb_eq in Hidn.
  rewrite <- Hidn, <- Hid.
  apply notification_findById_replace with (n := n); [exact Hin|].
  now rewrite Hid.
Qed.

(** [handleUserResponse] of the model applies the same transition, with a
    fixed snooze of five minutes. *)
Lemma handleUserResponse_transition (action : string) (rt : option Z)
    (now : Date) (n : Notification.t) :
  let n' := Notification.handleUserResponse action rt now n in
  Notification.status n' = action
  /\ Notification.userResponse n' = Some (UserResponse.mk action rt now)
  /\ (action = "completed" -> Notification.completedAt n' = Some now)
  /\ (action = "dismissed" ->
      Notification.completedAt n' = Notification.completedAt n
      /\ Notification.snoozedUntil n' = Notification.snoozedUntil n)
  /\ (action = "snoozed" ->
      Notification.snoozedUntil n' = Some (now + 5 * 60 * 1000)).
Proof.
  cbv zeta. unfold Notification.handleUserResponse.
  split; [|split; [|split; [|split]]].
  - destruct (String.eqb action "snoozed") eqn:E.
    + apply String.eqb_eq in E. subst action. reflexivity.
    + destruct (String.eqb action "completed"); reflexivity.
  - destruct (String.eqb action "completed"); [reflexivity|].
    destruct (String.eqb action "snoozed"); reflexivity.
  - intros ->. reflexivity.
  - intros ->. split; reflexivity.
  - intros ->. reflexivity.
Qed.



(** ** Owner check *)

(** The response route answers 404 and changes nothing when no
    notification with this id belongs to the caller, whether or not the id
    exists. *)
Lemma response_not_owner (io : option Io.t) (id userId : ObjectId)
    (action : string) (responseTime snoozeMinutes : option Z) (now : Date)
    (w : World) :
  (forall n, In n (notifications w) -> Notification._id n = id ->
             Notification.user n <> userId) ->
  Routes.response io id userId action responseTime snoozeMinutes now w
  = (404, w).
Proof.
  intros Hno. unfold Routes.response.
  assert (Hnone : forall p,
             find (fun n => Routes.ownedBy id userId n && p n)
                  (notifications w) = None).
  { intros p. destruct (find _ _) as [n|] eqn:Hf; [|reflexivity].
    apply find_some in Hf. destruct Hf as [Hin Hp].
    apply andb_true_iff in Hp. destruct Hp as [Ho _].
    unfold Routes.ownedBy in Ho. apply andb_true_iff in Ho.
    destruct Ho as [H1 H2].
    exfalso. apply (Hno n Hin); lia. }
  rewrite Hnone.
  destruct (find (Routes.ownedBy id userId) (notifications w)) as [e|] eqn:Hf;
    [|reflexivity].
  apply find_some in Hf. destruct Hf as [Hin Ho].
  unfold Routes.ownedBy in Ho. apply andb_true_iff in Ho.
  destruct Ho as [H1 H2].
  exfalso. apply (Hno e Hin); lia.
Qed.

(** C8, at the failing input: user 2 answers notification 100 of user 1,
    and an id that does not exist.  The response route answers 404 to both
    and changes nothing; the socket handler sends "Unauthorized" for the
    first and "Notification not found" for the second. *)
Theorem socket_response_reveals_foreign_notification :
  let w :=
    Sample.worldWith [Sample.notificationWith 100 "delivered" None]
                     [Sample.routineWith true 0] in
  (Routes.response None 100 2 "completed" (Some 5) None 5000 w = (404, w))
  /\ (Routes.response None 999 2 "completed" (Some 5) None 5000 w = (404, w))
  /\ (emitted (Socket.notificationResponse 2 100 "completed" (Some 5) None
                 5000 w)
      = [mkEmission (ToSocket 2) "error" (ErrorData "Unauthorized")])
  /\ (emitted (Socket.notificationResponse 2 999 "completed" (Some 5) None
                 5000 w)
      = [mkEmission (ToSocket 2) "error" (ErrorData "Notification not found")]).
Proof.
  vm_compute. repeat split; reflexivity.
Qed.

(** ** The delivery dispatcher *)

(** With a working transport the dispatcher stores the loaded document
    with [status] and [deliveredAt] changed, and nothing else. *)
Lemma sendRealTimeNotification_ok (n : Notification.t) (routine : Routine.t)
    (now : Date) (w : World) :
  NotificationScheduler.sendRealTimeNotification
    (Some (Io.mk false false)) n (Some routine) now w
  = (set_notifications
       (Notification.replace
          (Notification.set_deliveredAt (Some now)
             (Notification.set_status "delivered" n))
          (notifications w))
       (emit (mkEmission ToAll "notification-broadcast"
                (BroadcastData
                   (NotificationScheduler.payloadOf n routine now)
                   (Routine.user routine) true))
          (emit (mkEmission (ToRoom (Routine.user routine)) "notification"
                   (NotificationData
                      (NotificationScheduler.payloadOf n routine now))) w)),
     Returned).
Proof.
  unfold NotificationScheduler.sendRealTimeNotification.
  cbn [Io.to_emit_throws Io.emit_throws].
  unfold Notification.save, Notification.validate, Notification.status_valid,
    Notification.action_valid.
  destruct n as [i u r t m ty so v st ur da sf dl ca su os aa pr cr].
  cbn [Notification.status Notification.userResponse
       Notification.set_status Notification.set_deliveredAt
       Notification._id Notification.user Notification.routine
       Notification.title Notification.message Notification.type
       Notification.sound Notification.volume Notification.deliveryAttempts
       Notification.scheduledFor Notification.deliveredAt
       Notification.completedAt Notification.snoozedUntil
       Notification.originalSchedule Notification.adaptiveAdjustment
       Notification.processing Notification.createdAt].
  replace (includes Notification.statusEnum "delivered") with true
    by reflexivity.
  destruct ur as [ur|]; [rewrite String.eqb_refl|]; reflexivity.
Qed.

(** The [catch] block stores nothing: "failed" is not in the status
    enum of the schema, the save is rejected and the exception leaves the
    dispatcher. *)
Lemma sendRealTimeNotification_catch_rejected (loaded d : Notification.t)
    (w : World) :
  NotificationScheduler.sendRealTimeNotification_catch loaded d w = (w, Threw).
Proof.
  unfold NotificationScheduler.sendRealTimeNotification_catch.
  unfold Notification.save, Notification.validate, Notification.status_valid.
  replace (Notification.status
             (Notification.set_deliveryAttempts
                (Notification.deliveryAttempts
                   (Notification.set_status "failed" d) + 1)
                (Notification.set_status "failed" d)))
    with "failed" by (destruct d; reflexivity).
  reflexivity.
Qed.

(** C6, at the failing input: a pending notification with
    deliveryAttempts = 0 is dispatched over a working transport.  Both emit
    calls are made, the stored status is delivered and deliveredAt is now,
    but the stored deliveryAttempts is still 0; the model method
    [markAsDelivered] on the same document stores 1. *)
Theorem dispatch_success_keeps_deliveryAttempts :
  let n := Sample.notificationWith 100 "pending" None in
  let w := Sample.worldWith [n] [Sample.routineWith true 0] in
  let r :=
    NotificationScheduler.sendRealTimeNotification
      Sample.ioOk n (Some (Sample.routineWith true 0)) 5000 w in
  let view (d : Notification.t) :=
    (Notification.status d, Notification.deliveredAt d,
     Notification.deliveryAttempts d) in
  (snd r = Returned)
  /\ (List.length (emitted (fst r)) = 2%nat)
  /\ (option_map view (Notification.findById 100 (notifications (fst r)))
      = Some ("delivered", Some 5000, 0))
  /\ (option_map (option_map view)
        (option_map (Notification.findById 100)
           (Notification.markAsDelivered 5000 n [n]))
      = Some (Some ("delivered", Some 5000, 1))).
Proof.
  vm_compute. repeat split; reflexivity.
Qed.

(** C7, as stated: the payload is not kept to the owner.  Notification
    100 of user 1 is dispatched; a session of user 2 receives an emission,
    and it carries the whole payload. *)
Lemma dispatch_broadcast_counterexample :
  let n := Sample.notificationWith 100 "pending" None in
  let routine := Sample.routineWith true 0 in
  let w := Sample.worldWith [n] [routine] in
  let w' :=
    fst (NotificationScheduler.sendRealTimeNotification
           Sample.ioOk n (Some routine) 5000 w) in
  (Routine.user routine = 1)
  /\ (filter (receives 2) (emitted w')
      = [mkEmission ToAll "notification-broadcast"
           (BroadcastData (NotificationScheduler.payloadOf n routine 5000)
                          1 true)]).
Proof.
  vm_compute. split; reflexivity.
Qed.

(** C7, amended: the dispatcher makes at most two emissions, in this
    order: the [notification] event with the payload, addressed to the
    room of the routine's owner, which only sessions of that user receive;
    and the [notification-broadcast] event with the same payload plus the
    owner's id, sent to every connected socket, which sessions of every
    user receive.  With a transport that does not throw both are made. *)
Theorem dispatch_emissions (io : option Io.t) (n : Notification.t)
    (routine : Routine.t) (now : Date) (w : World) :
  let w' :=
    fst (NotificationScheduler.sendRealTimeNotification
           io n (Some routine) now w) in
  let p := NotificationScheduler.payloadOf n routine now in
  let toOwner :=
    mkEmission (ToRoom (Routine.user routine)) "notification"
               (NotificationData p) in
  let toAll :=
    mkEmission ToAll "notification-broadcast"
               (BroadcastData p (Routine.user routine) true) in
  (emitted w' = emitted w
   \/ emitted w' = (emitted w ++ [toOwner])%list
   \/ emitted w' = (emitted w ++ [toOwner; toAll])%list)
  /\ (io = Some (Io.mk false false) ->
      emitted w' = (emitted w ++ [toOwner; toAll])%list)
  /\ (forall u, receives u toOwner = true <-> u = Routine.user routine)
  /\ (forall u, receives u toAll = true).
Proof.
  cbv zeta. split; [|split; [|split]].
  - unfold NotificationScheduler.sendRealTimeNotification,
      NotificationScheduler.sendRealTimeNotification_catch.
    destruct io as [[t1 t2]|]; [|left; reflexivity].
    cbn [Io.to_emit_throws Io.emit_throws].
    destruct t1.
    + left. destruct (Notification.save _ _ _); reflexivity.
    + destruct t2.
      * right; left. destruct (Notification.save _ _ _); reflexivity.
      * right; right.
        destruct (Notification.save n _ _); cbn [fst].
        -- cbn. now rewrite <- app_assoc.
        -- destruct (Notification.save _ _ _); cbn; now rewrite <- app_assoc.
  - intros ->. rewrite sendRealTimeNotification_ok. cbn.
    now rewrite <- app_assoc.
  - intros u. unfold receives. cbn. rewrite Z.eqb_eq. split; auto.
  - intros u. reflexivity.
Qed.

Lemma dispatch_emissions_witness :
  emitted
    (fst (NotificationScheduler.sendRealTimeNotification
            (Some (Io.mk false false))
            (Sample.notificationWith 100 "pending" None)
            (Some (Sample.routineWith true 0)) 5000
            (Sample.worldWith [Sample.notificationWith 100 "pending" None]
                              [Sample.routineWith true 0])))
  = [ mkEmission (ToRoom 1) "notification"
        (NotificationData
           (NotificationScheduler.payloadOf
              (Sample.notificationWith 100 "pending" None)
              (Sample.routineWith true 0) 5000));
      mkEmission ToAll "notification-broadcast"
        (BroadcastData
           (NotificationScheduler.payloadOf
              (Sample.notificationWith 100 "pending" None)
              (Sample.routineWith true 0) 5000) 1 true) ].
Proof.
  exact (proj1 (proj2
           (dispatch_emissions (Some (Io.mk false false))
              (Sample.notificationWith 100 "pending" None)
              (Sample.routineWith true 0) 5000
              (Sample.worldWith [Sample.notificationWith 100 "pending" None]
                                [Sample.routineWith true 0])))
           eq_refl).
Defined.

(** ** Toggling a routine *)

(** Deactivating through the toggle route leaves every notification as
    it was. *)
Lemma toggle_off_keeps_notifications (id userId : ObjectId) (now : Date)
    (w : World) (routine : Routine.t) :
  find (fun r => (Routine._id r =? id) && (Routine.user r =? userId))
       (routines w) = Some routine ->
  Routine.isActive routine = true ->
  notifications (snd (Routes.toggle id userId now w)) = notifications w.
Proof.
  intros Hf Ha. unfold Routes.toggle. rewrite Hf.
  unfold NotificationScheduler.scheduleRoutineNotifications.
  destruct routine; simpl in *. subst. reflexivity.
Qed.

(** C4, at the failing input: routine 10 is active and has a pending and
    a snoozed notification.  The toggle route answers 200 and stores the
    routine as inactive, and both notifications keep their status; the
    next snooze scan past the wake time sends the snoozed one again and
    stores it as delivered.  [cancelRoutineNotifications], which the route
    does not call, would have stored both as cancelled. *)
Theorem toggle_off_leaves_notifications_live :
  let pending := Sample.notificationWith 100 "pending" None in
  let snoozed :=
    Sample.notificationWith 101 "snoozed" (Some (Sample.monday0900 + 300000)) in
  let w := Sample.worldWith [pending; snoozed] [Sample.routineWith true 0] in
  let off := Routes.toggle 10 1 (Sample.monday0900 + 1000) w in
  let scanned :=
    NotificationScheduler.checkSnoozedNotifications
      Sample.ioOk (Sample.monday0900 + 300000) (snd off) in
  (fst off = 200)
  /\ (map Routine.isActive (routines (snd off)) = [false])
  /\ (map Notification.status (notifications (snd off))
      = ["pending"; "snoozed"])
  /\ (map Notification.status (notifications scanned)
      = ["pending"; "delivered"])
  /\ (map event (filter (receives 1) (emitted scanned))
      = ["notification"; "notification-broadcast"])
  /\ (map Notification.status
        (notifications
           (NotificationScheduler.cancelRoutineNotifications 10
              (Sample.monday0900 + 1000) w))
      = ["cancelled"; "cancelled"]).
Proof.
  vm_compute. repeat split; reflexivity.
Qed.

(** An inactive routine is never selected by the due scan. *)
Lemma inactive_not_due (currentTime : string) (currentDay : Z)
    (r : Routine.t) :
  Routine.isActive r = false ->
  NotificationScheduler.isDue currentTime currentDay r = false.
Proof.
  intros H. unfold NotificationScheduler.isDue. now rewrite H.
Qed.

(** ** The due scan and its duplicate check *)

Section DueScan.

Import NotificationScheduler.

Lemma replace_fresh (d : Notification.t) (coll : list Notification.t) :
  Forall (fun n => Notification._id n < Notification._id d) coll ->
  Notification.replace d coll = coll.
Proof.
  unfold Notification.replace.
  induction coll as [|a coll IH]; intros H; [reflexivity|].
  inversion H as [|? ? Ha Hc]; subst. simpl.
  destruct (Notification._id a =? Notification._id d) eqn:E.
  - apply Z.eqb_eq in E. lia.
  - now rewrite IH.
Qed.

Lemma sendRealTimeNotification_routines (io : option Io.t)
    (n : Notification.t) (routine : option Routine.t) (now : Date)
    (w : World) :
  routines (fst (sendRealTimeNotification io n routine now w)) = routines w
  /\ nextId (fst (sendRealTimeNotification io n routine now w)) = nextId w.
Proof.
  unfold sendRealTimeNotification, sendRealTimeNotification_catch.
  destruct io as [[t1 t2]|]; [|split; reflexivity].
  destruct routine as [r|];
    [|destruct (Notification.save _ _ _); split; reflexivity].
  cbn [Io.to_emit_throws Io.emit_throws].
  destruct t1; [destruct (Notification.save _ _ _); split; reflexivity|].
  destruct t2; [destruct (Notification.save _ _ _); split; reflexivity|].
  destruct (Notification.save n _ _); [split; reflexivity|].
  destruct (Notification.save _ _ _); split; reflexivity.
Qed.

(** Dispatching the notification that was just inserted at the end of
    the collection: the collection keeps its other documents, and the new
    one stays pending or becomes delivered. *)
Lemma sendRealTimeNotification_new (io : option Io.t) (N : Notification.t)
    (r : Routine.t) (now : Date) (w : World) (coll : list Notification.t) :
  notifications w = (coll ++ [N])%list ->
  Forall (fun n => Notification._id n < Notification._id N) coll ->
  Notification.status N = "pending" ->
  Notification.userResponse N = None ->
  exists N',
    notifications (fst (sendRealTimeNotification io N (Some r) now w))
    = (coll ++ [N'])%list
    /\ Notification._id N' = Notification._id N
    /\ Notification.user N' = Notification.user N
    /\ Notification.routine N' = Notification.routine N
    /\ Notification.scheduledFor N' = Notification.scheduledFor N
    /\ includes ["pending"; "delivered"; "snoozed"] (Notification.status N')
       = true.
Proof.
  intros Hw Hfresh Hst Hur.
  assert (Hcatch : forall w0 d,
             notifications w0 = (coll ++ [N])%list ->
             Notification.status d = "delivered"
             \/ Notification.status d = "pending" ->
             notifications
               (fst (sendRealTimeNotification_catch N
                       d w0)) = (coll ++ [N])%list).
  { intros w0 d Hw0 _.
    rewrite sendRealTimeNotification_catch_rejected. exact Hw0. }
  assert (Hpending : includes ["pending"; "delivered"; "snoozed"]
                       (Notification.status N) = true)
    by (rewrite Hst; reflexivity).
  unfold sendRealTimeNotification.
  destruct io as [[t1 t2]|]; cbn [Io.to_emit_throws Io.emit_throws].
  - destruct t1.
    + exists N. split; [apply Hcatch; auto|].
      repeat split; try reflexivity. exact Hpending.
    + destruct t2.
      * exists N. split; [apply Hcatch; [cbn; now rewrite Hw|auto]|].
        repeat split; try reflexivity. exact Hpending.
      * set (n2 := Notification.set_deliveredAt (Some now)
                     (Notification.set_status "delivered" N)).
        assert (Hv : Notification.validate N n2 = true).
        { unfold Notification.validate, Notification.status_valid,
            Notification.action_valid.
          replace (Notification.status n2) with "delivered"
            by (destruct N; reflexivity).
          replace (Notification.userResponse n2) with (@None UserResponse.t)
            by (destruct N; simpl in *; now subst).
          replace (includes Notification.statusEnum "delivered") with true
            by reflexivity.
          reflexivity. }
        unfold Notification.save. rewrite Hv. cbn [fst].
        exists n2.
        split.
        { cbn [notifications set_notifications emit].
          rewrite Hw. unfold Notification.replace at 1. rewrite map_app.
          fold (Notification.replace n2 coll).
          rewrite replace_fresh
            by (replace (Notification._id n2) with (Notification._id N)
                  by (destruct N; reflexivity); exact Hfresh).
          cbn [map].
          replace (Notification._id n2) with (Notification._id N)
            by (destruct N; reflexivity).
          now rewrite Z.eqb_refl. }
        repeat split; try (destruct N; reflexivity).
  - exists N. cbn [fst]. split; [exact Hw|].
    repeat split; try reflexivity. exact Hpending.
Qed.

Lemma createAndSendNotification_routines (io : option Io.t) (r : Routine.t)
    (T now : Date) (w : World) :
  routines (createAndSendNotification io r T now w) = routines w.
Proof.
  unfold createAndSendNotification. cbv zeta.
  destruct (find _ _); [reflexivity|].
  destruct (Notification.insert _ _); [|reflexivity].
  now rewrite (proj1 (sendRealTimeNotification_routines _ _ _ _ _)).
Qed.

(** The two outcomes of [createAndSendNotification]: a recent open
    notification exists and nothing changes, or none exists and one
    document is appended. *)
Lemma createAndSendNotification_cases (io : option Io.t) (r : Routine.t)
    (T now : Date) (w : World) :
  idsIssued w ->
  (createAndSendNotification io r T now w = w
   /\ exists n, In n (notifications w)
                /\ isRecentFor r (now - 5 * 60 * 1000) n = true)
  \/ (find (isRecentFor r (now - 5 * 60 * 1000)) (notifications w) = None
      /\ exists N',
           notifications (createAndSendNotification io r T now w)
           = (notifications w ++ [N'])%list
           /\ nextId (createAndSendNotification io r T now w) = nextId w + 1
           /\ Notification._id N' = nextId w
           /\ Notification.user N' = Routine.user r
           /\ Notification.routine N' = Routine._id r
           /\ Notification.scheduledFor N'
              = T + appliedAdjustment r * 60 * 1000
           /\ includes ["pending"; "delivered"; "snoozed"]
                       (Notification.status N') = true).
Proof.
  intros Hids. unfold createAndSendNotification. cbv zeta.
  destruct (find (isRecentFor r (now - 5 * 60 * 1000)) (notifications w))
    as [n|] eqn:Hf.
  - left. split; [reflexivity|]. exists n. now apply find_some in Hf.
  - right. split; [reflexivity|].
    fold (appliedAdjustment r).
    set (N := Notification.mk _ _ _ _ _ _ _ _ _ _ _ _ _ _ _ _ _ _ _).
    unfold Notification.insert.
    change (Notification.status N) with "pending".
    replace (includes Notification.statusEnum "pending") with true
      by reflexivity.
    set (w1 := bump_nextId _).
    destruct (sendRealTimeNotification_new io N r now w1 (notifications w))
      as [N' [H1 [H2 [H3 [H4 [H5 H6]]]]]]; try reflexivity.
    { exact Hids. }
    exists N'. split; [exact H1|].
    split; [now rewrite (proj2 (sendRealTimeNotification_routines _ _ _ _ _))|].
    split; [exact H2|]. split; [exact H3|]. split; [exact H4|].
    split; [|exact H6].
    rewrite H5. subst N. cbn [Notification.scheduledFor].
    destruct (appliedAdjustment r =? 0) eqn:E; cbn [negb].
    + apply Z.eqb_eq in E. lia.
    + lia.
Qed.

Lemma createAndSendNotification_skip (io : option Io.t) (r : Routine.t)
    (T now : Date) (w : World) :
  hasRecent r (now - 5 * 60 * 1000) w ->
  createAndSendNotification io r T now w = w.
Proof.
  intros [n [Hin Hn]]. unfold createAndSendNotification. cbv zeta.
  destruct (find (isRecentFor r (now - 5 * 60 * 1000)) (notifications w))
    as [m|] eqn:Hf; [reflexivity|].
  rewrite (find_none _ _ Hf n Hin) in Hn. discriminate.
Qed.

Lemma createAndSendNotification_idsIssued (io : option Io.t) (r : Routine.t)
    (T now : Date) (w : World) :
  idsIssued w -> idsIssued (createAndSendNotification io r T now w).
Proof.
  intros Hids.
  destruct (createAndSendNotification_cases io r T now w Hids)
    as [[-> _]|[_ [N' [Hn [Hnext [Hid _]]]]]]; [exact Hids|].
  unfold idsIssued in *. rewrite Hn, Hnext.
  apply Forall_app. split.
  - eapply Forall_impl; [|exact Hids]. cbv beta. intros; lia.
  - constructor; [lia|constructor].
Qed.

Lemma createAndSendNotification_hasRecent (io : option Io.t)
    (r R : Routine.t) (T now b : Date) (w : World) :
  idsIssued w -> hasRecent R b w ->
  hasRecent R b (createAndSendNotification io r T now w).
Proof.
  intros Hids [n [Hin Hn]].
  destruct (createAndSendNotification_cases io r T now w Hids)
    as [[-> _]|[_ [N' [Hnew _]]]]; [now exists n|].
  exists n. split; [|exact Hn]. rewrite Hnew. apply in_or_app. now left.
Qed.

(** Creating for another routine neither adds to the notifications of
    [R] nor makes one of them recent. *)
Lemma createAndSendNotification_other (io : option Io.t) (r R : Routine.t)
    (T now : Date) (w : World) :
  idsIssued w -> Routine._id r <> Routine._id R ->
  countFor R (createAndSendNotification io r T now w) = countFor R w
  /\ (forall b, noneRecent R b w ->
                noneRecent R b (createAndSendNotification io r T now w)).
Proof.
  intros Hids Hne.
  destruct (createAndSendNotification_cases io r T now w Hids)
    as [[-> _]|[_ [N' [Hnew [_ [_ [_ [Hr _]]]]]]]]; [split; auto|].
  assert (E : (Notification.routine N' =? Routine._id R) = false)
    by (apply Z.eqb_neq; lia).
  split.
  - unfold countFor. rewrite Hnew, filter_app. cbn [filter]. rewrite E.
    now rewrite app_nil_r.
  - intros b Hnone n Hin. rewrite Hnew in Hin.
    apply in_app_or in Hin. destruct Hin as [Hin|[<-|[]]]; [now apply Hnone|].
    unfold isRecentFor. rewrite E. now rewrite andb_false_r.
Qed.

(** Creating for [R] itself when nothing recent is stored: one more
    notification of [R], scheduled at the adjusted fire time. *)
Lemma createAndSendNotification_new (io : option Io.t) (R : Routine.t)
    (T now : Date) (w : World) :
  idsIssued w -> noneRecent R (now - 5 * 60 * 1000) w ->
  countFor R (createAndSendNotification io R T now w) = S (countFor R w)
  /\ (forall b, b <= T + appliedAdjustment R * 60 * 1000 ->
                hasRecent R b (createAndSendNotification io R T now w)).
Proof.
  intros Hids Hnone.
  destruct (createAndSendNotification_cases io R T now w Hids)
    as [[_ [n [Hin Hn]]]|[_ [N' [Hnew [_ [_ [Hu [Hr [Hs Hst]]]]]]]]].
  - rewrite (Hnone n Hin) in Hn. discriminate.
  - split.
    + unfold countFor. rewrite Hnew, filter_app, length_app. cbn [filter].
      rewrite Hr, Z.eqb_refl. cbn [List.length]. lia.
    + intros b Hb. exists N'. split.
      * rewrite Hnew. apply in_or_app. right. now left.
      * unfold isRecentFor. rewrite Hu, Hr, !Z.eqb_refl, Hst, Hs.
        cbn [andb]. rewrite andb_true_r. apply Z.geb_le. lia.
Qed.

(** Scanning a list of routines none of which is [R]. *)
Lemma scan_others (io : option Io.t) (R : Routine.t) (T : Date)
    (L : list Routine.t) :
  forall w,
    idsIssued w ->
    (forall r, In r L -> Routine._id r <> Routine._id R) ->
    let w' :=
      fold_left (fun w r => createAndSendNotification io r T T w) L w in
    idsIssued w'
    /\ countFor R w' = countFor R w
    /\ (forall b, hasRecent R b w -> hasRecent R b w')
    /\ (forall b, noneRecent R b w -> noneRecent R b w').
Proof.
  induction L as [|r L IH]; intros w Hids Hne; cbn [fold_left].
  - repeat split; auto.
  - assert (Hr : Routine._id r <> Routine._id R) by (apply Hne; now left).
    destruct (createAndSendNotification_other io r R T T w Hids Hr)
      as [Hc Hn].
    destruct (IH (createAndSendNotification io r T T w)
                 (createAndSendNotification_idsIssued io r T T w Hids)
                 (fun r' Hin => Hne r' (or_intror Hin)))
      as [I1 [I2 [I3 I4]]].
    split; [exact I1|]. split; [now rewrite I2|]. split.
    + intros b Hb. apply I3.
      now apply createAndSendNotification_hasRecent.
    + intros b Hb. apply I4. now apply Hn.
Qed.

(** Routine ids stay unique in any selection of the routine collection. *)
Lemma selected_ids_unique (select : Routine.t -> bool)
    (coll : list Routine.t) :
  NoDup (map Routine._id coll) ->
  NoDup (map Routine._id (filter select coll)).
Proof.
  intros Hnd. induction coll as [|r coll IH]; [constructor|].
  cbn [map] in Hnd. apply NoDup_cons_iff in Hnd. destruct Hnd as [Hnin Hnd].
  cbn [filter]. destruct (select r); [|now apply IH].
  cbn [map]. apply NoDup_cons_iff. split; [|now apply IH].
  intros Hin. apply Hnin. apply in_map_iff in Hin.
  destruct Hin as [x [Hx Hin]]. apply filter_In in Hin.
  apply in_map_iff. exists x. tauto.
Qed.

(** A routine of a collection with unique ids splits it into routines
    with other ids. *)
Lemma routine_splits (coll : list Routine.t) (R : Routine.t) :
  NoDup (map Routine._id coll) -> In R coll ->
  exists before after,
    coll = (before ++ R :: after)%list
    /\ forall y, In y (before ++ after)%list ->
                 Routine._id y <> Routine._id R.
Proof.
  intros Hnd Hin. destruct (in_split R coll Hin) as [before [after ->]].
  exists before, after. split; [reflexivity|].
  rewrite map_app in Hnd. cbn [map] in Hnd.
  apply NoDup_remove_2 in Hnd.
  intros y Hy Heq. apply Hnd. rewrite <- map_app, <- Heq.
  now apply in_map.
Qed.

(** With unique ids, a routine is determined by its id. *)
Lemma routine_by_id (coll : list Routine.t) (r R : Routine.t) :
  NoDup (map Routine._id coll) -> In r coll -> In R coll ->
  Routine._id r = Routine._id R -> r = R.
Proof.
  induction coll as [|a coll IH]; intros Hnd Hr HR Heq; [contradiction|].
  cbn [map] in Hnd. apply NoDup_cons_iff in Hnd. destruct Hnd as [Hnin Hnd].
  destruct Hr as [->|Hr]; destruct HR as [->|HR]; auto.
  - exfalso. apply Hnin. rewrite Heq. now apply in_map.
  - exfalso. apply Hnin. rewrite <- Heq. now apply in_map.
Qed.

Lemma same_minute (T T' : Date) :
  T / 60000 = T' / 60000 ->
  currentTimeOf T = currentTimeOf T' /\ getDay T = getDay T'.
Proof.
  intros H.
  assert (Hh : T / 3600000 = T' / 3600000).
  { change 3600000 with (60000 * 60).
    rewrite <- !Z.div_div by lia. now rewrite H. }
  assert (Hd : T / 86400000 = T' / 86400000).
  { change 86400000 with (60000 * 1440).
    rewrite <- !Z.div_div by lia. now rewrite H. }
  unfold currentTimeOf, getHours, getMinutes, getDay.
  now rewrite H, Hh, Hd.
Qed.

(** Two instants of one minute are less than a minute apart: the bound
    on the second scan holds for every adjustment of -4 minutes or more. *)
Lemma same_minute_bound (T T' a : Z) :
  T / 60000 = T' / 60000 -> -4 <= a ->
  T' - 5 * 60 * 1000 <= T + a * 60 * 1000.
Proof.
  intros H Ha.
  pose proof (Z.div_mod T 60000 ltac:(lia)) as E1.
  pose proof (Z.div_mod T' 60000 ltac:(lia)) as E2.
  pose proof (Z.mod_pos_bound T 60000 ltac:(lia)) as B1.
  pose proof (Z.mod_pos_bound T' 60000 ltac:(lia)) as B2.
  rewrite H in E1. lia.
Qed.

Lemma scan_routines (io : option Io.t) (T : Date) (L : list Routine.t) :
  forall w,
    routines (fold_left (fun w r => createAndSendNotification io r T T w) L w)
    = routines w.
Proof.
  induction L as [|r L IH]; intros w; cbn [fold_left]; [reflexivity|].
  rewrite IH. apply createAndSendNotification_routines.
Qed.

(** Scanning a list of routines in which [R] occurs once. *)
Lemma scan_with (io : option Io.t) (R : Routine.t) (T : Date)
    (L1 L2 : list Routine.t) (w : World) :
  idsIssued w ->
  (forall y, In y (L1 ++ L2)%list -> Routine._id y <> Routine._id R) ->
  let w' :=
    fold_left (fun w r => createAndSendNotification io r T T w)
              (L1 ++ R :: L2)%list w in
  idsIssued w'
  /\ (hasRecent R (T - 5 * 60 * 1000) w -> countFor R w' = countFor R w)
  /\ (noneRecent R (T - 5 * 60 * 1000) w ->
      countFor R w' = S (countFor R w)
      /\ forall b, b <= T + appliedAdjustment R * 60 * 1000 ->
                   hasRecent R b w').
Proof.
  intros Hids Hne. cbv zeta. rewrite fold_left_app. cbn [fold_left].
  destruct (scan_others io R T L1 w Hids
              (fun r Hin => Hne r (in_or_app _ _ _ (or_introl Hin))))
    as [I1 [C1 [H1 N1]]].
  set (w1 := fold_left _ L1 w) in *.
  pose proof (createAndSendNotification_idsIssued io R T T w1 I1) as I2.
  destruct (scan_others io R T L2 (createAndSendNotification io R T T w1) I2
              (fun r Hin => Hne r (in_or_app _ _ _ (or_intror Hin))))
    as [I3 [C3 [H3 N3]]].
  split; [exact I3|]. split.
  - intros Hhas. rewrite C3.
    rewrite (createAndSendNotification_skip io R T T w1 (H1 _ Hhas)).
    exact C1.
  - intros Hnone.
    destruct (createAndSendNotification_new io R T T w1 I1 (N1 _ Hnone))
      as [C2 H2].
    split; [now rewrite C3, C2, C1|].
    intros b Hb. apply H3. now apply H2.
Qed.

End DueScan.

(** C5, as stated: two due scans in the same minute can produce two
    notifications.  Routine 10 is due on Monday 09:00 and carries an
    adaptive adjustment of -10 minutes; the first scan stores a
    notification scheduled for 08:50, which the second scan, run at the same
    instant, does not find among those scheduled since 08:55. *)
Lemma due_scan_twice_counterexample :
  let R := Sample.routineWith true (-10) in
  let w := Sample.worldWith [] [R] in
  let once :=
    NotificationScheduler.checkScheduledRoutines Sample.ioOk
      Sample.monday0900 w in
  let twice :=
    NotificationScheduler.checkScheduledRoutines Sample.ioOk
      Sample.monday0900 once in
  (NotificationScheduler.isDue
     (NotificationScheduler.currentTimeOf Sample.monday0900)
     (getDay Sample.monday0900) R = true)
  /\ (countFor R once = 1%nat)
  /\ (countFor R twice = 2%nat)
  /\ (map Notification.status (notifications twice)
      = ["delivered"; "delivered"])
  /\ (map Notification.scheduledFor (notifications twice)
      = [Sample.monday0900 - 600000; Sample.monday0900 - 600000]).
Proof.
  vm_compute. repeat split; reflexivity.
Qed.

(** C5, amended: let routine ids be unique and notification ids fresh,
    and let [R] be a stored routine.  If a notification of [R] and of its
    owner with status pending, delivered or snoozed and scheduledFor >=
    T - 5 min is stored (there is no upper bound, so the window
    [T - 5 min, T + 5 min] is included), the due scan at [T] creates no
    notification for [R].  If [R] is due at [T] and no such notification
    is stored, the scan creates exactly one; a second scan at [T'] in the
    same minute creates no further one provided the first one's
    scheduledFor, [T] plus the applied adaptive adjustment, is not earlier
    than [T' - 5 min]. *)
Theorem due_scan_dedup (io : option Io.t) (R : Routine.t) (T T' : Date)
    (w : World) :
  idsIssued w ->
  NoDup (map Routine._id (routines w)) ->
  In R (routines w) ->
  (hasRecent R (T - 5 * 60 * 1000) w ->
   countFor R (NotificationScheduler.checkScheduledRoutines io T w)
   = countFor R w)
  /\ (NotificationScheduler.isDue
        (NotificationScheduler.currentTimeOf T) (getDay T) R = true ->
      noneRecent R (T - 5 * 60 * 1000) w ->
      T / 60000 = T' / 60000 ->
      T' - 5 * 60 * 1000 <= T + appliedAdjustment R * 60 * 1000 ->
      countFor R (NotificationScheduler.checkScheduledRoutines io T w)
      = S (countFor R w)
      /\ countFor R
           (NotificationScheduler.checkScheduledRoutines io T'
              (NotificationScheduler.checkScheduledRoutines io T w))
         = S (countFor R w)).
Proof.
  intros Hids Hnd HR.
  unfold NotificationScheduler.checkScheduledRoutines. cbv zeta.
  set (due := NotificationScheduler.isDue
                (NotificationScheduler.currentTimeOf T) (getDay T)).
  assert (HndL : NoDup (map Routine._id (filter due (routines w))))
    by now apply selected_ids_unique.
  split.
  - intros Hhas. destruct (due R) eqn:HdueR.
    + assert (HinL : In R (filter due (routines w)))
        by (apply filter_In; auto).
      destruct (routine_splits _ R HndL HinL)
        as [L1 [L2 [-> Hne]]].
      exact (proj1 (proj2 (scan_with io R T L1 L2 w Hids Hne)) Hhas).
    + refine (proj1 (proj2 (scan_others io R T _ w Hids _))).
      intros r Hin Heq. apply filter_In in Hin. destruct Hin as [Hin Hd].
      assert (r = R)
        by (apply (routine_by_id (routines w)); assumption).
      subst r. rewrite Hd in HdueR. discriminate.
  - intros HdueR Hnone Hmin Hbound.
    assert (HinL : In R (filter due (routines w)))
      by (apply filter_In; auto).
    destruct (routine_splits _ R HndL HinL)
      as [L1 [L2 [HL Hne]]].
    destruct (same_minute T T' Hmin) as [Ht Hd].
    rewrite scan_routines. rewrite <- Ht, <- Hd. fold due.
    rewrite HL.
    destruct (scan_with io R T L1 L2 w Hids Hne) as [I1 [_ Hfirst]].
    destruct (Hfirst Hnone) as [C1 H1].
    split; [exact C1|].
    destruct (scan_with io R T' L1 L2 _ I1 Hne) as [_ [Hsecond _]].
    rewrite Hsecond; [exact C1|].
    apply H1. exact Hbound.
Qed.

Lemma due_scan_dedup_witness :
  countFor (Sample.routineWith true (-4))
    (NotificationScheduler.checkScheduledRoutines Sample.ioOk
       (Sample.monday0900 + 59999)
       (NotificationScheduler.checkScheduledRoutines Sample.ioOk
          Sample.monday0900
          (Sample.worldWith [] [Sample.routineWith true (-4)])))
  = 1%nat
  /\ countFor (Sample.routineWith true 0)
       (NotificationScheduler.checkScheduledRoutines Sample.ioOk
          Sample.monday0900
          (Sample.worldWith [Sample.notificationWith 100 "delivered" None]
                            [Sample.routineWith true 0]))
     = 1%nat.
Proof.
  split.
  - refine (proj2 (proj2
              (due_scan_dedup Sample.ioOk (Sample.routineWith true (-4))
                 Sample.monday0900 (Sample.monday0900 + 59999)
                 (Sample.worldWith [] [Sample.routineWith true (-4)])
                 _ _ _)
              _ _ _ _)).
    + constructor.
    + repeat constructor. intros [].
    + left. reflexivity.
    + reflexivity.
    + intros n [].
    + reflexivity.
    + vm_compute. discriminate.
  - refine (proj1
              (due_scan_dedup Sample.ioOk (Sample.routineWith true 0)
                 Sample.monday0900 Sample.monday0900
                 (Sample.worldWith
                    [Sample.notificationWith 100 "delivered" None]
                    [Sample.routineWith true 0])
                 _ _ _)
              _).
    + repeat constructor.
    + repeat constructor. intros [].
    + left. reflexivity.
    + exists (Sample.notificationWith 100 "delivered" None).
      split; [left; reflexivity|reflexivity].
Defined.

(** ** start, stop and the cron registry *)

Section SchedulerLifecycle.

Import Lifecycle.




End SchedulerLifecycle.







(** * Further properties of the code *)

(** ** The due query and the clock string *)

Lemma existsb_both {A : Type} (f g : A -> bool) (l : list A) :
  existsb (fun x => f x && g x) l = true ->
  existsb f l = true /\ existsb g l = true.
Proof.
  intros H. apply existsb_exists in H. destruct H as [x [Hin Hx]].
  apply andb_true_iff in Hx. destruct Hx as [Hf Hg].
  split; apply existsb_exists; exists x; auto.
Qed.

(** The due query without its redundant alternative. *)
Lemma isDue_simplified (currentTime : string) (currentDay : Z)
    (r : Routine.t) :
  NotificationScheduler.isDue currentTime currentDay r
  = Routine.isActive r
    && (existsb (NotificationScheduler.hasTime currentTime) (Routine.schedule r)
        && existsb (NotificationScheduler.hasDay currentDay)
                   (Routine.schedule r)).
Proof.
  unfold NotificationScheduler.isDue. f_equal.
  destruct (existsb (fun e => NotificationScheduler.hasTime currentTime e
                              && NotificationScheduler.hasDay currentDay e)
                    (Routine.schedule r)) eqn:E; [|reflexivity].
  apply existsb_both in E. destruct E as [-> ->]. reflexivity.
Qed.

(** X1: a routine is selected by the due scan exactly when it is active,
    some schedule entry carries the current time and some schedule entry,
    possibly another one, carries the current day: the [$elemMatch]
    alternative of the query adds nothing to the dotted-path one. *)
Theorem isDue_cross_entries (currentTime : string) (currentDay : Z)
    (r : Routine.t) :
  NotificationScheduler.isDue currentTime currentDay r
  = Routine.isActive r
    && (existsb (NotificationScheduler.hasTime currentTime) (Routine.schedule r)
        && existsb (NotificationScheduler.hasDay currentDay)
                   (Routine.schedule r)).
Proof.
  apply isDue_simplified.
Qed.

Lemma clockString_table :
  forallb (fun h => forallb (clockStringOk h) (seq 0 60)) (seq 0 24) = true.
Proof. vm_compute. reflexivity. Qed.

(** Every clock string is one of the table. *)
Lemma currentTimeOf_wellformed (now : Date) :
  ScheduleTime.validator (NotificationScheduler.currentTimeOf now) = true
  /\ String.length (NotificationScheduler.currentTimeOf now) = 5%nat.
Proof.
  pose proof (Z.mod_pos_bound (now / 3600000) 24 ltac:(lia)) as Hh.
  pose proof (Z.mod_pos_bound (now / 60000) 60 ltac:(lia)) as Hm.
  assert (Hinh : In (Z.to_nat (getHours now)) (seq 0 24))
    by (apply in_seq; unfold getHours; lia).
  assert (Hinm : In (Z.to_nat (getMinutes now)) (seq 0 60))
    by (apply in_seq; unfold getMinutes; lia).
  pose proof clockString_table as T.
  rewrite forallb_forall in T. specialize (T _ Hinh).
  rewrite forallb_forall in T. specialize (T _ Hinm).
  unfold clockStringOk in T. cbv zeta in T.
  rewrite !Z2Nat.id in T by (unfold getHours, getMinutes; lia).
  apply andb_true_iff in T. destruct T as [H1 H2].
  split; [exact H1|]. now apply Nat.eqb_eq in H2.
Qed.

(** X2: the string the due scan compares schedule times with always has
    the form HH:MM with a two-digit hour, and always passes the validator
    of the schedule schema. *)
Theorem currentTimeOf_valid (now : Date) :
  ScheduleTime.validator (NotificationScheduler.currentTimeOf now) = true
  /\ String.length (NotificationScheduler.currentTimeOf now) = 5%nat.
Proof.
  apply currentTimeOf_wellformed.
Qed.

Lemma eqb_length (s1 s2 : string) :
  String.length s1 <> String.length s2 -> String.eqb s1 s2 = false.
Proof.
  intros H. destruct (String.eqb s1 s2) eqn:E; [|reflexivity].
  apply String.eqb_eq in E. subst. contradiction.
Qed.

(** X3: schedule times written with a one-digit hour (H:MM) pass the
    validator, yet a routine whose entries all carry such times, the same
    or different ones, is never selected by the due scan, at any
    instant. *)
Theorem one_digit_hour_never_due (now : Date) (r : Routine.t) :
  (forall e, In e (Routine.schedule r) ->
             oneDigitHour (ScheduleEntry.time e)) ->
  (forall e, In e (Routine.schedule r) ->
             ScheduleTime.validator (ScheduleEntry.time e) = true)
  /\ NotificationScheduler.isDue (NotificationScheduler.currentTimeOf now)
       (getDay now) r = false.
Proof.
  intros Hall. split.
  - intros e Hin.
    destruct (Hall e Hin) as [h [m1 [m2 [Hh [H1 [H2 ->]]]]]].
    cbn [ScheduleTime.validator]. unfold ScheduleTime.charIn.
    replace (48 <=? nat_of_ascii h)%nat with true
      by (symmetry; apply Nat.leb_le; lia).
    replace (nat_of_ascii h <=? 57)%nat with true
      by (symmetry; apply Nat.leb_le; lia).
    replace (48 <=? nat_of_ascii m1)%nat with true
      by (symmetry; apply Nat.leb_le; lia).
    replace (nat_of_ascii m1 <=? 53)%nat with true
      by (symmetry; apply Nat.leb_le; lia).
    replace (48 <=? nat_of_ascii m2)%nat with true
      by (symmetry; apply Nat.leb_le; lia).
    replace (nat_of_ascii m2 <=? 57)%nat with true
      by (symmetry; apply Nat.leb_le; lia).
    reflexivity.
  - rewrite isDue_simplified.
    replace (existsb _ (Routine.schedule r)) with false;
      [now rewrite andb_false_r|].
    symmetry. apply not_true_is_false. intros Hex.
    apply existsb_exists in Hex. destruct Hex as [e [Hin He]].
    unfold NotificationScheduler.hasTime in He.
    destruct (Hall e Hin) as [h [m1 [m2 [_ [_ [_ Ht]]]]]].
    rewrite Ht in He.
    rewrite eqb_length in He; [discriminate|].
    destruct (currentTimeOf_wellformed now) as [_ Hl]. rewrite Hl.
    cbn. discriminate.
Qed.

Lemma one_digit_hour_never_due_witness :
  ScheduleTime.validator "9:00" = true
  /\ ScheduleTime.validator "8:30" = true
  /\ NotificationScheduler.isDue
       (NotificationScheduler.currentTimeOf Sample.monday0900)
       (getDay Sample.monday0900)
       (Routine.mk 10 1 "Stretch" "Stand up"
          [ScheduleEntry.mk "9:00" [1]; ScheduleEntry.mk "8:30" [1]]
          "bell" (1 # 2) true (AdaptiveTiming.mk true 0 None) 0) = false.
Proof.
  destruct (one_digit_hour_never_due Sample.monday0900
              (Routine.mk 10 1 "Stretch" "Stand up"
                 [ScheduleEntry.mk "9:00" [1]; ScheduleEntry.mk "8:30" [1]]
                 "bell" (1 # 2) true (AdaptiveTiming.mk true 0 None) 0))
    as [Hv Hd].
  - intros e [<- | [<- | []]].
    + exists "9"%char, "0"%char, "0"%char. cbn. repeat split; lia.
    + exists "8"%char, "3"%char, "0"%char. cbn. repeat split; lia.
  - split; [exact (Hv (ScheduleEntry.mk "9:00" [1]) (or_introl eq_refl))|].
    split; [|exact Hd].
    exact (Hv (ScheduleEntry.mk "8:30" [1]) (or_intror (or_introl eq_refl))).
Defined.

(** ** More on the adaptive-timing updater *)

Section OffsetInvariants.

(** Any set of offsets closed under the rule table is kept by every
    sequence of updates. *)
Variable P : Z -> Prop.
Hypothesis P_adjust :
  forall action rt a, P a -> P (NotificationScheduler.adjust action rt a).

Lemma applyTimingEvents_keeps (evs : list TimingEvent) :
  forall (w : World) (rid : ObjectId) (r : Routine.t),
    Routine.findById rid (routines w) = Some r ->
    P (AdaptiveTiming.adjustment (Routine.adaptiveTiming r)) ->
    exists r',
      Routine.findById rid (routines (applyTimingEvents evs w)) = Some r'
      /\ P (AdaptiveTiming.adjustment (Routine.adaptiveTiming r')).
Proof.
  unfold applyTimingEvents.
  induction evs as [|ev evs IH]; intros w rid r Hf HP; cbn [fold_left].
  - now exists r.
  - destruct (Z.eq_dec (ev_routine ev) rid) as [E|E].
    + destruct (AdaptiveTiming.enabled (Routine.adaptiveTiming r)) eqn:He.
      * destruct (updateAdaptiveTiming_stored rid (ev_response ev)
                    (ev_now ev) w r Hf He) as [r1 [Hf1 Ht1]].
        apply (IH _ rid r1); [rewrite E; exact Hf1|].
        rewrite Ht1. cbn. apply P_adjust. exact HP.
      * eapply IH; [|exact HP].
        unfold NotificationScheduler.updateAdaptiveTiming.
        rewrite E, Hf, He. exact Hf.
    + eapply IH; [|exact HP].
      rewrite updateAdaptiveTiming_other by exact E. exact Hf.
Qed.

End OffsetInvariants.

(** X4: the offsets the code can reach.  A routine whose stored offset is
    within [-10, +15], in particular one at the schema default 0, keeps
    its offset within [-10, +15] along every sequence of adaptive-timing
    updates: no rule lowers an offset below -10. *)
Theorem adaptive_offset_reachable_range (evs : list TimingEvent) (w : World)
    (rid : ObjectId) (r : Routine.t) :
  Routine.findById rid (routines w) = Some r ->
  -10 <= AdaptiveTiming.adjustment (Routine.adaptiveTiming r) <= 15 ->
  exists r',
    Routine.findById rid (routines (applyTimingEvents evs w)) = Some r'
    /\ -10 <= AdaptiveTiming.adjustment (Routine.adaptiveTiming r') <= 15.
Proof.
  intros Hf Hb.
  apply (applyTimingEvents_keeps (fun a => -10 <= a <= 15)) with (r := r);
    [|exact Hf|exact Hb].
  intros action rt a Ha. unfold NotificationScheduler.adjust.
  destruct (String.eqb action "completed").
  - destruct (js_lt rt 30); [lia|]. destruct (js_gt rt 120); lia.
  - destruct (String.eqb action "dismissed"); [lia|].
    destruct (String.eqb action "snoozed"); lia.
Qed.

Lemma adaptive_offset_reachable_range_witness :
  exists r',
    Routine.findById 10
      (routines
         (applyTimingEvents
            [ mkTimingEvent 10 (UserResponse.mk "completed" (Some 3) 1) 1;
              mkTimingEvent 10 (UserResponse.mk "snoozed" (Some 40) 2) 2 ]
            (Sample.worldWith [] [Sample.routineWith true (-10)]))) = Some r'
    /\ -10 <= AdaptiveTiming.adjustment (Routine.adaptiveTiming r') <= 15.
Proof.
  apply (adaptive_offset_reachable_range _ _ 10 (Sample.routineWith true (-10))).
  - reflexivity.
  - cbn. lia.
Defined.

(** X5: dismissals accumulate and saturate.  For a stored routine with
    adaptive timing enabled and an offset of at most 15, a run of k
    dismissals (whatever their response times) stores the offset
    min(15, offset + 5k). *)
Theorem dismissals_saturate (evs : list TimingEvent) :
  forall (w : World) (rid : ObjectId) (r : Routine.t),
    Forall (isDismissalFor rid) evs ->
    Routine.findById rid (routines w) = Some r ->
    AdaptiveTiming.enabled (Routine.adaptiveTiming r) = true ->
    AdaptiveTiming.adjustment (Routine.adaptiveTiming r) <= 15 ->
    exists r',
      Routine.findById rid (routines (applyTimingEvents evs w)) = Some r'
      /\ AdaptiveTiming.enabled (Routine.adaptiveTiming r') = true
      /\ AdaptiveTiming.adjustment (Routine.adaptiveTiming r')
         = Z.min 15 (AdaptiveTiming.adjustment (Routine.adaptiveTiming r)
                     + 5 * Z.of_nat (List.length evs)).
Proof.
  unfold applyTimingEvents.
  induction evs as [|ev evs IH]; intros w rid r Hall Hf He Ha;
    cbn [fold_left List.length].
  - exists r. repeat split; auto. lia.
  - inversion Hall as [|? ? [Hrid Hact] Hrest]; subst.
    destruct (updateAdaptiveTiming_stored (ev_routine ev) (ev_response ev)
                (ev_now ev) w r Hf He) as [r1 [Hs Ht1]].
    rewrite Hact in Ht1.
    change (NotificationScheduler.adjust "dismissed" _ ?a)
      with (Z.min 15 (a + 5)) in Ht1.
    destruct (IH _ (ev_routine ev) _ Hrest Hs) as [r' [Hf' [He' Ha']]].
    + rewrite Ht1. reflexivity.
    + rewrite Ht1. cbn [AdaptiveTiming.adjustment]. lia.
    + exists r'. split; [exact Hf'|]. split; [exact He'|].
      rewrite Ha', Nat2Z.inj_succ, Ht1.
      cbn [AdaptiveTiming.adjustment]. lia.
Qed.

Lemma dismissals_saturate_witness :
  exists r',
    Routine.findById 10
      (routines
         (applyTimingEvents
            [ mkTimingEvent 10 (UserResponse.mk "dismissed" (Some 200) 1) 1;
              mkTimingEvent 10 (UserResponse.mk "dismissed" None 2) 2;
              mkTimingEvent 10 (UserResponse.mk "dismissed" (Some 9) 3) 3;
              mkTimingEvent 10 (UserResponse.mk "dismissed" (Some 9) 4) 4 ]
            (Sample.worldWith [] [Sample.routineWith true 0]))) = Some r'
    /\ AdaptiveTiming.adjustment (Routine.adaptiveTiming r') = 15.
Proof.
  destruct (dismissals_saturate
              [ mkTimingEvent 10 (UserResponse.mk "dismissed" (Some 200) 1) 1;
                mkTimingEvent 10 (UserResponse.mk "dismissed" None 2) 2;
                mkTimingEvent 10 (UserResponse.mk "dismissed" (Some 9) 3) 3;
                mkTimingEvent 10 (UserResponse.mk "dismissed" (Some 9) 4) 4 ]
              (Sample.worldWith [] [Sample.routineWith true 0]) 10
              (Sample.routineWith true 0))
    as [r' [Hf [_ Ha]]].
  - repeat constructor.
  - reflexivity.
  - reflexivity.
  - cbn. lia.
  - exists r'. split; [exact Hf|]. rewrite Ha. reflexivity.
Defined.

(** ** More on the response route *)

Section ResponseEffects.

Variables (io : option Io.t) (id userId : ObjectId) (action : string)
          (responseTime snoozeMinutes : option Z) (now : Date) (w : World).

Lemma updateAdaptiveTiming_frame (rid : ObjectId) (ur : UserResponse.t)
    (t : Date) (w1 w2 : World) :
  routines w1 = routines w2 ->
  routines (NotificationScheduler.updateAdaptiveTiming rid ur t w1)
  = routines (NotificationScheduler.updateAdaptiveTiming rid ur t w2)
  /\ metrics (NotificationScheduler.updateAdaptiveTiming rid ur t w1)
     = metrics w1.
Proof.
  intros H. unfold NotificationScheduler.updateAdaptiveTiming. rewrite H.
  destruct (Routine.findById rid (routines w2)) as [r|]; [|auto].
  destruct (negb _); [auto|]. cbn. auto.
Qed.

(** Metrics and routines after an eligible, valid call on a document
    whose stored status passes the validator. *)
Lemma response_effects (n : Notification.t) :
  find (fun n => Routes.ownedBy id userId n && Routes.notLocked n)
       (notifications w) = Some n ->
  includes Routes.validActions action = true ->
  Notification.status_valid n = true ->
  metrics
    (snd (Routes.response io id userId action responseTime snoozeMinutes now w))
  = (metrics w
     ++ [mkMetricEvent userId action (Some (num_or_0 responseTime))])%list
  /\ routines
       (snd (Routes.response io id userId action responseTime snoozeMinutes
               now w))
     = routines
         (match Routine.findById (Notification.routine n) (routines w) with
          | Some routine =>
              if AdaptiveTiming.enabled (Routine.adaptiveTiming routine)
              then NotificationScheduler.updateAdaptiveTiming
                     (Routine._id routine)
                     (UserResponse.mk action (Some (num_or_0 responseTime)) now)
                     now w
              else w
          | None => w
          end).
Proof.
  intros Hf Hv Hst.
  remember (Routes.response io id userId action responseTime snoozeMinutes
              now w) as r eqn:Hr.
  unfold Routes.response in Hr. rewrite Hf, Hv in Hr.
  simpl negb in Hr. cbv iota in Hr.
  change (Notification.doc
            (Notification.assign_processing true (Notification.hydrate n)))
    with n in Hr.
  unfold Notification.save in Hr. rewrite validate_loaded, Hst in Hr.
  rewrite (validate_applyAction action responseTime
             (match snoozeMinutes with Some m => m | None => 5 end) now n
             (Notification.assign_processing true (Notification.hydrate n)) Hv)
    in Hr.
  rewrite applyAction_userResponse in Hr.
  set (w3 := record_metric _ _) in Hr.
  set (w4 := match Routine.findById _ _ with Some _ => _ | None => _ end)
    in Hr.
  assert (H4 : metrics w4
               = (metrics w
                  ++ [mkMetricEvent userId action
                        (Some (num_or_0 responseTime))])%list
               /\ routines w4
                  = routines
                      (match
                          Routine.findById (Notification.routine n) (routines w)
                        with
                        | Some routine =>
                            if AdaptiveTiming.enabled
                                 (Routine.adaptiveTiming routine)
                            then NotificationScheduler.updateAdaptiveTiming
                                   (Routine._id routine)
                                   (UserResponse.mk action
                                      (Some (num_or_0 responseTime)) now)
                                   now w
                            else w
                        | None => w
                        end)).
  { subst w4.
    destruct (Routine.findById _ _) as [r0|]; [|split; reflexivity].
    destruct (AdaptiveTiming.enabled _); [|split; reflexivity].
    destruct (updateAdaptiveTiming_frame (Routine._id r0)
                (UserResponse.mk action (Some (num_or_0 responseTime)) now)
                now w3 w eq_refl) as [E1 E2].
    split; [exact E2|exact E1]. }
  destruct io as [i|]; [|subst r; exact H4].
  destruct (Io.to_emit_throws i); subst r; exact H4.
Qed.

End ResponseEffects.

(** X6: the response route answers 200, 400, 404, 409 or 500, and with
    400, 404 or 409 it has written nothing: the store, the metrics and the
    emissions are as before the call. *)
Theorem response_rejections_write_nothing (io : option Io.t)
    (id userId : ObjectId) (action : string)
    (responseTime snoozeMinutes : option Z) (now : Date) (w : World) :
  let r :=
    Routes.response io id userId action responseTime snoozeMinutes now w in
  (fst r = 200 \/ fst r = 400 \/ fst r = 404 \/ fst r = 409 \/ fst r = 500)
  /\ (fst r = 400 \/ fst r = 404 \/ fst r = 409 -> snd r = w).
Proof.
  cbv zeta.
  destruct (find (fun n => Routes.ownedBy id userId n && Routes.notLocked n)
                 (notifications w)) as [n|] eqn:Hf.
  - destruct (includes Routes.validActions action) eqn:Hv.
    + destruct (Notification.status_valid n) eqn:Hst.
      * destruct (proj1 (response_store io id userId action responseTime
                           snoozeMinutes now w n Hf Hv Hst)) as [Hc|[Hc _]];
          rewrite Hc.
        -- split; [auto|]. intros [H|[H|H]]; discriminate.
        -- split; [auto 6|]. intros [H|[H|H]]; discriminate.
      * rewrite (response_status_rejected io id userId action responseTime
                   snoozeMinutes now w n Hf Hv Hst).
        cbn. split; [auto 6|]. intros [H|[H|H]]; discriminate.
    + unfold Routes.response. rewrite Hf, Hv. cbn. auto.
  - unfold Routes.response. rewrite Hf.
    destruct (find (Routes.ownedBy id userId) (notifications w)) as [e|];
      cbn; auto 6.
Qed.

(** X7: the lock locks nothing.  No call of the response route is answered
    409.  After a call on a notification the route's query finds, with a
    valid action and a stored status the schema admits, whether it is
    answered 200 or fails at the final push, the stored notification
    carries the [processing] field it carried before (the route never
    writes it) and the query of the route finds it again at once. *)
Theorem response_lock_is_inert (io : option Io.t) (id userId : ObjectId)
    (action : string) (responseTime snoozeMinutes : option Z) (now : Date)
    (w : World) (n : Notification.t) :
  find (fun n => Routes.ownedBy id userId n && Routes.notLocked n)
       (notifications w) = Some n ->
  includes Routes.validActions action = true ->
  In (Notification.status n)
     ["pending"; "delivered"; "snoozed"; "completed"; "dismissed"] ->
  let r :=
    Routes.response io id userId action responseTime snoozeMinutes now w in
  fst r <> 409
  /\ exists n',
       Notification.findById id (notifications (snd r)) = Some n'
       /\ Notification.processing n' = Notification.processing n
       /\ find (fun n => Routes.ownedBy id userId n && Routes.notLocked n)
               (notifications (snd r)) = Some n'.
Proof.
  intros Hf Hv Hin. cbv zeta. apply statusEnum_admits in Hin.
  split; [apply response_never_conflict|].
  pose proof (response_store io id userId action responseTime snoozeMinutes
                now w n Hf Hv Hin) as [_ Hs].
  pose proof (response_read_back io id userId action responseTime
                snoozeMinutes now w n Hf Hv Hin) as Hrb.
  set (d := answeredDoc action responseTime snoozeMinutes now n) in *.
  assert (Hp : Notification.processing d = Notification.processing n)
    by (subst d; unfold answeredDoc; now rewrite applyAction_processing).
  assert (Hid : Notification._id d = Notification._id n)
    by (subst d; unfold answeredDoc; now rewrite applyAction_id).
  assert (Hu : Notification.user d = Notification.user n).
  { subst d. unfold answeredDoc, Routes.applyAction.
    destruct (String.eqb action "completed"); [reflexivity|].
    destruct (String.eqb action "dismissed"); [reflexivity|].
    destruct (String.eqb action "snoozed"); reflexivity. }
  exists d. split; [exact Hrb|]. split; [exact Hp|].
  rewrite Hs. clear Hs Hrb.
  pose proof Hf as Hf0. apply find_some in Hf0. destruct Hf0 as [_ Hpn].
  assert (Hpd : Routes.ownedBy id userId d && Routes.notLocked d = true).
  { unfold Routes.ownedBy, Routes.notLocked in *.
    now rewrite Hid, Hu, Hp. }
  apply andb_true_iff in Hpn. destruct Hpn as [Hon _].
  unfold Routes.ownedBy in Hon. apply andb_true_iff in Hon.
  destruct Hon as [Hidn _]. apply Z.eqb_eq in Hidn.
  revert Hf. unfold Notification.replace.
  induction (notifications w) as [|a coll IH]; cbn [find map];
    [discriminate|].
  destruct (Notification._id a =? Notification._id d) eqn:E.
  - intros _. now rewrite Hpd.
  - destruct (Routes.ownedBy id userId a && Routes.notLocked a) eqn:Ea.
    + intros Ha. injection Ha as ->. rewrite Hid, Z.eqb_refl in E.
      discriminate.
    + exact IH.
Qed.

Lemma response_lock_is_inert_witness :
  fst (Routes.response (Some (Io.mk true false)) 100 1 "completed" (Some 5)
         None 5000
         (Sample.worldWith [Sample.notificationWith 100 "delivered" None]
                           [Sample.routineWith true 0])) <> 409
  /\ exists n',
       Notification.findById 100
         (notifications
            (snd (Routes.response (Some (Io.mk true false)) 100 1 "completed"
                    (Some 5) None 5000
                    (Sample.worldWith
                       [Sample.notificationWith 100 "delivered" None]
                       [Sample.routineWith true 0])))) = Some n'
       /\ Notification.processing n' = None
       /\ find (fun n => Routes.ownedBy 100 1 n && Routes.notLocked n)
               (notifications
                  (snd (Routes.response (Some (Io.mk true false)) 100 1
                          "completed" (Some 5) None 5000
                          (Sample.worldWith
                             [Sample.notificationWith 100 "delivered" None]
                             [Sample.routineWith true 0])))) = Some n'.
Proof.
  apply (response_lock_is_inert (Some (Io.mk true false)) 100 1 "completed"
           (Some 5) None 5000
           (Sample.worldWith [Sample.notificationWith 100 "delivered" None]
                             [Sample.routineWith true 0])
           (Sample.notificationWith 100 "delivered" None)).
  - reflexivity.
  - reflexivity.
  - simpl. right; left; reflexivity.
Defined.

(** X8: a stored flag hides the notification.  While every notification
    with this id of the caller carries a stored [processing = true] (a
    value only a writer outside the models can have set), each call of the
    response route, with any action, is answered 404, not 409, and writes
    nothing, so no call of the route ever clears the flag. *)
Theorem response_stuck_lock_is_permanent (io : option Io.t)
    (id userId : ObjectId) (action : string)
    (responseTime snoozeMinutes : option Z) (now : Date) (w : World)
    (e : Notification.t) :
  In e (notifications w) ->
  Routes.ownedBy id userId e = true ->
  (forall n, In n (notifications w) -> Routes.ownedBy id userId n = true ->
             Notification.processing n = Some true) ->
  Routes.response io id userId action responseTime snoozeMinutes now w
  = (404, w).
Proof.
  intros Hin He Hall. unfold Routes.response.
  destruct (find (fun n => Routes.ownedBy id userId n && Routes.notLocked n)
                 (notifications w)) as [n|] eqn:Hf.
  - apply find_some in Hf. destruct Hf as [Hn Hp].
    apply andb_true_iff in Hp. destruct Hp as [Ho Hl].
    unfold Routes.notLocked in Hl. rewrite (Hall n Hn Ho) in Hl.
    discriminate.
  - destruct (find (Routes.ownedBy id userId) (notifications w)) as [x|];
      reflexivity.
Qed.

Lemma response_stuck_lock_is_permanent_witness :
  Routes.response None 100 1 "completed" (Some 5) None 5000
    (Sample.worldWith
       [Sample.withProcessing true
          (Sample.notificationWith 100 "delivered" None)]
       [Sample.routineWith true 0])
  = (404,
     Sample.worldWith
       [Sample.withProcessing true
          (Sample.notificationWith 100 "delivered" None)]
       [Sample.routineWith true 0]).
Proof.
  apply (response_stuck_lock_is_permanent None 100 1 "completed" (Some 5)
           None 5000 _
           (Sample.withProcessing true
              (Sample.notificationWith 100 "delivered" None))).
  - left. reflexivity.
  - reflexivity.
  - intros n [<-|[]] _. reflexivity.
Defined.

(** X9: what an accepted response feeds.  For a notification the route's
    query finds, with a stored status the schema admits and a routine
    stored with adaptive timing enabled, a call with a valid action
    appends exactly one metrics event (user, action, t) and stores the
    routine's offset as the rule table gives it for (action, t), with
    lastAdjustment = now, where t is the responseTime sent, and 0 when none
    was sent: an absent responseTime counts as a response after 0
    seconds. *)
Theorem response_feeds_metrics_and_timing (io : option Io.t)
    (id userId : ObjectId) (action : string)
    (responseTime snoozeMinutes : option Z) (now : Date) (w : World)
    (n : Notification.t) (r : Routine.t) :
  find (fun n => Routes.ownedBy id userId n && Routes.notLocked n)
       (notifications w) = Some n ->
  includes Routes.validActions action = true ->
  In (Notification.status n)
     ["pending"; "delivered"; "snoozed"; "completed"; "dismissed"] ->
  Routine.findById (Notification.routine n) (routines w) = Some r ->
  AdaptiveTiming.enabled (Routine.adaptiveTiming r) = true ->
  let w' :=
    snd (Routes.response io id userId action responseTime snoozeMinutes now w)
  in
  let t := match responseTime with Some t => t | None => 0 end in
  metrics w' = (metrics w ++ [mkMetricEvent userId action (Some t)])%list
  /\ exists r',
       Routine.findById (Notification.routine n) (routines w') = Some r'
       /\ AdaptiveTiming.adjustment (Routine.adaptiveTiming r')
          = NotificationScheduler.adjust action (Some t)
              (AdaptiveTiming.adjustment (Routine.adaptiveTiming r))
       /\ AdaptiveTiming.lastAdjustment (Routine.adaptiveTiming r')
          = Some now.
Proof.
  intros Hf Hv Hin Hr He. cbv zeta. apply statusEnum_admits in Hin.
  destruct (response_effects io id userId action responseTime snoozeMinutes
              now w n Hf Hv Hin) as [Hm Hrs].
  replace (match responseTime with Some t => t | None => 0 end)
    with (num_or_0 responseTime) by (destruct responseTime; reflexivity).
  split; [exact Hm|].
  rewrite Hrs, Hr, He.
  rewrite (routine_findById_id _ _ _ Hr).
  destruct (updateAdaptiveTiming_stored (Notification.routine n)
              (UserResponse.mk action (Some (num_or_0 responseTime)) now)
              now w r Hr He) as [r' [Hf' Ht']].
  exists r'. split; [exact Hf'|]. rewrite Ht'. split; reflexivity.
Qed.

Lemma response_feeds_metrics_and_timing_witness :
  metrics
    (snd (Routes.response None 100 1 "completed" (Some 150) None 5000
            (Sample.worldWith [Sample.notificationWith 100 "delivered" None]
                              [Sample.routineWith true 0])))
  = [mkMetricEvent 1 "completed" (Some 150)]
  /\ exists r',
       Routine.findById 10
         (routines
            (snd (Routes.response None 100 1 "completed" (Some 150) None 5000
                    (Sample.worldWith
                       [Sample.notificationWith 100 "delivered" None]
                       [Sample.routineWith true 0])))) = Some r'
       /\ AdaptiveTiming.adjustment (Routine.adaptiveTiming r') = 2.
Proof.
  destruct (response_feeds_metrics_and_timing None 100 1 "completed"
              (Some 150) None 5000
              (Sample.worldWith [Sample.notificationWith 100 "delivered" None]
                                [Sample.routineWith true 0])
              (Sample.notificationWith 100 "delivered" None)
              (Sample.routineWith true 0) eq_refl eq_refl)
    as [Hm [r' [Hf [Ha _]]]].
  - simpl. right; left; reflexivity.
  - reflexivity.
  - reflexivity.
  - split; [exact Hm|]. exists r'. split; [exact Hf|exact Ha].
Defined.

(** ** Routine routes *)

Lemma isRoutineOf_fields (id userId : ObjectId) (r : Routine.t) :
  RoutineRoutes.isRoutineOf id userId r = true ->
  Routine._id r = id /\ Routine.user r = userId.
Proof.
  unfold RoutineRoutes.isRoutineOf. intros H.
  apply andb_true_iff in H. destruct H as [H1 H2]. split; lia.
Qed.

Lemma routine_find_replace (id userId : ObjectId) (r r' : Routine.t)
    (coll : list Routine.t) :
  find (RoutineRoutes.isRoutineOf id userId) coll = Some r ->
  RoutineRoutes.isRoutineOf id userId r' = true ->
  find (RoutineRoutes.isRoutineOf id userId) (Routine.replace r' coll)
  = Some r'.
Proof.
  intros Hf Hp. destruct (isRoutineOf_fields _ _ _ Hp) as [Hid _].
  revert Hf. unfold Routine.replace.
  induction coll as [|a coll IH]; cbn [find map]; [discriminate|].
  destruct (Routine._id a =? Routine._id r') eqn:E.
  - intros _. now rewrite Hp.
  - destruct (RoutineRoutes.isRoutineOf id userId a) eqn:Ea; [|exact IH].
    destruct (isRoutineOf_fields _ _ _ Ea) as [Ha _].
    apply Z.eqb_neq in E. lia.
Qed.

Lemma scheduleRoutineNotifications_routines (r : Routine.t) (w : World) :
  routines (NotificationScheduler.scheduleRoutineNotifications r w)
  = routines w.
Proof.
  unfold NotificationScheduler.scheduleRoutineNotifications.
  destruct (negb (Routine.isActive r)); reflexivity.
Qed.

(** X10: toggling twice.  Two calls of the toggle route by the owner are
    both answered 200 and leave the routine with the [isActive] it had; but
    the leg that activates deletes the routine's pending and snoozed
    notifications, so after the round trip exactly those are gone and all
    other notifications are kept in order. *)
Theorem toggle_twice (id userId : ObjectId) (t1 t2 : Date) (w : World)
    (r : Routine.t) :
  find (RoutineRoutes.isRoutineOf id userId) (routines w) = Some r ->
  let once := Routes.toggle id userId t1 w in
  let twice := Routes.toggle id userId t2 (snd once) in
  fst once = 200
  /\ fst twice = 200
  /\ (exists r2,
        find (RoutineRoutes.isRoutineOf id userId) (routines (snd twice))
        = Some r2
        /\ Routine.isActive r2 = Routine.isActive r)
  /\ notifications (snd twice)
     = filter (fun n => negb (NotificationScheduler.isOpenFor id n))
              (notifications w).
Proof.
  intros Hf. cbv zeta.
  pose proof Hf as Hp. apply find_some in Hp. destruct Hp as [_ Hp].
  destruct (isRoutineOf_fields _ _ _ Hp) as [Hid Hu].
  set (r1 := Routine.set_updatedAt t1
               (Routine.set_isActive (negb (Routine.isActive r)) r)).
  assert (Hp1 : RoutineRoutes.isRoutineOf id userId r1 = true)
    by (destruct r; exact Hp).
  assert (H1 : Routes.toggle id userId t1 w
               = (200,
                  NotificationScheduler.scheduleRoutineNotifications r1
                    (set_routines (Routine.save r1 (routines w)) w))).
  { unfold Routes.toggle.
    change (fun r0 => (Routine._id r0 =? id) && (Routine.user r0 =? userId))
      with (RoutineRoutes.isRoutineOf id userId).
    now rewrite Hf. }
  rewrite H1. cbn [fst snd].
  set (w1 := NotificationScheduler.scheduleRoutineNotifications r1 _).
  assert (Hf1 : find (RoutineRoutes.isRoutineOf id userId) (routines w1)
                = Some r1).
  { subst w1. rewrite scheduleRoutineNotifications_routines. cbn.
    unfold Routine.save. eapply routine_find_replace; eassumption. }
  set (r2 := Routine.set_updatedAt t2
               (Routine.set_isActive (negb (Routine.isActive r1)) r1)).
  assert (Hp2 : RoutineRoutes.isRoutineOf id userId r2 = true)
    by (destruct r; exact Hp).
  assert (H2 : Routes.toggle id userId t2 w1
               = (200,
                  NotificationScheduler.scheduleRoutineNotifications r2
                    (set_routines (Routine.save r2 (routines w1)) w1))).
  { unfold Routes.toggle.
    change (fun r0 => (Routine._id r0 =? id) && (Routine.user r0 =? userId))
      with (RoutineRoutes.isRoutineOf id userId).
    now rewrite Hf1. }
  rewrite H2. cbn [fst snd].
  split; [reflexivity|]. split; [reflexivity|]. split.
  - exists r2. split.
    + rewrite scheduleRoutineNotifications_routines. cbn.
      unfold Routine.save. eapply routine_find_replace; eassumption.
    + subst r2 r1. destruct r; cbn. apply negb_involutive.
  - subst w1 r2 r1.
    unfold NotificationScheduler.scheduleRoutineNotifications.
    destruct r as [i u t d s so v [|] tim up]; cbn in Hid |- *; subst i;
      reflexivity.
Qed.

Lemma toggle_twice_witness :
  map Notification._id
    (notifications
       (snd (Routes.toggle 10 1 2
               (snd (Routes.toggle 10 1 1
                       (Sample.worldWith
                          [Sample.notificationWith 100 "pending" None;
                           Sample.notificationWith 101 "delivered" None;
                           Sample.notificationWith 102 "snoozed" (Some 5)]
                          [Sample.routineWith true 0]))))))
  = [101].
Proof.
  rewrite (proj2 (proj2 (proj2
             (toggle_twice 10 1 1 2
                (Sample.worldWith
                   [Sample.notificationWith 100 "pending" None;
                    Sample.notificationWith 101 "delivered" None;
                    Sample.notificationWith 102 "snoozed" (Some 5)]
                   [Sample.routineWith true 0])
                (Sample.routineWith true 0) eq_refl)))).
  reflexivity.
Defined.

Lemma removeFirst_keeps {A : Type} (p : A -> bool) (l : list A) (x : A) :
  In x l -> p x = false -> In x (removeFirst p l).
Proof.
  induction l as [|a l IH]; cbn [removeFirst]; [auto|].
  intros [->|Hin] Hx.
  - rewrite Hx. now left.
  - destruct (p a); [exact Hin|]. right. auto.
Qed.

Lemma routine_removed (id userId : ObjectId) (coll : list Routine.t)
    (r : Routine.t) :
  NoDup (map Routine._id coll) ->
  find (RoutineRoutes.isRoutineOf id userId) coll = Some r ->
  Routine.findById id
    (removeFirst (RoutineRoutes.isRoutineOf id userId) coll) = None.
Proof.
  unfold Routine.findById.
  induction coll as [|a coll IH]; cbn [find removeFirst map];
    [discriminate|].
  intros Hnd Hf. apply NoDup_cons_iff in Hnd. destruct Hnd as [Hnin Hnd].
  destruct (RoutineRoutes.isRoutineOf id userId a) eqn:Ea.
  - destruct (isRoutineOf_fields _ _ _ Ea) as [Ha _].
    destruct (find (fun d => Routine._id d =? id) coll) as [x|] eqn:Hx;
      [|reflexivity].
    apply find_some in Hx. destruct Hx as [Hxin Hxid].
    exfalso. apply Hnin. apply in_map_iff. exists x. split; [lia|exact Hxin].
  - cbn [find]. destruct (Routine._id a =? id) eqn:E; [|auto].
    apply find_some in Hf. destruct Hf as [Hrin Hr].
    destruct (isRoutineOf_fields _ _ _ Hr) as [Hrid _].
    exfalso. apply Hnin. apply in_map_iff. exists r. split; [lia|exact Hrin].
Qed.

(** X11: deleting a routine.  With unique routine ids, DELETE /:id by the
    owner is answered 200; afterwards the routine is found under its id by
    nobody, no notification of any user or status refers to it, and every
    other routine and every notification of another routine is kept.  The
    same request by any other user is answered 404 and changes nothing. *)
Theorem deleteRoutine_removes (id userId : ObjectId) (w : World)
    (r : Routine.t) :
  NoDup (map Routine._id (routines w)) ->
  find (RoutineRoutes.isRoutineOf id userId) (routines w) = Some r ->
  let res := RoutineRoutes.deleteRoutine id userId w in
  fst res = 200
  /\ Routine.findById id (routines (snd res)) = None
  /\ (forall n, In n (notifications (snd res)) ->
                Notification.routine n <> id)
  /\ (forall r', In r' (routines w) -> Routine._id r' <> id ->
                 In r' (routines (snd res)))
  /\ (forall n, In n (notifications w) -> Notification.routine n <> id ->
                In n (notifications (snd res)))
  /\ (forall other, other <> userId ->
                    RoutineRoutes.deleteRoutine id other w = (404, w)).
Proof.
  intros Hnd Hf. cbv zeta.
  pose proof Hf as Hp. apply find_some in Hp. destruct Hp as [Hrin Hp].
  destruct (isRoutineOf_fields _ _ _ Hp) as [Hid Hu].
  unfold RoutineRoutes.deleteRoutine at 1 2 3 4 5. rewrite Hf. cbn [fst snd].
  split; [reflexivity|]. split; [|split; [|split; [|split]]].
  - cbn. now apply routine_removed with (r := r).
  - cbn. intros n Hin. apply filter_In in Hin. destruct Hin as [_ Hn].
    apply negb_true_iff, Z.eqb_neq in Hn. exact Hn.
  - cbn. intros r' Hin Hne. apply removeFirst_keeps; [exact Hin|].
    unfold RoutineRoutes.isRoutineOf.
    replace (Routine._id r' =? id) with false
      by (symmetry; apply Z.eqb_neq; exact Hne).
    reflexivity.
  - cbn. intros n Hin Hne. apply filter_In. split; [exact Hin|].
    apply negb_true_iff, Z.eqb_neq. exact Hne.
  - intros other Hother. unfold RoutineRoutes.deleteRoutine.
    destruct (find (RoutineRoutes.isRoutineOf id other) (routines w))
      as [x|] eqn:Hx; [|reflexivity].
    apply find_some in Hx. destruct Hx as [Hxin Hxp].
    destruct (isRoutineOf_fields _ _ _ Hxp) as [Hxid Hxu].
    assert (x = r)
      by (apply (routine_by_id (routines w)); try assumption; lia).
    subst x. congruence.
Qed.

Lemma deleteRoutine_removes_witness :
  RoutineRoutes.deleteRoutine 10 2
    (Sample.worldWith [Sample.notificationWith 100 "delivered" None]
                      [Sample.routineWith true 0])
  = (404,
     Sample.worldWith [Sample.notificationWith 100 "delivered" None]
                      [Sample.routineWith true 0]).
Proof.
  refine (proj2 (proj2 (proj2 (proj2 (proj2
            (deleteRoutine_removes 10 1
               (Sample.worldWith [Sample.notificationWith 100 "delivered" None]
                                 [Sample.routineWith true 0])
               (Sample.routineWith true 0) _ eq_refl))))) 2 _).
  - repeat constructor. intros [].
  - discriminate.
Defined.

(** ** The legacy snooze route *)

(** X12: POST /:id/snooze by the owner is answered 200 whatever the
    status and the [processing] flag of the notification; it stores status
    snoozed, snoozedUntil = now + minutes (5 when absent) and a response
    without responseTime, keeps the flag as it was, and feeds neither the
    metrics nor the adaptive timing nor the transport. *)
Theorem snooze_legacy (id userId : ObjectId) (minutes : option Z)
    (now : Date) (w : World) (n : Notification.t) :
  find (Routes.ownedBy id userId) (notifications w) = Some n ->
  let res := NotificationRoutes.snooze id userId minutes now w in
  fst res = 200
  /\ (exists n',
        Notification.findById id (notifications (snd res)) = Some n'
        /\ Notification.status n' = "snoozed"
        /\ Notification.snoozedUntil n'
           = Some (now + snoozeOrDefault minutes * 60 * 1000)
        /\ Notification.userResponse n'
           = Some (UserResponse.mk "snoozed" None now)
        /\ Notification.processing n' = Notification.processing n)
  /\ metrics (snd res) = metrics w
  /\ routines (snd res) = routines w
  /\ emitted (snd res) = emitted w.
Proof.
  intros Hf. cbv zeta.
  pose proof Hf as Hp. apply find_some in Hp. destruct Hp as [Hin Hp].
  unfold Routes.ownedBy in Hp. apply andb_true_iff in Hp.
  destruct Hp as [Hid _]. apply Z.eqb_eq in Hid.
  unfold NotificationRoutes.snooze. rewrite Hf.
  fold (snoozeOrDefault minutes).
  set (n3 := Notification.set_userResponse _ _).
  assert (Hv : Notification.validate n n3 = true).
  { unfold Notification.validate, Notification.status_valid,
      Notification.action_valid.
    replace (Notification.status n3) with "snoozed"
      by (destruct n; reflexivity).
    replace (Notification.userResponse n3)
      with (Some (UserResponse.mk "snoozed" None now))
      by (destruct n; reflexivity).
    cbn [UserResponse.action].
    replace (includes Notification.statusEnum "snoozed") with true
      by reflexivity.
    replace (includes Notification.actionEnum "snoozed") with true
      by reflexivity.
    now rewrite !orb_true_r. }
  unfold Notification.save. rewrite Hv. cbn [fst snd].
  split; [reflexivity|]. split; [|repeat split].
  exists n3. split.
  - cbn [notifications set_notifications].
    assert (Hid3 : Notification._id n3 = id) by (destruct n; exact Hid).
    rewrite <- Hid3.
    apply notification_findById_replace with (n := n); [exact Hin|].
    now rewrite Hid3.
  - destruct n; repeat split.
Qed.

Lemma snooze_legacy_witness :
  exists n',
    Notification.findById 100
      (notifications
         (snd (NotificationRoutes.snooze 100 1 None 5000
                 (Sample.worldWith
                    [Sample.notificationWith 100 "completed" None]
                    [Sample.routineWith true 0])))) = Some n'
    /\ Notification.status n' = "snoozed"
    /\ Notification.snoozedUntil n' = Some 305000.
Proof.
  destruct (snooze_legacy 100 1 None 5000
              (Sample.worldWith [Sample.notificationWith 100 "completed" None]
                                [Sample.routineWith true 0])
              (Sample.notificationWith 100 "completed" None) eq_refl)
    as [_ [[n' [Hf [Hs [Hu _]]]] _]].
  exists n'. split; [exact Hf|]. split; [exact Hs|exact Hu].
Defined.

(** ** The snooze scan *)

Section SnoozeScan.

Import NotificationScheduler.

Lemma notification_findById_replace_other (id : ObjectId)
    (d : Notification.t) (coll : list Notification.t) :
  Notification._id d <> id ->
  Notification.findById id (Notification.replace d coll)
  = Notification.findById id coll.
Proof.
  unfold Notification.findById, Notification.replace. intros Hd.
  induction coll as [|a coll IH]; cbn [map find]; [reflexivity|].
  destruct (Notification._id a =? Notification._id d) eqn:E.
  - apply Z.eqb_eq in E.
    replace (Notification._id d =? id) with false
      by (symmetry; apply Z.eqb_neq; exact Hd).
    replace (Notification._id a =? id) with false
      by (symmetry; apply Z.eqb_neq; lia).
    exact IH.
  - destruct (Notification._id a =? id); [reflexivity|exact IH].
Qed.

Lemma replace_ids (d : Notification.t) (coll : list Notification.t) :
  map Notification._id (Notification.replace d coll)
  = map Notification._id coll.
Proof.
  unfold Notification.replace. rewrite map_map. apply map_ext.
  intros a. destruct (Notification._id a =? Notification._id d) eqn:E;
    [apply Z.eqb_eq in E; auto|reflexivity].
Qed.

Lemma replace_hit (d x : Notification.t) (coll : list Notification.t) :
  In x (Notification.replace d coll) ->
  Notification._id x = Notification._id d -> x = d.
Proof.
  unfold Notification.replace. intros Hin Hid.
  apply in_map_iff in Hin. destruct Hin as [a [Ha _]].
  destruct (Notification._id a =? Notification._id d) eqn:E; [auto|].
  subst x. apply Z.eqb_neq in E. contradiction.
Qed.

(** A dispatch rewrites at most the documents with the id of the
    notification it was given. *)
Lemma sendRealTimeNotification_store (io : option Io.t) (n : Notification.t)
    (routine : option Routine.t) (now : Date) (w : World) :
  notifications (fst (sendRealTimeNotification io n routine now w))
  = notifications w
  \/ exists x,
       Notification._id x = Notification._id n
       /\ notifications (fst (sendRealTimeNotification io n routine now w))
          = Notification.replace x (notifications w).
Proof.
  assert (Hc : forall d w0,
             Notification._id d = Notification._id n ->
             notifications (fst (sendRealTimeNotification_catch n d w0))
             = notifications w0
             \/ exists x,
                  Notification._id x = Notification._id n
                  /\ notifications
                       (fst (sendRealTimeNotification_catch n d w0))
                     = Notification.replace x (notifications w0)).
  { intros d w0 Hd. unfold sendRealTimeNotification_catch, Notification.save.
    destruct (Notification.validate _ _); [|left; reflexivity].
    right. eexists. split; [|reflexivity]. destruct d; exact Hd. }
  unfold sendRealTimeNotification.
  destruct io as [[t1 t2]|]; [|left; reflexivity].
  destruct routine as [r|]; [|apply Hc; reflexivity].
  cbn [Io.to_emit_throws Io.emit_throws].
  destruct t1; [apply Hc; reflexivity|].
  destruct t2; [apply (Hc n (emit _ w)); reflexivity|].
  unfold Notification.save.
  destruct (Notification.validate n _).
  - right. eexists. split; [|reflexivity]. destruct n; reflexivity.
  - apply (Hc _ (emit _ (emit _ w))). destruct n; reflexivity.
Qed.

Lemma resend_keeps (io : option Io.t) (now : Date) (id : ObjectId)
    (L : list Notification.t) :
  forall w,
    (forall m, In m L -> Notification._id m <> id) ->
    Notification.findById id (notifications (resend io now L w))
    = Notification.findById id (notifications w).
Proof.
  induction L as [|n L IH]; intros w Hne; cbn [resend]; [reflexivity|].
  assert (Hn : Notification._id n <> id) by (apply Hne; now left).
  assert (Hstep :
    Notification.findById id
      (notifications
         (fst (sendRealTimeNotification io n
                 (Routine.findById (Notification.routine n) (routines w))
                 now w)))
    = Notification.findById id (notifications w)).
  { destruct (sendRealTimeNotification_store io n
                (Routine.findById (Notification.routine n) (routines w))
                now w) as [->|[x [Hx ->]]]; [reflexivity|].
    apply notification_findById_replace_other. lia. }
  destruct (sendRealTimeNotification io n _ now w) as [w' c].
  cbn [fst] in Hstep. destruct c.
  - rewrite IH; [exact Hstep|]. intros m Hm. apply Hne. now right.
  - exact Hstep.
Qed.

(** A scan leaves alone every id under which nothing is due. *)
Lemma checkSnoozedNotifications_keeps (io : option Io.t) (now : Date)
    (id : ObjectId) (w : World) :
  (forall x, In x (notifications w) -> Notification._id x = id ->
             isSnoozedDue now x = false) ->
  Notification.findById id
    (notifications (checkSnoozedNotifications io now w))
  = Notification.findById id (notifications w).
Proof.
  intros H. unfold checkSnoozedNotifications. apply resend_keeps.
  intros m Hm Hid. apply filter_In in Hm. destruct Hm as [Hin Hdue].
  rewrite (H m Hin Hid) in Hdue. discriminate.
Qed.

(** The scan with a working transport, when every notification of the
    list has its routine. *)
Lemma resend_ok (now : Date) (L : list Notification.t) :
  forall w,
    (forall n, In n L ->
               exists r,
                 Routine.findById (Notification.routine n) (routines w)
                 = Some r) ->
    resend (Some (Io.mk false false)) now L w
    = mkWorld
        (fold_left (fun c n => Notification.replace (deliveredDoc now n) c)
                   L (notifications w))
        (routines w)
        (emitted w ++ flat_map (resendEmissions now (routines w)) L)%list
        (metrics w) (nextId w).
Proof.
  induction L as [|n L IH]; intros w Hr; cbn [resend fold_left flat_map].
  - rewrite app_nil_r. destruct w; reflexivity.
  - destruct (Hr n (or_introl eq_refl)) as [r Hn].
    unfold resendEmissions at 1. rewrite Hn.
    rewrite sendRealTimeNotification_ok.
    rewrite IH.
    + cbn [notifications routines emitted metrics nextId set_notifications
           emit].
      fold (deliveredDoc now n). f_equal.
      rewrite <- !app_assoc. reflexivity.
    + intros m Hm. cbn. apply Hr. now right.
Qed.

Lemma fold_replace_ids (f : Notification.t -> Notification.t)
    (L : list Notification.t) :
  forall coll,
    map Notification._id
      (fold_left (fun c n => Notification.replace (f n) c) L coll)
    = map Notification._id coll.
Proof.
  induction L as [|n L IH]; intros coll; cbn [fold_left]; [reflexivity|].
  rewrite IH. apply replace_ids.
Qed.

Lemma fold_replace_members (f : Notification.t -> Notification.t)
    (Hf : forall m, Notification._id (f m) = Notification._id m)
    (L : list Notification.t) :
  forall coll d,
    In d (fold_left (fun c n => Notification.replace (f n) c) L coll) ->
    (In d coll /\ forall m, In m L -> Notification._id m <> Notification._id d)
    \/ exists m, In m L /\ d = f m.
Proof.
  induction L as [|n L IH]; intros coll d Hin; cbn [fold_left] in Hin.
  - left. split; [exact Hin|]. intros m [].
  - destruct (IH _ _ Hin) as [[Hd Hne]|[m [Hm ->]]].
    + unfold Notification.replace in Hd. apply in_map_iff in Hd.
      destruct Hd as [a [Ha Hain]].
      destruct (Notification._id a =? Notification._id (f n)) eqn:E.
      * right. exists n. split; [now left|now symmetry].
      * left. subst a. split; [exact Hain|].
        intros m [<-|Hm]; [|now apply Hne].
        apply Z.eqb_neq in E. rewrite Hf in E. auto.
    + right. exists m. split; [now right|reflexivity].
Qed.

Lemma find_present (p : Notification.t -> bool) (l : list Notification.t)
    (x : Notification.t) :
  In x l -> p x = true -> exists y, find p l = Some y.
Proof.
  intros Hin Hp. destruct (find p l) as [y|] eqn:E; [now exists y|].
  rewrite (find_none _ _ E x Hin) in Hp. discriminate.
Qed.

End SnoozeScan.

(** The outcome of a scan that meets no failure. *)
Lemma checkSnoozedNotifications_ok (now : Date) (w : World) :
  dueHaveRoutines now w ->
  let w' :=
    NotificationScheduler.checkSnoozedNotifications
      (Some (Io.mk false false)) now w in
  (forall n, In n (notifications w) ->
             NotificationScheduler.isSnoozedDue now n = true ->
             exists d,
               Notification.findById (Notification._id n) (notifications w')
               = Some d
               /\ Notification.status d = "delivered"
               /\ Notification.deliveredAt d = Some now)
  /\ (forall d, In d (notifications w') ->
                NotificationScheduler.isSnoozedDue now d = false)
  /\ List.length (emitted w')
     = (List.length (emitted w)
        + 2 * List.length
                (filter (NotificationScheduler.isSnoozedDue now)
                        (notifications w)))%nat
  /\ NotificationScheduler.checkSnoozedNotifications
       (Some (Io.mk false false)) now w' = w'.
Proof.
  intros Hr. cbv zeta.
  set (L := filter (NotificationScheduler.isSnoozedDue now) (notifications w)).
  assert (HL : forall n, In n L ->
                 exists r,
                   Routine.findById (Notification.routine n) (routines w)
                   = Some r).
  { intros n Hn. apply filter_In in Hn. destruct Hn. now apply Hr. }
  assert (Hw : NotificationScheduler.checkSnoozedNotifications
                 (Some (Io.mk false false)) now w
               = mkWorld
                   (fold_left
                      (fun c n => Notification.replace (deliveredDoc now n) c)
                      L (notifications w))
                   (routines w)
                   (emitted w
                    ++ flat_map (resendEmissions now (routines w)) L)%list
                   (metrics w) (nextId w))
    by (apply (resend_ok now L w HL)).
  rewrite Hw. clear Hw. cbn [notifications emitted].
  set (final := fold_left _ L (notifications w)).
  assert (Hid : forall m, Notification._id (deliveredDoc now m)
                          = Notification._id m)
    by (intros m; destruct m; reflexivity).
  assert (Hdel : forall m,
             NotificationScheduler.isSnoozedDue now (deliveredDoc now m)
             = false) by (intros m; destruct m; reflexivity).
  assert (Hclean : forall d, In d final ->
                     NotificationScheduler.isSnoozedDue now d = false).
  { intros d Hd.
    destruct (fold_replace_members (deliveredDoc now) Hid L _ d Hd)
      as [[Hin Hne]|[m [_ ->]]]; [|apply Hdel].
    destruct (NotificationScheduler.isSnoozedDue now d) eqn:E; [|reflexivity].
    exfalso. apply (Hne d); [|reflexivity]. apply filter_In. auto. }
  split; [|split; [exact Hclean|split]].
  - intros n Hin Hdue.
    assert (HnL : In n L) by (apply filter_In; auto).
    assert (Hex : exists y, In y final
                            /\ Notification._id y = Notification._id n).
    { assert (Hi : In (Notification._id n) (map Notification._id final)).
      { subst final. rewrite fold_replace_ids. now apply in_map. }
      apply in_map_iff in Hi. destruct Hi as [y [Hy Hyin]]. now exists y. }
    destruct Hex as [y [Hyin Hy]].
    destruct (find_present (fun d => Notification._id d =? Notification._id n)
                final y Hyin) as [d Hd]; [now apply Z.eqb_eq|].
    exists d. split; [exact Hd|].
    apply find_some in Hd. destruct Hd as [Hdin Hdid].
    apply Z.eqb_eq in Hdid.
    destruct (fold_replace_members (deliveredDoc now) Hid L _ d Hdin)
      as [[_ Hne]|[m [_ ->]]].
    + exfalso. apply (Hne n HnL). now symmetry.
    + destruct m; split; reflexivity.
  - rewrite length_app. f_equal.
    clearbody L. clear final Hclean.
    induction L as [|n L IH]; [reflexivity|].
    cbn [flat_map List.length]. rewrite length_app, IH.
    + destruct (HL n (or_introl eq_refl)) as [r Hn].
      unfold resendEmissions. rewrite Hn. cbn [List.length]. lia.
    + intros m Hm. apply HL. now right.
  - unfold NotificationScheduler.checkSnoozedNotifications.
    cbn [notifications].
    replace (filter (NotificationScheduler.isSnoozedDue now) final)
      with (@nil Notification.t); [reflexivity|].
    symmetry. clearbody final.
    induction final as [|a l IH]; [reflexivity|].
    cbn [filter]. rewrite (Hclean a (or_introl eq_refl)).
    apply IH. intros d Hd. apply Hclean. now right.
Qed.

(** X13: the snooze scan with a working transport, when every due
    notification still has its routine.  Each snoozed notification whose
    wake time has passed is stored as delivered with deliveredAt = now and
    two events are emitted for it; afterwards no stored notification is
    snoozed and due, so a second scan at the same instant changes nothing
    and sends nothing again. *)
Theorem snooze_scan_delivers_all (now : Date) (w : World) :
  dueHaveRoutines now w ->
  let w' :=
    NotificationScheduler.checkSnoozedNotifications
      (Some (Io.mk false false)) now w in
  (forall n, In n (notifications w) ->
             NotificationScheduler.isSnoozedDue now n = true ->
             exists d,
               Notification.findById (Notification._id n) (notifications w')
               = Some d
               /\ Notification.status d = "delivered"
               /\ Notification.deliveredAt d = Some now)
  /\ (forall d, In d (notifications w') ->
                NotificationScheduler.isSnoozedDue now d = false)
  /\ List.length (emitted w')
     = (List.length (emitted w)
        + 2 * List.length
                (filter (NotificationScheduler.isSnoozedDue now)
                        (notifications w)))%nat
  /\ NotificationScheduler.checkSnoozedNotifications
       (Some (Io.mk false false)) now w' = w'.
Proof.
  apply checkSnoozedNotifications_ok.
Qed.

Lemma snooze_scan_delivers_all_witness :
  NotificationScheduler.checkSnoozedNotifications
    (Some (Io.mk false false)) 9000
    (NotificationScheduler.checkSnoozedNotifications
       (Some (Io.mk false false)) 9000
       (Sample.worldWith
          [Sample.notificationWith 100 "snoozed" (Some 8000);
           Sample.notificationWith 101 "snoozed" (Some 9500)]
          [Sample.routineWith true 0]))
  = NotificationScheduler.checkSnoozedNotifications
      (Some (Io.mk false false)) 9000
      (Sample.worldWith
         [Sample.notificationWith 100 "snoozed" (Some 8000);
          Sample.notificationWith 101 "snoozed" (Some 9500)]
         [Sample.routineWith true 0]).
Proof.
  refine (proj2 (proj2 (proj2
            (snooze_scan_delivers_all 9000
               (Sample.worldWith
                  [Sample.notificationWith 100 "snoozed" (Some 8000);
                   Sample.notificationWith 101 "snoozed" (Some 9500)]
                  [Sample.routineWith true 0]) _)))).
  intros n Hin _. exists (Sample.routineWith true 0).
  destruct Hin as [<- | [<- | []]]; reflexivity.
Defined.

(** ** Snoozing and waking *)

Lemma answeredDoc_snoozed (rt sm : option Z) (now : Date)
    (n : Notification.t) :
  Notification.status (answeredDoc "snoozed" rt sm now n) = "snoozed"
  /\ Notification.snoozedUntil (answeredDoc "snoozed" rt sm now n)
     = Some (now + snoozeOrDefault sm * 60 * 1000)
  /\ Notification._id (answeredDoc "snoozed" rt sm now n)
     = Notification._id n.
Proof.
  unfold answeredDoc, Routes.applyAction.
  destruct n; repeat split.
Qed.

(** X14: snooze, then wake.  After the response route has accepted a
    snooze at [now], the notification is stored as snoozed until
    now + snoozeMinutes (5 when absent).  No snooze scan before that instant
    touches it, whatever the transport does; a snooze scan at or after that
    instant, with a working transport and the routines of all due
    notifications present, stores it as delivered with deliveredAt set to
    the time of the scan. *)
Theorem respond_snooze_then_scan (io : option Io.t) (id userId : ObjectId)
    (responseTime snoozeMinutes : option Z) (now : Date) (w : World)
    (n : Notification.t) :
  find (fun n => Routes.ownedBy id userId n && Routes.notLocked n)
       (notifications w) = Some n ->
  fst (Routes.response io id userId "snoozed" responseTime snoozeMinutes now w)
  = 200 ->
  let w1 :=
    snd (Routes.response io id userId "snoozed" responseTime snoozeMinutes
           now w) in
  let wake := now + snoozeOrDefault snoozeMinutes * 60 * 1000 in
  exists n1,
    Notification.findById id (notifications w1) = Some n1
    /\ Notification.status n1 = "snoozed"
    /\ Notification.snoozedUntil n1 = Some wake
    /\ (forall io' t, t < wake ->
          Notification.findById id
            (notifications
               (NotificationScheduler.checkSnoozedNotifications io' t w1))
          = Some n1)
    /\ (forall t, wake <= t -> dueHaveRoutines t w1 ->
          exists d,
            Notification.findById id
              (notifications
                 (NotificationScheduler.checkSnoozedNotifications
                    (Some (Io.mk false false)) t w1)) = Some d
            /\ Notification.status d = "delivered"
            /\ Notification.deliveredAt d = Some t).
Proof.
  intros Hf H200. cbv zeta.
  destruct (eligible_found id userId w n Hf) as [Hin [Hid _]].
  destruct (answeredDoc_snoozed responseTime snoozeMinutes now n)
    as [Hst [Hsu Hid2]].
  set (n2 := answeredDoc "snoozed" responseTime snoozeMinutes now n) in *.
  assert (Hvalid : Notification.status_valid n = true).
  { destruct (response_accepted_inv io id userId "snoozed" responseTime
                snoozeMinutes now w H200) as [n0 [Hf0 [_ Hv0]]].
    rewrite Hf in Hf0. injection Hf0 as <-. exact Hv0. }
  assert (Hstore : notifications
                     (snd (Routes.response io id userId "snoozed" responseTime
                             snoozeMinutes now w))
                   = Notification.replace n2 (notifications w))
    by exact (proj2 (response_store io id userId "snoozed" responseTime
                       snoozeMinutes now w n Hf eq_refl Hvalid)).
  assert (Hread : Notification.findById id
                    (notifications
                       (snd (Routes.response io id userId "snoozed"
                               responseTime snoozeMinutes now w))) = Some n2)
    by (apply response_read_back; [exact Hf|reflexivity|exact Hvalid]).
  assert (Hdue : forall t,
             NotificationScheduler.isSnoozedDue t n2
             = (now + snoozeOrDefault snoozeMinutes * 60 * 1000 <=? t)).
  { intros t. unfold NotificationScheduler.isSnoozedDue.
    rewrite Hst, Hsu. reflexivity. }
  exists n2. split; [exact Hread|]. split; [exact Hst|]. split; [exact Hsu|].
  split.
  - intros io' t Ht. rewrite checkSnoozedNotifications_keeps; [exact Hread|].
    intros x Hx Hxid. rewrite Hstore in Hx.
    rewrite (replace_hit n2 x _ Hx) by lia.
    rewrite Hdue. apply Z.leb_gt. exact Ht.
  - intros t Ht Hroutines.
    assert (Hin2 : In n2
                     (notifications
                        (snd (Routes.response io id userId "snoozed"
                                responseTime snoozeMinutes now w)))).
    { rewrite Hstore.
      apply notification_replace_In with (n := n); [exact Hin|].
      now rewrite Hid2. }
    destruct (proj1 (checkSnoozedNotifications_ok t _ Hroutines) n2 Hin2)
      as [d Hd].
    + rewrite Hdue. apply Z.leb_le. exact Ht.
    + exists d. rewrite Hid2, Hid in Hd. exact Hd.
Qed.

Lemma respond_snooze_then_scan_witness :
  exists n1,
    Notification.findById 100
      (notifications
         (snd (Routes.response None 100 1 "snoozed" (Some 12) (Some 5) 5000
                 (Sample.worldWith
                    [Sample.notificationWith 100 "delivered" None]
                    [Sample.routineWith true 0])))) = Some n1
    /\ Notification.snoozedUntil n1 = Some 305000.
Proof.
  destruct (respond_snooze_then_scan None 100 1 (Some 12) (Some 5) 5000
              (Sample.worldWith [Sample.notificationWith 100 "delivered" None]
                                [Sample.routineWith true 0])
              (Sample.notificationWith 100 "delivered" None)
              eq_refl eq_refl)
    as [n1 [Hf [_ [Hs _]]]].
  exists n1. split; [exact Hf|exact Hs].
Defined.

(** X15: a snooze that never wakes.  When the socket handler receives a
    snooze without [snoozeMinutes] for a notification of the caller that
    has no [snoozedUntil] yet, it stores status snoozed and still no
    [snoozedUntil]; no snooze scan, at any time and with any transport,
    selects or changes that notification afterwards. *)
Theorem socket_snooze_without_minutes_never_wakes (userId nid : ObjectId)
    (responseTime : option Z) (now : Date) (w : World) (n : Notification.t) :
  Notification.findById nid (notifications w) = Some n ->
  Notification.user n = userId ->
  Notification.snoozedUntil n = None ->
  let w1 :=
    Socket.notificationResponse userId nid "snoozed" responseTime None now w in
  exists n1,
    Notification.findById nid (notifications w1) = Some n1
    /\ Notification.status n1 = "snoozed"
    /\ Notification.snoozedUntil n1 = None
    /\ forall io t,
         NotificationScheduler.isSnoozedDue t n1 = false
         /\ Notification.findById nid
              (notifications
                 (NotificationScheduler.checkSnoozedNotifications io t w1))
            = Some n1.
Proof.
  intros Hf Hu Hsu. cbv zeta.
  set (n1 := Notification.set_userResponse
               (Some (UserResponse.mk "snoozed" responseTime now))
               (Notification.set_status "snoozed" n)).
  assert (Hv : Notification.validate n n1 = true).
  { unfold Notification.validate, Notification.status_valid,
      Notification.action_valid.
    replace (Notification.status n1) with "snoozed"
      by (destruct n; reflexivity).
    replace (Notification.userResponse n1)
      with (Some (UserResponse.mk "snoozed" responseTime now))
      by (destruct n; reflexivity).
    cbn [UserResponse.action].
    replace (includes Notification.statusEnum "snoozed") with true
      by reflexivity.
    replace (includes Notification.actionEnum "snoozed") with true
      by reflexivity.
    now rewrite !orb_true_r. }
  pose proof Hf as Hfind. unfold Notification.findById in Hfind.
  apply find_some in Hfind. destruct Hfind as [Hin Hid].
  apply Z.eqb_eq in Hid.
  assert (Hid1 : Notification._id n1 = nid) by (destruct n; exact Hid).
  assert (Hstore : notifications
                     (Socket.notificationResponse userId nid "snoozed"
                        responseTime None now w)
                   = Notification.replace n1 (notifications w)).
  { unfold Socket.notificationResponse. rewrite Hf, Hu, Z.eqb_refl.
    cbn [negb String.eqb Ascii.eqb Bool.eqb andb].
    fold n1. unfold Notification.save. rewrite Hv.
    replace (Notification.userResponse n1)
      with (Some (UserResponse.mk "snoozed" responseTime now))
      by (destruct n; reflexivity).
    cbn [notifications emit].
    now rewrite updateAdaptiveTiming_notifications. }
  assert (Hread : Notification.findById nid
                    (notifications
                       (Socket.notificationResponse userId nid "snoozed"
                          responseTime None now w)) = Some n1).
  { rewrite Hstore, <- Hid1.
    apply notification_findById_replace with (n := n); [exact Hin|].
    now rewrite Hid1. }
  assert (Hnot : forall t, NotificationScheduler.isSnoozedDue t n1 = false).
  { intros t. unfold NotificationScheduler.isSnoozedDue.
    replace (Notification.snoozedUntil n1) with (@None Date)
      by (destruct n; cbn in *; now subst).
    apply andb_false_r. }
  exists n1. split; [exact Hread|]. split; [destruct n; reflexivity|].
  split; [destruct n; cbn in *; now subst|].
  intros io t. split; [apply Hnot|].
  rewrite checkSnoozedNotifications_keeps; [exact Hread|].
  intros x Hx Hxid. rewrite Hstore in Hx.
  rewrite (replace_hit n1 x _ Hx) by lia. apply Hnot.
Qed.

Lemma socket_snooze_without_minutes_never_wakes_witness :
  exists n1,
    Notification.findById 100
      (notifications
         (Socket.notificationResponse 1 100 "snoozed" (Some 12) None 5000
            (Sample.worldWith [Sample.notificationWith 100 "delivered" None]
                              [Sample.routineWith true 0]))) = Some n1
    /\ Notification.status n1 = "snoozed"
    /\ Notification.snoozedUntil n1 = None.
Proof.
  destruct (socket_snooze_without_minutes_never_wakes 1 100 (Some 12) 5000
              (Sample.worldWith [Sample.notificationWith 100 "delivered" None]
                                [Sample.routineWith true 0])
              (Sample.notificationWith 100 "delivered" None)
              eq_refl eq_refl eq_refl)
    as [n1 [Hf [Hs [Hu _]]]].
  exists n1. split; [exact Hf|]. split; [exact Hs|exact Hu].
Defined.

(** ** The retention sweep *)

Lemma open_not_swept (s : string) :
  includes ["pending"; "delivered"; "snoozed"] s = true ->
  includes ["completed"; "dismissed"; "failed"] s = false.
Proof.
  unfold includes. cbn [existsb].
  destruct (String.eqb s "pending") eqn:E1;
    [apply String.eqb_eq in E1; subst; reflexivity|].
  destruct (String.eqb s "delivered") eqn:E2;
    [apply String.eqb_eq in E2; subst; reflexivity|].
  destruct (String.eqb s "snoozed") eqn:E3;
    [apply String.eqb_eq in E3; subst; reflexivity|].
  discriminate.
Qed.

Lemma filter_filter_implied {A : Type} (p q : A -> bool) (l : list A) :
  (forall x, p x = true -> q x = true) ->
  filter p (filter q l) = filter p l.
Proof.
  intros H. induction l as [|a l IH]; [reflexivity|].
  cbn [filter]. destruct (q a) eqn:Eq.
  - cbn [filter]. now rewrite IH.
  - destruct (p a) eqn:Ep; [|exact IH].
    rewrite (H a Ep) in Eq. discriminate.
Qed.

(** X16: the retention sweep only removes notifications that are
    completed, dismissed or failed and older than 30 days.  It keeps every
    other notification (cancelled ones included, however old), so the
    duplicate check of the due scan and the selection of the snooze scan
    give the same answers after it as before; and sweeping twice is the
    same as sweeping once. *)
Theorem cleanup_keeps_live_notifications (now : Date) (w : World) :
  let w' := NotificationScheduler.cleanupOldNotifications now w in
  (forall n, In n (notifications w') <->
             In n (notifications w)
             /\ (includes ["completed"; "dismissed"; "failed"]
                          (Notification.status n) = false
                 \/ now - 30 * 86400000 <= Notification.createdAt n))
  /\ (forall r b, hasRecent r b w' <-> hasRecent r b w)
  /\ (forall t,
        filter (NotificationScheduler.isSnoozedDue t) (notifications w')
        = filter (NotificationScheduler.isSnoozedDue t) (notifications w))
  /\ NotificationScheduler.cleanupOldNotifications now w' = w'.
Proof.
  cbv zeta. unfold NotificationScheduler.cleanupOldNotifications.
  cbn [notifications set_notifications].
  set (keep := fun n : Notification.t =>
                 negb ((Notification.createdAt n <? now - 30 * 86400000)
                       && includes ["completed"; "dismissed"; "failed"]
                                   (Notification.status n))).
  assert (Hkeep : forall n,
             keep n = true <->
             (includes ["completed"; "dismissed"; "failed"]
                       (Notification.status n) = false
              \/ now - 30 * 86400000 <= Notification.createdAt n)).
  { intros n. unfold keep. rewrite negb_true_iff, andb_false_iff.
    rewrite Z.ltb_ge. tauto. }
  split; [|split; [|split]].
  - intros n. rewrite filter_In, Hkeep. tauto.
  - intros r b. unfold hasRecent. cbn [notifications]. split.
    + intros [n [Hin Hn]]. exists n. apply filter_In in Hin. tauto.
    + intros [n [Hin Hn]]. exists n. split; [|exact Hn].
      apply filter_In. split; [exact Hin|]. apply Hkeep. left.
      apply open_not_swept.
      unfold NotificationScheduler.isRecentFor in Hn.
      apply andb_true_iff in Hn. tauto.
  - intros t. apply filter_filter_implied. intros x Hx.
    apply Hkeep. left.
    unfold NotificationScheduler.isSnoozedDue in Hx.
    apply andb_true_iff in Hx. destruct Hx as [Hs _].
    apply String.eqb_eq in Hs. rewrite Hs. reflexivity.
  - unfold set_notifications.
    cbn [notifications routines emitted metrics nextId].
    f_equal. apply filter_filter_implied. auto.
Qed.

(** ** Cancelling the notifications of a routine *)

(** X17: [cancelRoutineNotifications] deletes nothing and changes only the
    pending and snoozed notifications of the routine, which it stores as
    cancelled; afterwards no notification of the routine is pending or
    snoozed, none is ever selected by a snooze scan, and a second call, at
    any time, changes nothing. *)
Theorem cancelRoutineNotifications_effect (rid : ObjectId) (t1 : Date)
    (w : World) :
  let w' := NotificationScheduler.cancelRoutineNotifications rid t1 w in
  map Notification._id (notifications w')
  = map Notification._id (notifications w)
  /\ (forall n, In n (notifications w) ->
                NotificationScheduler.isOpenFor rid n = false ->
                In n (notifications w'))
  /\ (forall n, In n (notifications w') ->
                NotificationScheduler.isOpenFor rid n = false)
  /\ (forall n t, In n (notifications w') -> Notification.routine n = rid ->
                  NotificationScheduler.isSnoozedDue t n = false)
  /\ (forall t2,
        NotificationScheduler.cancelRoutineNotifications rid t2 w' = w').
Proof.
  cbv zeta. unfold NotificationScheduler.cancelRoutineNotifications.
  cbn [notifications set_notifications].
  set (f := fun n : Notification.t =>
              if NotificationScheduler.isOpenFor rid n
              then Notification.set_status "cancelled" n
              else n).
  assert (Hclosed : forall n, NotificationScheduler.isOpenFor rid (f n) = false).
  { intros n. unfold f.
    destruct (NotificationScheduler.isOpenFor rid n) eqn:E; [|exact E].
    unfold NotificationScheduler.isOpenFor. destruct n; cbn.
    apply andb_false_r. }
  split; [|split; [|split; [|split]]].
  - rewrite map_map. apply map_ext. intros n. unfold f.
    destruct (NotificationScheduler.isOpenFor rid n); destruct n; reflexivity.
  - intros n Hin Hn. apply in_map_iff. exists n. split; [|exact Hin].
    unfold f. now rewrite Hn.
  - intros n Hin. apply in_map_iff in Hin. destruct Hin as [a [<- _]].
    apply Hclosed.
  - intros n t Hin Hr. apply in_map_iff in Hin. destruct Hin as [a [<- _]].
    pose proof (Hclosed a) as Hc.
    unfold NotificationScheduler.isOpenFor in Hc. rewrite Hr in Hc.
    rewrite Z.eqb_refl in Hc. cbn [andb] in Hc.
    unfold NotificationScheduler.isSnoozedDue.
    destruct (String.eqb (Notification.status (f a)) "snoozed") eqn:E;
      [|reflexivity].
    apply String.eqb_eq in E. rewrite E in Hc. discriminate.
  - intros t2. unfold set_notifications.
    cbn [notifications routines emitted metrics nextId].
    f_equal. rewrite map_map.
    apply map_ext. intros n.
    change (f (f n) = f n). unfold f at 1. now rewrite Hclosed.
Qed.

(** ** The daily metrics *)

Section DailyMetrics.

Import UserMetric.

Lemma validActions_cases (action : string) :
  includes Routes.validActions action = true ->
  action = "completed" \/ action = "snoozed" \/ action = "dismissed".
Proof.
  unfold includes, Routes.validActions. cbn [existsb].
  destruct (String.eqb action "completed") eqn:E1;
    [apply String.eqb_eq in E1; auto|].
  destruct (String.eqb action "snoozed") eqn:E2;
    [apply String.eqb_eq in E2; auto|].
  destruct (String.eqb action "dismissed") eqn:E3;
    [apply String.eqb_eq in E3; auto|].
  discriminate.
Qed.

Lemma applyInc_balanced (action : string) (rt : option Z) (d : t) :
  includes Routes.validActions action = true ->
  metricBalanced d ->
  metricBalanced (applyInc action rt d)
  /\ metricKey (applyInc action rt d) = metricKey d
  /\ totalNotifications (applyInc action rt d) = totalNotifications d + 1.
Proof.
  intros Hv [Hsum [Hcount Hday]].
  destruct d as [u dt sent cmp dis snz tot trt rc hrs].
  cbn [totalNotifications notificationsCompleted notificationsDismissed
       notificationsSnoozed responseCount date] in *.
  assert (Hc : (if match rt with
                   | Some v => negb (v =? 0)
                   | None => false
                   end then rc + 1 else rc) <= tot + 1
               /\ 0 <= (if match rt with
                           | Some v => negb (v =? 0)
                           | None => false
                           end then rc + 1 else rc))
    by (destruct (match rt with Some v => negb (v =? 0) | None => false end);
        lia).
  unfold metricBalanced, metricKey.
  destruct (validActions_cases _ Hv) as [-> | [-> | ->]];
    cbn [applyInc totalNotifications notificationsCompleted
         notificationsDismissed notificationsSnoozed responseCount date user
         capitalize append toUpperCase];
    unfold bump;
    repeat match goal with
           | |- context [String.eqb ?a ?b] =>
               let v := eval vm_compute in (String.eqb a b) in
               change (String.eqb a b) with v
           end;
    cbv iota; repeat split; try lia.
Qed.

Lemma updateFirst_props (p : t -> bool) (f : t -> t) (coll : list t) :
  (forall d, metricBalanced d ->
             metricBalanced (f d) /\ metricKey (f d) = metricKey d
             /\ totalNotifications (f d) = totalNotifications d + 1) ->
  Forall metricBalanced coll ->
  (exists x, find p coll = Some x) ->
  Forall metricBalanced (updateFirst p f coll)
  /\ map metricKey (updateFirst p f coll) = map metricKey coll
  /\ sumTotals (updateFirst p f coll) = sumTotals coll + 1.
Proof.
  intros Hf. induction coll as [|a coll IH]; intros Hall [x Hx];
    [discriminate|].
  inversion Hall as [|? ? Ha Hrest]; subst.
  cbn [find] in Hx. cbn [updateFirst].
  destruct (p a).
  - destruct (Hf a Ha) as [H1 [H2 H3]].
    cbn [map sumTotals]. rewrite H2, H3.
    repeat split; [constructor; assumption|lia].
  - destruct (IH Hrest (ex_intro _ x Hx)) as [H1 [H2 H3]].
    cbn [map sumTotals]. rewrite H2, H3.
    repeat split; [constructor; assumption|lia].
Qed.

Lemma sumTotals_app (l : list t) (x : t) :
  sumTotals (l ++ [x]) = sumTotals l + totalNotifications x.
Proof.
  induction l as [|a l IH]; cbn [app sumTotals]; [lia|]. rewrite IH. lia.
Qed.

Lemma NoDup_snoc {A : Type} (l : list A) (x : A) :
  NoDup l -> ~ In x l -> NoDup (l ++ [x]).
Proof.
  induction l as [|a l IH]; intros Hnd Hx; cbn [app].
  - constructor; [intros []|constructor].
  - apply NoDup_cons_iff in Hnd. destruct Hnd as [Ha Hnd].
    apply NoDup_cons_iff. split.
    + intros Hin. apply in_app_or in Hin. destruct Hin as [Hin|[->|[]]].
      * contradiction.
      * apply Hx. now left.
    + apply IH; [exact Hnd|]. intros Hin. apply Hx. now right.
Qed.

Lemma startOfDay_midnight (now : Date) : startOfDay now mod 86400000 = 0.
Proof.
  unfold startOfDay.
  rewrite (Z.div_mod now 86400000) at 1 by lia.
  replace (86400000 * (now / 86400000) + now mod 86400000
           - now mod 86400000)
    with ((now / 86400000) * 86400000) by lia.
  apply Z.mod_mul. lia.
Qed.

Lemma updateForResponse_props (userId : ObjectId) (action : string)
    (rt : option Z) (now : Date) (coll : list t) :
  includes Routes.validActions action = true ->
  Forall metricBalanced coll ->
  NoDup (map metricKey coll) ->
  Forall metricBalanced (updateForResponse userId action rt now coll)
  /\ NoDup (map metricKey (updateForResponse userId action rt now coll))
  /\ sumTotals (updateForResponse userId action rt now coll)
     = sumTotals coll + 1.
Proof.
  intros Hv Hall Hnd. unfold updateForResponse. cbv zeta.
  destruct (find (isFor userId (startOfDay now)) coll) as [x|] eqn:Hx.
  - destruct (updateFirst_props (isFor userId (startOfDay now))
                (applyInc action rt) coll
                (fun d Hd => applyInc_balanced action rt d Hv Hd)
                Hall (ex_intro _ x Hx)) as [H1 [H2 H3]].
    rewrite H2. auto.
  - set (fresh := mk userId (startOfDay now) 0 0 0 0 0 0 0 0%Q).
    assert (Hb : metricBalanced fresh).
    { unfold metricBalanced, fresh. cbn.
      repeat split; try lia. apply startOfDay_midnight. }
    destruct (applyInc_balanced action rt fresh Hv Hb) as [H1 [H2 H3]].
    split; [|split].
    + apply Forall_app. split; [exact Hall|]. constructor; [exact H1|constructor].
    + rewrite map_app. cbn [map]. apply NoDup_snoc; [exact Hnd|].
      rewrite H2. intros Hin. apply in_map_iff in Hin.
      destruct Hin as [d [Hk Hd]].
      pose proof (find_none _ _ Hx d Hd) as Hnone.
      unfold metricKey, fresh in Hk. cbn in Hk. inversion Hk as [[Hu Hdt]].
      unfold isFor in Hnone. rewrite Hu, Hdt, !Z.eqb_refl in Hnone.
      discriminate.
    + rewrite sumTotals_app, H3. reflexivity.
Qed.

End DailyMetrics.

(** X18: the daily counters add up.  Along any sequence of
    [updateForResponse] calls with actions completed, snoozed or
    dismissed, by any users at any times, every document keeps
    totalNotifications = completed + dismissed + snoozed and
    0 <= responseCount <= totalNotifications (a response time of 0 is not
    counted), its date stays a midnight, there is never more than one
    document per user and day, and the totals of all documents grow by
    exactly the number of calls. *)
Theorem metrics_stay_balanced (calls : list MetricCall) :
  forall coll : list UserMetric.t,
    Forall (fun m => includes Routes.validActions (call_action m) = true)
           calls ->
    Forall metricBalanced coll ->
    NoDup (map metricKey coll) ->
    Forall metricBalanced (applyMetricCalls calls coll)
    /\ NoDup (map metricKey (applyMetricCalls calls coll))
    /\ sumTotals (applyMetricCalls calls coll)
       = sumTotals coll + Z.of_nat (List.length calls).
Proof.
  unfold applyMetricCalls.
  induction calls as [|m calls IH]; intros coll Hv Hall Hnd;
    cbn [fold_left List.length].
  - repeat split; auto. lia.
  - inversion Hv as [|? ? Hm Hrest]; subst.
    destruct (updateForResponse_props (call_user m) (call_action m)
                (call_responseTime m) (call_now m) coll Hm Hall Hnd)
      as [H1 [H2 H3]].
    destruct (IH _ Hrest H1 H2) as [I1 [I2 I3]].
    split; [exact I1|]. split; [exact I2|].
    rewrite I3, H3, Nat2Z.inj_succ. lia.
Qed.

Lemma metrics_stay_balanced_witness :
  sumTotals
    (applyMetricCalls
       [ mkMetricCall 1 "completed" (Some 12) 5000;
         mkMetricCall 1 "snoozed" (Some 0) 6000;
         mkMetricCall 2 "dismissed" None 6000;
         mkMetricCall 1 "completed" (Some 3) 86400000 ] [])
  = 4.
Proof.
  refine (proj2 (proj2
            (metrics_stay_balanced
               [ mkMetricCall 1 "completed" (Some 12) 5000;
                 mkMetricCall 1 "snoozed" (Some 0) 6000;
                 mkMetricCall 2 "dismissed" None 6000;
                 mkMetricCall 1 "completed" (Some 3) 86400000 ] [] _ _ _))).
  - repeat constructor.
  - constructor.
  - constructor.
Defined.

(** ** More on the due scan *)

Lemma noneRecent_find (r : Routine.t) (b : Date) (w : World) :
  noneRecent r b w ->
  find (NotificationScheduler.isRecentFor r b) (notifications w) = None.
Proof.
  intros H. destruct (find _ _) as [n|] eqn:E; [|reflexivity].
  apply find_some in E. destruct E as [Hin Hn].
  rewrite (H n Hin) in Hn. discriminate.
Qed.

(** X19: what is stored is what is pushed.  When no recent open
    notification suppresses it and the transport works, creating a
    notification for a routine appends exactly one document and emits
    exactly two events; the document is stored as delivered with
    deliveredAt = now, deliveryAttempts = 0, scheduledFor = fire time plus
    the applied adjustment (also recorded as metadata), and the pushed
    payload carries the id, title, message, sound, volume and routine of
    that stored document. *)
Theorem createAndSendNotification_stores_what_it_pushes (r : Routine.t)
    (T now : Date) (w : World) :
  idsIssued w ->
  noneRecent r (now - 5 * 60 * 1000) w ->
  let w' :=
    NotificationScheduler.createAndSendNotification
      (Some (Io.mk false false)) r T now w in
  exists N p,
    notifications w' = (notifications w ++ [N])%list
    /\ emitted w'
       = (emitted w
          ++ [ mkEmission (ToRoom (Routine.user r)) "notification"
                 (NotificationData p);
               mkEmission ToAll "notification-broadcast"
                 (BroadcastData p (Routine.user r) true) ])%list
    /\ Notification.status N = "delivered"
    /\ Notification.deliveredAt N = Some now
    /\ Notification.deliveryAttempts N = 0
    /\ Notification.scheduledFor N = T + appliedAdjustment r * 60 * 1000
    /\ Notification.adaptiveAdjustment N = appliedAdjustment r
    /\ Notification.user N = Routine.user r
    /\ Notification.routine N = Routine._id r
    /\ Payload.id p = Notification._id N
    /\ Payload.title p = Notification.title N
    /\ Payload.message p = Notification.message N
    /\ Payload.sound p = Notification.sound N
    /\ Payload.volume p = Notification.volume N
    /\ Payload.routineId p = Notification.routine N.
Proof.
  intros Hids Hnone. cbv zeta.
  unfold NotificationScheduler.createAndSendNotification. cbv zeta.
  rewrite (noneRecent_find _ _ _ Hnone).
  fold (appliedAdjustment r).
  set (N0 := Notification.mk _ _ _ _ _ _ _ _ _ _ _ _ _ _ _ _ _ _ _).
  unfold Notification.insert.
  change (Notification.status N0) with "pending".
  replace (includes Notification.statusEnum "pending") with true
    by reflexivity.
  rewrite sendRealTimeNotification_ok. cbn [fst].
  exists (deliveredDoc now N0), (NotificationScheduler.payloadOf N0 r now).
  split.
  - cbn [notifications set_notifications emit bump_nextId].
    unfold Notification.replace. rewrite map_app.
    fold (Notification.replace
            (Notification.set_deliveredAt (Some now)
               (Notification.set_status "delivered" N0)) (notifications w)).
    rewrite replace_fresh by exact Hids.
    cbn [map]. change (Notification._id N0) with (nextId w).
    cbn [Notification._id Notification.set_deliveredAt
         Notification.set_status N0].
    now rewrite Z.eqb_refl.
  - split.
    + cbn [emitted set_notifications emit bump_nextId].
      now rewrite <- app_assoc.
    + subst N0. cbn. repeat split.
      destruct (appliedAdjustment r =? 0) eqn:E; cbn [negb].
      * apply Z.eqb_eq in E. lia.
      * lia.
Qed.

Lemma createAndSendNotification_stores_what_it_pushes_witness :
  map Notification.status
    (notifications
       (NotificationScheduler.createAndSendNotification
          (Some (Io.mk false false)) (Sample.routineWith true 3)
          Sample.monday0900 Sample.monday0900
          (Sample.worldWith [] [Sample.routineWith true 3])))
  = ["delivered"].
Proof.
  destruct (createAndSendNotification_stores_what_it_pushes
              (Sample.routineWith true 3) Sample.monday0900 Sample.monday0900
              (Sample.worldWith [] [Sample.routineWith true 3]))
    as [N [p [Hn [_ [Hs _]]]]].
  - constructor.
  - intros n [].
  - rewrite Hn. cbn [notifications Sample.worldWith app map].
    now rewrite Hs.
Defined.

(** X20: an inactive routine gets nothing.  With unique routine ids and
    fresh notification ids, a due scan, at any instant and with any
    transport, leaves the number of notifications of an inactive routine
    unchanged. *)
Theorem inactive_routine_gets_nothing (io : option Io.t) (R : Routine.t)
    (T : Date) (w : World) :
  idsIssued w ->
  NoDup (map Routine._id (routines w)) ->
  In R (routines w) ->
  Routine.isActive R = false ->
  countFor R (NotificationScheduler.checkScheduledRoutines io T w)
  = countFor R w.
Proof.
  intros Hids Hnd HR Hoff.
  unfold NotificationScheduler.checkScheduledRoutines. cbv zeta.
  refine (proj1 (proj2 (scan_others io R T _ w Hids _))).
  intros r Hin Heq. apply filter_In in Hin. destruct Hin as [Hin Hd].
  assert (r = R) by (apply (routine_by_id (routines w)); assumption).
  subst r. rewrite inactive_not_due in Hd by exact Hoff. discriminate.
Qed.

Lemma inactive_routine_gets_nothing_witness :
  countFor (Sample.routineWith false 0)
    (NotificationScheduler.checkScheduledRoutines Sample.ioOk
       Sample.monday0900
       (Sample.worldWith [] [Sample.routineWith false 0]))
  = 0%nat.
Proof.
  rewrite (inactive_routine_gets_nothing Sample.ioOk
             (Sample.routineWith false 0) Sample.monday0900
             (Sample.worldWith [] [Sample.routineWith false 0])).
  - reflexivity.
  - constructor.
  - repeat constructor. intros [].
  - left. reflexivity.
  - reflexivity.
Defined.

(** The scan of a list of routines only appends. *)
Lemma scan_appends (io : option Io.t) (T : Date) (L : list Routine.t) :
  forall w,
    idsIssued w ->
    exists added,
      notifications
        (fold_left
           (fun w r =>
              NotificationScheduler.createAndSendNotification io r T T w)
           L w)
      = (notifications w ++ added)%list
      /\ (List.length added <= List.length L)%nat
      /\ forall n, In n added ->
           exists r, In r L
                     /\ Notification.routine n = Routine._id r
                     /\ Notification.user n = Routine.user r
                     /\ includes ["pending"; "delivered"; "snoozed"]
                                 (Notification.status n) = true.
Proof.
  induction L as [|r L IH]; intros w Hids; cbn [fold_left].
  - exists []. rewrite app_nil_r. repeat split; auto. intros n [].
  - pose proof (createAndSendNotification_idsIssued io r T T w Hids) as Hids'.
    destruct (IH _ Hids') as [added [Ha [Hl Hm]]].
    destruct (createAndSendNotification_cases io r T T w Hids)
      as [[E _]|[_ [N' [Hnew [_ [_ [Hu [Hr [_ Hst]]]]]]]]].
    + rewrite E in Ha. rewrite E. exists added. split; [exact Ha|].
      split; [cbn [List.length]; lia|].
      intros n Hn. destruct (Hm n Hn) as [r' [Hin H']].
      exists r'. split; [now right|exact H'].
    + exists (N' :: added). split.
      * rewrite Ha, Hnew, <- app_assoc. reflexivity.
      * split; [cbn [List.length]; lia|].
        intros n [<-|Hn].
        -- exists r. split; [now left|auto].
        -- destruct (Hm n Hn) as [r' [Hin H']].
           exists r'. split; [now right|exact H'].
Qed.

(** X21: a due scan only appends.  With fresh notification ids, a due
    scan keeps every stored notification as it is and in place, adds at
    most one notification per routine it selected, each for a stored
    routine that is active and due and for that routine's owner, and
    leaves the routines untouched. *)
Theorem due_scan_only_appends (io : option Io.t) (T : Date) (w : World) :
  idsIssued w ->
  let w' := NotificationScheduler.checkScheduledRoutines io T w in
  routines w' = routines w
  /\ exists added,
       notifications w' = (notifications w ++ added)%list
       /\ (List.length added
           <= List.length
                (filter (NotificationScheduler.isDue
                           (NotificationScheduler.currentTimeOf T) (getDay T))
                        (routines w)))%nat
       /\ forall n, In n added ->
            exists r,
              In r (routines w)
              /\ Routine.isActive r = true
              /\ NotificationScheduler.isDue
                   (NotificationScheduler.currentTimeOf T) (getDay T) r = true
              /\ Notification.routine n = Routine._id r
              /\ Notification.user n = Routine.user r.
Proof.
  intros Hids. cbv zeta.
  unfold NotificationScheduler.checkScheduledRoutines. cbv zeta.
  split; [apply scan_routines|].
  destruct (scan_appends io T
              (filter (NotificationScheduler.isDue
                         (NotificationScheduler.currentTimeOf T) (getDay T))
                      (routines w)) w Hids) as [added [Ha [Hl Hm]]].
  exists added. split; [exact Ha|]. split; [exact Hl|].
  intros n Hn. destruct (Hm n Hn) as [r [Hin [H1 [H2 _]]]].
  apply filter_In in Hin. destruct Hin as [Hin Hdue].
  exists r. split; [exact Hin|]. split; [|auto].
  unfold NotificationScheduler.isDue in Hdue.
  apply andb_true_iff in Hdue. tauto.
Qed.

Lemma due_scan_only_appends_witness :
  routines
    (NotificationScheduler.checkScheduledRoutines Sample.ioOk
       Sample.monday0900
       (Sample.worldWith [Sample.notificationWith 100 "completed" None]
                         [Sample.routineWith true 0]))
  = [Sample.routineWith true 0].
Proof.
  refine (proj1
            (due_scan_only_appends Sample.ioOk Sample.monday0900
               (Sample.worldWith [Sample.notificationWith 100 "completed" None]
                                 [Sample.routineWith true 0]) _)).
  repeat constructor.
Defined.

(** ** Deleting notifications through the routes *)

Lemma filter_split_length {A : Type} (p : A -> bool) (l : list A) :
  (List.length (filter p l)
   + List.length (filter (fun x => negb (p x)) l))%nat
  = List.length l.
Proof.
  induction l as [|a l IH]; [reflexivity|].
  cbn [filter]. destruct (p a); cbn [negb List.length]; lia.
Qed.

Lemma filter_negb_clean {A : Type} (p : A -> bool) (l : list A) (x : A) :
  In x (filter (fun y => negb (p y)) l) -> p x = false.
Proof.
  intros H. apply filter_In in H. destruct H as [_ H].
  now apply negb_true_iff.
Qed.

(** X22: DELETE /:id/notifications by the owner of the routine is
    answered 200 with a count equal to the number of documents actually
    removed; it removes exactly the caller's pending and snoozed
    notifications of that routine and keeps all others; for a routine the
    caller does not own it is answered 404 and removes nothing. *)
Theorem cancelNotifications_count (id userId : ObjectId) (w : World) :
  let res := RoutineRoutes.cancelNotifications id userId w in
  (find (RoutineRoutes.isRoutineOf id userId) (routines w) = None ->
   res = (404, 0, w))
  /\ (forall r,
        find (RoutineRoutes.isRoutineOf id userId) (routines w) = Some r ->
        fst (fst res) = 200
        /\ Z.of_nat (List.length (notifications w))
           = Z.of_nat (List.length (notifications (snd res)))
             + snd (fst res)
        /\ (forall n, In n (notifications (snd res)) <->
                      In n (notifications w)
                      /\ RoutineRoutes.isOpenOf id userId n = false)).
Proof.
  cbv zeta. unfold RoutineRoutes.cancelNotifications. split.
  - intros ->. reflexivity.
  - intros r ->. cbn [fst snd notifications set_notifications].
    split; [reflexivity|]. split.
    + assert (Hl : (List.length
                      (filter (RoutineRoutes.isOpenOf id userId)
                              (notifications w))
                    + List.length
                        (filter
                           (fun n => negb (RoutineRoutes.isOpenOf id userId n))
                           (notifications w)))%nat
                   = List.length (notifications w))
        by apply filter_split_length.
      rewrite <- Hl, Nat2Z.inj_add. apply Z.add_comm.
    + intros n. rewrite filter_In, negb_true_iff. tauto.
Qed.

Lemma cancelNotifications_count_witness :
  fst (RoutineRoutes.cancelNotifications 10 1
         (Sample.worldWith
            [Sample.notificationWith 100 "pending" None;
             Sample.notificationWith 101 "delivered" None]
            [Sample.routineWith false 0]))
  = (200, 1).
Proof.
  destruct (proj2
              (cancelNotifications_count 10 1
                 (Sample.worldWith
                    [Sample.notificationWith 100 "pending" None;
                     Sample.notificationWith 101 "delivered" None]
                    [Sample.routineWith false 0]))
              (Sample.routineWith false 0) eq_refl) as [_ _].
  reflexivity.
Defined.

(** X23: PUT /:id/notifications does for an inactive routine what the
    toggle route does not: it removes the caller's pending and snoozed
    notifications of the routine, giving the same store as
    DELETE /:id/notifications; for an active routine no pending or snoozed
    notification of the routine, of any user, is left.  It never adds a
    notification. *)
Theorem updateNotifications_removes_open (id userId : ObjectId) (w : World)
    (r : Routine.t) :
  find (RoutineRoutes.isRoutineOf id userId) (routines w) = Some r ->
  let res := RoutineRoutes.updateNotifications id userId w in
  fst (fst res) = 200
  /\ (forall n, In n (notifications (snd res)) ->
                In n (notifications w)
                /\ RoutineRoutes.isOpenOf id userId n = false)
  /\ (Routine.isActive r = false ->
      snd res = snd (RoutineRoutes.cancelNotifications id userId w))
  /\ (Routine.isActive r = true ->
      forall n, In n (notifications (snd res)) ->
                NotificationScheduler.isOpenFor id n = false).
Proof.
  intros Hf. cbv zeta.
  pose proof Hf as Hp. apply find_some in Hp. destruct Hp as [_ Hp].
  destruct (isRoutineOf_fields _ _ _ Hp) as [Hid _].
  unfold RoutineRoutes.updateNotifications, RoutineRoutes.cancelNotifications.
  rewrite Hf.
  unfold NotificationScheduler.scheduleRoutineNotifications.
  destruct (Routine.isActive r); cbn [negb fst snd notifications
                                       set_notifications].
  - split; [reflexivity|]. split; [|split; [discriminate|]].
    + intros n Hin. apply filter_In in Hin. destruct Hin as [Hin _].
      apply filter_In in Hin. rewrite negb_true_iff in Hin. exact Hin.
    + intros _ n Hin. rewrite Hid in Hin.
      now apply filter_negb_clean in Hin.
  - split; [reflexivity|]. split; [|split; [reflexivity|discriminate]].
    intros n Hin. apply filter_In in Hin.
    rewrite negb_true_iff in Hin. exact Hin.
Qed.

Lemma updateNotifications_removes_open_witness :
  map Notification._id
    (notifications
       (snd (RoutineRoutes.updateNotifications 10 1
               (snd (Routes.toggle 10 1 1
                       (Sample.worldWith
                          [Sample.notificationWith 100 "snoozed" (Some 5);
                           Sample.notificationWith 101 "delivered" None]
                          [Sample.routineWith true 0]))))))
  = [101].
Proof.
  destruct (updateNotifications_removes_open 10 1
              (snd (Routes.toggle 10 1 1
                      (Sample.worldWith
                         [Sample.notificationWith 100 "snoozed" (Some 5);
                          Sample.notificationWith 101 "delivered" None]
                         [Sample.routineWith true 0])))
              (Routine.set_updatedAt 1 (Sample.routineWith false 0)) eq_refl)
    as [_ [_ [H _]]].
  rewrite (H eq_refl). reflexivity.
Defined.

(** X24: POST /clear-snoozed reports the number of documents it removed,
    removes exactly the caller's snoozed notifications, so that no snooze
    scan can select a notification of the caller afterwards, and keeps
    every notification of other users. *)
Theorem clearSnoozed_effect (userId : ObjectId) (w : World) :
  let res := NotificationRoutes.clearSnoozed userId w in
  Z.of_nat (List.length (notifications w))
  = Z.of_nat (List.length (notifications (snd res))) + fst res
  /\ (forall n t, In n (notifications (snd res)) ->
                  Notification.user n = userId ->
                  NotificationScheduler.isSnoozedDue t n = false)
  /\ (forall n, In n (notifications w) -> Notification.user n <> userId ->
                In n (notifications (snd res)))
  /\ (forall n, In n (notifications (snd res)) -> In n (notifications w)).
Proof.
  cbv zeta. unfold NotificationRoutes.clearSnoozed.
  cbn [fst snd notifications set_notifications].
  set (isMine := fun n : Notification.t =>
                   (Notification.user n =? userId)
                   && String.eqb (Notification.status n) "snoozed").
  split; [|split; [|split]].
  - assert (Hl : (List.length (filter isMine (notifications w))
                  + List.length
                      (filter (fun n => negb (isMine n)) (notifications w)))%nat
                 = List.length (notifications w))
      by apply filter_split_length.
    rewrite <- Hl, Nat2Z.inj_add. apply Z.add_comm.
  - intros n t Hin Hu. apply filter_negb_clean in Hin.
    unfold isMine in Hin. rewrite Hu, Z.eqb_refl in Hin. cbn [andb] in Hin.
    unfold NotificationScheduler.isSnoozedDue. now rewrite Hin.
  - intros n Hin Hu. apply filter_In. split; [exact Hin|].
    apply negb_true_iff. unfold isMine.
    replace (Notification.user n =? userId) with false
      by (symmetry; apply Z.eqb_neq; exact Hu).
    reflexivity.
  - intros n Hin. apply filter_In in Hin. tauto.
Qed.

(** X25: scheduling schedules nothing.  [scheduleRoutineNotifications],
    and with it POST /:id/schedule, never adds or changes a notification:
    for an inactive routine the store is unchanged, for an active one the
    result is the store without the routine's pending and snoozed
    notifications; routines, emissions and metrics are untouched. *)
Theorem scheduleRoutineNotifications_only_deletes (id userId : ObjectId)
    (w : World) (r : Routine.t) :
  find (RoutineRoutes.isRoutineOf id userId) (routines w) = Some r ->
  let res := RoutineRoutes.schedule id userId w in
  fst res = 200
  /\ routines (snd res) = routines w
  /\ emitted (snd res) = emitted w
  /\ metrics (snd res) = metrics w
  /\ (forall n, In n (notifications (snd res)) -> In n (notifications w))
  /\ (List.length (notifications (snd res))
      <= List.length (notifications w))%nat
  /\ (Routine.isActive r = false -> snd res = w)
  /\ (Routine.isActive r = true ->
      forall n, In n (notifications (snd res)) ->
                NotificationScheduler.isOpenFor id n = false).
Proof.
  intros Hf. cbv zeta.
  pose proof Hf as Hp. apply find_some in Hp. destruct Hp as [_ Hp].
  destruct (isRoutineOf_fields _ _ _ Hp) as [Hid _].
  unfold RoutineRoutes.schedule. rewrite Hf.
  unfold NotificationScheduler.scheduleRoutineNotifications.
  destruct (Routine.isActive r); cbn [negb fst snd].
  - split; [reflexivity|]. repeat split; try reflexivity.
    + intros n Hin. cbn in Hin. apply filter_In in Hin. tauto.
    + cbn [notifications set_notifications].
      assert (Hl : (List.length
                      (filter
                         (NotificationScheduler.isOpenFor (Routine._id r))
                         (notifications w))
                    + List.length
                        (filter
                           (fun n =>
                              negb (NotificationScheduler.isOpenFor
                                      (Routine._id r) n))
                           (notifications w)))%nat
                   = List.length (notifications w))
        by apply filter_split_length.
      rewrite <- Hl. apply Nat.le_add_l.
    + discriminate.
    + intros _ n Hin. cbn in Hin. rewrite Hid in Hin.
      now apply filter_negb_clean in Hin.
  - repeat split; auto. discriminate.
Qed.

Lemma scheduleRoutineNotifications_only_deletes_witness :
  map Notification._id
    (notifications
       (snd (RoutineRoutes.schedule 10 1
               (Sample.worldWith
                  [Sample.notificationWith 100 "pending" None;
                   Sample.notificationWith 101 "delivered" None]
                  [Sample.routineWith true 0]))))
  = [101]
  /\ routines
       (snd (RoutineRoutes.schedule 10 1
               (Sample.worldWith
                  [Sample.notificationWith 100 "pending" None;
                   Sample.notificationWith 101 "delivered" None]
                  [Sample.routineWith true 0])))
     = [Sample.routineWith true 0].
Proof.
  split; [reflexivity|].
  exact (proj1 (proj2
           (scheduleRoutineNotifications_only_deletes 10 1
              (Sample.worldWith
                 [Sample.notificationWith 100 "pending" None;
                  Sample.notificationWith 101 "delivered" None]
                 [Sample.routineWith true 0])
              (Sample.routineWith true 0) eq_refl))).
Defined.
